(** * Authorization ability engine of the NestJS RBAC/ABAC project

    A shallow embedding of
    - [parseConditions]        (permission/utils/conditions-parser.util.ts),
    - [createAbility]          (permission/casl-ability.factory.ts),
    - [getUserWithPermissions] (permission/permission.service.ts),
    and the properties of the engine proved over them; then of the
    request pipeline around them,
    - [verifyPostAccess]  (permission.service.ts, authorization.service.ts),
    - [PoliciesGuard]     (authorization/guards/policies.guard.ts),
    - the services and controllers of posts and users, [validateUser],
    - [AllExceptionsFilter] (common/filters/http-exception.filter.ts),
    and of what a request can and cannot do through it.

    The three functions of the engine delegate to libraries: [Mustache.render] (mustache),
    [_.cloneDeepWith] (lodash), [AbilityBuilder], [createMongoAbility] and
    the ability's [can] (@casl/ability, whose conditions matcher comes
    from @ucast/mongo2js).  The template engine and the conditions matcher
    are interfaces here ([TemplateEngine], [ConditionsMatcher]): what is
    proved about the repository's functions holds for every
    implementation of them.  Each library has a model, named after it,
    that follows the library's behaviour on the inputs it covers and
    answers [Unmodelled] on the others. *)

From Stdlib Require Import ZArith NArith List String Ascii Bool Lia.
From Stdlib Require Import DecimalString DecimalPos.
Import ListNotations.

Local Open Scope string_scope.
Local Open Scope list_scope.

(** ** Outcomes of JavaScript calls

    A call either completes with a value or raises an exception that
    propagates to the caller (nothing in the engine catches).  The third
    constructor marks inputs on which the library models below are silent:
    no statement is made about what the program does there. *)

Inductive Outcome (A : Type) : Type :=
| Returns (a : A)
| Throws (message : string)
| Unmodelled.

Arguments Returns {A} a.
Arguments Throws {A} message.
Arguments Unmodelled {A}.

Definition bind {A B : Type} (c : Outcome A) (k : A -> Outcome B) : Outcome B :=
  match c with
  | Returns a => k a
  | Throws e => Throws e
  | Unmodelled => Unmodelled
  end.

Notation "x <- c ;; k" := (bind c (fun x => k))
  (at level 61, c at next level, right associativity).

(** [Array.prototype.forEach]/[map] with a callback that may raise: the
    elements are visited left to right and the first exception aborts. *)
Fixpoint mapM {A B : Type} (f : A -> Outcome B) (l : list A) : Outcome (list B) :=
  match l with
  | [] => Returns []
  | x :: l' => y <- f x ;; ys <- mapM f l' ;; Returns (y :: ys)
  end.

(** [forEach] threading a state through a callback that may raise. *)
Fixpoint forEach {S A : Type} (f : S -> A -> Outcome S) (l : list A) (st : S)
  : Outcome S :=
  match l with
  | [] => Returns st
  | x :: l' => st' <- f st x ;; forEach f l' st'
  end.

(** ** JavaScript values *)

(** Numbers that occur in the engine: integers (ids, JSON integer leaves)
    and the [Infinity] that [Number] yields on an overlong digit string.
    Fractional doubles are not represented. *)
Inductive JsNumber : Type :=
| Int (z : Z)
| Infinity.

Definition JsNumber_eqb (a b : JsNumber) : bool :=
  match a, b with
  | Int x, Int y => Z.eqb x y
  | Infinity, Infinity => true
  | _, _ => false
  end.

(** A JSON value as Prisma hands it over ([Permission.conditions] is a
    [Json?] column).  [JObj] lists the own properties in insertion order;
    in a value that denotes a JS object the keys are pairwise distinct. *)
#[local] Unset Elimination Schemes.
Inductive Json : Type :=
| JNull
| JBool (b : bool)
| JNum (n : JsNumber)
| JStr (s : string)
| JArr (items : list Json)
| JObj (props : list (string * Json)).
#[local] Set Elimination Schemes.

(** Induction over [Json] that reaches the values nested in arrays and
    objects. *)
Fixpoint Json_nested_ind (P : Json -> Prop)
  (HNull : P JNull)
  (HBool : forall b, P (JBool b))
  (HNum : forall n, P (JNum n))
  (HStr : forall s, P (JStr s))
  (HArr : forall items, Forall P items -> P (JArr items))
  (HObj : forall props, Forall (fun kv => P (snd kv)) props -> P (JObj props))
  (v : Json) {struct v} : P v :=
  let rec := Json_nested_ind P HNull HBool HNum HStr HArr HObj in
  match v with
  | JNull => HNull
  | JBool b => HBool b
  | JNum n => HNum n
  | JStr s => HStr s
  | JArr items =>
      HArr items
        ((fix all (l : list Json) : Forall P l :=
            match l with
            | [] => Forall_nil P
            | x :: l' => Forall_cons x (rec x) (all l')
            end) items)
  | JObj props =>
      HObj props
        ((fix all (l : list (string * Json)) : Forall (fun kv => P (snd kv)) l :=
            match l with
            | [] => Forall_nil _
            | kv :: l' => Forall_cons kv (rec (snd kv)) (all l')
            end) props)
  end.

(** The value of an own property of a model object or of a resource
    instance.  [AOther] stands for a property whose value is not a
    primitive ([Date], array, nested object). *)
Inductive Attr : Type :=
| ANull
| ABool (b : bool)
| ANum (n : JsNumber)
| AStr (s : string)
| AOther.

(** [obj[key]] on the own properties; [None] is [undefined]. *)
Fixpoint getProperty (key : string) (props : list (string * Attr)) : option Attr :=
  match props with
  | [] => None
  | (k, v) :: rest => if String.eqb k key then Some v else getProperty key rest
  end.

(** ** Strings and numbers *)

(** ASCII members of the regular-expression class [\s]. *)
Definition isWhitespace (c : ascii) : bool :=
  let n := nat_of_ascii c in
  ((9 <=? n) && (n <=? 13) || (n =? 32))%nat.

(** The regular-expression class [\d]. *)
Definition isDigit (c : ascii) : bool :=
  let n := nat_of_ascii c in
  ((48 <=? n) && (n <=? 57))%nat.

(** [/^\d+$/.test(s)]: one or more characters, all of them digits. *)
Definition allDigits (s : string) : bool :=
  match s with
  | EmptyString => false
  | _ => forallb isDigit (list_ascii_of_string s)
  end.

Definition digitValue (c : ascii) : N := N.of_nat (nat_of_ascii c - 48).

Definition decimalValue (s : string) : N :=
  fold_left (fun acc c => (10 * acc + digitValue c)%N) (list_ascii_of_string s) 0%N.

(** The double nearest to a natural number (IEEE 754 binary64, ties to
    even): exact up to 53 significant bits, [Infinity] from 2^1024. *)
Definition roundToDouble (n : N) : JsNumber :=
  let bits := N.size n in
  if (bits <=? 53)%N then Int (Z.of_N n)
  else
    let e := (bits - 53)%N in
    let q := N.shiftr n e in
    let r := N.land n (N.ones e) in
    let half := N.shiftl 1 (e - 1) in
    let q' := if (half <? r)%N || ((r =? half)%N && N.odd q) then (q + 1)%N else q in
    let v := N.shiftl q' e in
    if (N.shiftl 1 1024 <=? v)%N then Infinity else Int (Z.of_N v).

(** [Number(s)] on a string of decimal digits. *)
Definition Number (s : string) : JsNumber := roundToDouble (decimalValue s).

(** [String(n)] where it is the plain decimal numeral (below 10^21 in
    magnitude; beyond, JavaScript switches to exponent notation). *)
Definition numberToString (n : JsNumber) : Outcome string :=
  match n with
  | Infinity => Returns "Infinity"
  | Int z =>
      if (Z.abs z <? 10 ^ 21)%Z then Returns (NilZero.string_of_int (Z.to_int z))
      else Unmodelled
  end.

(** ** Data model (Prisma rows as the service loads them) *)

(** The Prisma enum [Action]. *)
Inductive Action : Type := manage | create | read | update | delete.

Definition Action_eqb (a b : Action) : bool :=
  match a, b with
  | manage, manage | create, create | read, read
  | update, update | delete, delete => true
  | _, _ => false
  end.

(** Timestamps are milliseconds since the epoch. *)
Definition Timestamp : Type := Z.

Record Permission : Type := {
  action : Action;
  subject : string;
  conditions : Json            (* [JNull] when the column is NULL *)
}.

Record RolePermission : Type := { rp_permission : Permission }.

Record Role : Type := {
  role_name : string;
  role_isActive : bool;
  permissions : list RolePermission
}.

Record UserRole : Type := {
  role : Role;
  ur_expiresAt : option Timestamp
}.

Record UserPermission : Type := {
  permission : Permission;
  inverted : bool;
  reason : option string;
  up_expiresAt : option Timestamp
}.

(** A [User] row with its relations included.  [columns] holds the
    remaining scalar columns of the row (name, password, ...). *)
Record User : Type := {
  id : Z;
  email : string;
  isActive : bool;
  deletedAt : option Timestamp;
  columns : list (string * Attr);
  roles : list UserRole;
  directPermissions : list UserPermission
}.

(** The own properties of a user object, by name. *)
Definition userProperty (u : User) (name : string) : option Attr :=
  if String.eqb name "id" then Some (ANum (Int (id u)))
  else if String.eqb name "email" then Some (AStr (email u))
  else if String.eqb name "isActive" then Some (ABool (isActive u))
  else if String.eqb name "deletedAt" then
    Some (match deletedAt u with None => ANull | Some _ => AOther end)
  else if String.eqb name "roles" then Some AOther
  else if String.eqb name "directPermissions" then Some AOther
  else getProperty name (columns u).

(** ** The template engine

    [parseConditions] calls [Mustache.render(value, user)].  The engine is
    an interface of the development; the instance below models mustache.js
    with its default delimiters on ASCII templates whose tags are variable
    tags ([{{name}}], [{{&name}}], [{{{name}}}]) looked up among the own
    properties of the user.  A tag that is never closed raises, as in
    mustache.js, whatever its kind; sections, partials, comments and
    delimiter changes, dotted names and inherited members are
    [Unmodelled]. *)

Class TemplateEngine : Type :=
  render : string -> User -> Outcome string.

Module Mustache.

(** Tokens of a parsed template: a character of literal text, an escaped
    variable [{{name}}], an unescaped one ([{{{name}}}] or [{{&name}}]). *)
Inductive Token : Type :=
| TText (c : ascii)
| TEscaped (name : string)
| TUnescaped (name : string).

(** What the scanner is reading after an opening [{{]. *)
Inductive TagKind : Type :=
| KAwait                      (* the tag type has not been read yet *)
| KName                       (* [{{name}}] *)
| KAmp                        (* [{{&name}}] *)
| KCurly                      (* [{{{name}}}] *)
| KEquals (seenEquals : bool) (* [{{=<% %>=}}] *)
| KOther.                     (* section, inverted section, close, partial, comment *)

(** [tagRe = /#|\^|\/|>|\{|&|=|!/] *)
Definition tagTypeOf (c : ascii) : option TagKind :=
  if Ascii.eqb c "{" then Some KCurly
  else if Ascii.eqb c "&" then Some KAmp
  else if Ascii.eqb c "=" then Some (KEquals false)
  else if Ascii.eqb c "#" || Ascii.eqb c "^" || Ascii.eqb c "/"
          || Ascii.eqb c ">" || Ascii.eqb c "!" then Some KOther
  else None.

Fixpoint dropWhitespace (l : list ascii) : list ascii :=
  match l with
  | c :: l' => if isWhitespace c then dropWhitespace l' else l
  | [] => []
  end.

(** The tag value: the characters read (kept in reverse) without the
    whitespace that precedes the closing delimiter. *)
Definition tagValue (racc : list ascii) : string :=
  string_of_list_ascii (rev (dropWhitespace racc)).

Section Scanner.

(** The message of the error raised when a tag is never closed. *)
Variable unclosed : string.

(** [parseTemplate]'s loop with the default delimiters: [scanText]
    reads literal text up to the next [{{]; [scanTag] reads a tag up
    to its closing delimiter ([leading] is true while the whitespace
    in front of the tag value is being skipped). *)
Fixpoint scanText (s : string) : Outcome (list Token) :=
  match s with
  | EmptyString => Returns []
  | String c rest =>
      let literal := ts <- scanText rest ;; Returns (TText c :: ts) in
      match rest with
      | String c2 rest2 =>
          if Ascii.eqb c "{" && Ascii.eqb c2 "{"
          then scanTag KAwait true [] rest2
          else literal
      | EmptyString => literal
      end
  end
with scanTag (kind : TagKind) (leading : bool) (racc : list ascii) (s : string)
  : Outcome (list Token) :=
  match s with
  | EmptyString => Throws unclosed
  | String c rest =>
      let proceed (k : TagKind) (ld : bool) : Outcome (list Token) :=
        if ld && isWhitespace c then scanTag k true racc rest
        else scanTag k false (c :: racc) rest in
      let body (k : TagKind) (ld : bool) : Outcome (list Token) :=
        match k with
        | KCurly =>
            match rest with
            | String c2 (String c3 rest3) =>
                if Ascii.eqb c "}" && Ascii.eqb c2 "}" && Ascii.eqb c3 "}"
                then ts <- scanText rest3 ;;
                     Returns (TUnescaped (tagValue racc) :: ts)
                else proceed k ld
            | _ => proceed k ld
            end
        | KEquals false =>
            if Ascii.eqb c "=" then scanTag (KEquals true) true [] rest
            else proceed k ld
        | _ =>
            match rest with
            | String c2 rest2 =>
                if Ascii.eqb c "}" && Ascii.eqb c2 "}" then
                  match k with
                  | KName =>
                      ts <- scanText rest2 ;;
                      Returns (TEscaped (tagValue racc) :: ts)
                  | KAmp =>
                      ts <- scanText rest2 ;;
                      Returns (TUnescaped (tagValue racc) :: ts)
                  | _ => Unmodelled
                  end
                else proceed k ld
            | EmptyString => proceed k ld
            end
        end in
      match kind with
      | KAwait =>
          if isWhitespace c then scanTag KAwait true racc rest
          else match tagTypeOf c with
               | Some k => scanTag k true [] rest
               | None => body KName false
               end
      | _ => body kind leading
      end
  end.

End Scanner.

Definition isAscii (c : ascii) : bool := (nat_of_ascii c <? 128)%nat.

(** [parseTemplate(template)]; the positions in the error message are
    those of JavaScript for ASCII templates. *)
Definition parseTemplate (template : string) : Outcome (list Token) :=
  if forallb isAscii (list_ascii_of_string template) then
    scanText
      ("Unclosed tag at "
         ++ NilZero.string_of_uint (Nat.to_uint (String.length template)))%string
      template
  else Unmodelled.

(** Members of [Object.prototype] (and [constructor]) that the [in]
    operator finds on every object; looking one up calls a function. *)
Definition prototypeNames : list string :=
  [ "constructor"; "__proto__"; "__defineGetter__"; "__defineSetter__";
    "__lookupGetter__"; "__lookupSetter__"; "hasOwnProperty";
    "isPrototypeOf"; "propertyIsEnumerable"; "toString"; "valueOf";
    "toLocaleString" ].

Definition hasDot (name : string) : bool :=
  existsb (Ascii.eqb ".") (list_ascii_of_string name).

(** [Context.prototype.lookup(name)] on the user as the only view:
    [Some a] is a hit, [None] is [undefined]. *)
Definition lookup (name : string) (view : User) : Outcome (option Attr) :=
  if hasDot name then Unmodelled
  else
    match userProperty view name with
    | Some a => Returns (Some a)
    | None =>
        if existsb (String.eqb name) prototypeNames then Unmodelled
        else Returns None
    end.

Definition dquote : ascii := ascii_of_nat 34.

(** [escapeHtml]'s entity map. *)
Definition escapeChar (c : ascii) : string :=
  if Ascii.eqb c "&" then "&amp;"
  else if Ascii.eqb c "<" then "&lt;"
  else if Ascii.eqb c ">" then "&gt;"
  else if Ascii.eqb c dquote then "&quot;"
  else if Ascii.eqb c "'" then "&#39;"
  else if Ascii.eqb c "/" then "&#x2F;"
  else if Ascii.eqb c "`" then "&#x60;"
  else if Ascii.eqb c "=" then "&#x3D;"
  else String c EmptyString.

Fixpoint escapeHtml (s : string) : string :=
  match s with
  | EmptyString => EmptyString
  | String c rest => (escapeChar c ++ escapeHtml rest)%string
  end.

(** The text a looked-up value contributes; [null] and [undefined]
    contribute nothing. *)
Definition renderValue (escaped : bool) (v : option Attr) : Outcome string :=
  match v with
  | None | Some ANull => Returns ""
  | Some (ABool b) => Returns (if b then "true" else "false")
  | Some (ANum n) => numberToString n
  | Some (AStr s) => Returns (if escaped then escapeHtml s else s)
  | Some AOther => Unmodelled
  end.

Fixpoint renderTokens (tokens : list Token) (view : User) : Outcome string :=
  match tokens with
  | [] => Returns ""
  | TText c :: rest =>
      out <- renderTokens rest view ;; Returns (String c out)
  | TEscaped name :: rest =>
      v <- lookup name view ;;
      piece <- renderValue true v ;;
      out <- renderTokens rest view ;;
      Returns (piece ++ out)%string
  | TUnescaped name :: rest =>
      v <- lookup name view ;;
      piece <- renderValue false v ;;
      out <- renderTokens rest view ;;
      Returns (piece ++ out)%string
  end.

(** [Mustache.render(template, view)]: parse, then render. *)
Definition render (template : string) (view : User) : Outcome string :=
  tokens <- parseTemplate template ;;
  renderTokens tokens view.

End Mustache.

#[export] Instance Mustache_engine : TemplateEngine := Mustache.render.

(** ** The order of the properties of an object

    [Object.keys], and with it lodash and every [for...in], goes through
    the own properties of an object with the array indices first, in
    ascending numeric order, and the other names after them, in insertion
    order. *)

(** An array index: the canonical decimal numeral of an integer from 0
    to 2^32 - 2. *)
Definition arrayIndex (key : string) : option N :=
  let leadingZero :=
    match key with
    | String c (String _ _) => Ascii.eqb c "0"
    | _ => false
    end in
  if allDigits key && negb leadingZero then
    if (decimalValue key <? 4294967295)%N then Some (decimalValue key) else None
  else None.

Fixpoint insertByIndex {A : Type} (n : N) (entry : string * A)
    (sorted : list (N * (string * A))) : list (N * (string * A)) :=
  match sorted with
  | [] => [(n, entry)]
  | (m, e) :: rest =>
      if (n <? m)%N then (n, entry) :: sorted
      else (m, e) :: insertByIndex n entry rest
  end.

(** The properties named by an array index, in ascending order. *)
Fixpoint indexed {A : Type} (props : list (string * A)) : list (N * (string * A)) :=
  match props with
  | [] => []
  | entry :: rest =>
      match arrayIndex (fst entry) with
      | Some n => insertByIndex n entry (indexed rest)
      | None => indexed rest
      end
  end.

Definition isName {A : Type} (entry : string * A) : bool :=
  match arrayIndex (fst entry) with
  | Some _ => false
  | None => true
  end.

(** [Object.entries(object)] of the object whose properties were
    inserted in the order of [props]. *)
Definition Object_entries {A : Type} (props : list (string * A)) : list (string * A) :=
  map snd (indexed props) ++ filter isName props.

(** ** lodash *)

(** The copies of the properties of an object, made one after the
    other. *)
Fixpoint assignValues {A : Type} (entries : list (string * Outcome A))
  : Outcome (list (string * A)) :=
  match entries with
  | [] => Returns []
  | (key, copy) :: rest =>
      y <- copy ;;
      ys <- assignValues rest ;;
      Returns ((key, y) :: ys)
  end.

(** [_.cloneDeepWith(value, customizer)]: the customizer is asked first;
    when it answers [undefined] ([None]) a primitive is returned as it is,
    an array is copied element by element and an object property by
    property, in the order of its keys ([keys(value)]). *)
Fixpoint cloneDeepWith (customizer : Json -> Outcome (option Json)) (value : Json)
  : Outcome Json :=
  match customizer value with
  | Returns (Some result) => Returns result
  | Returns None =>
      match value with
      | JArr items =>
          copied <- (fix each (l : list Json) : Outcome (list Json) :=
                       match l with
                       | [] => Returns []
                       | x :: l' =>
                           y <- cloneDeepWith customizer x ;;
                           ys <- each l' ;;
                           Returns (y :: ys)
                       end) items ;;
          Returns (JArr copied)
      | JObj props =>
          copied <- assignValues
                      (Object_entries
                         ((fix each (l : list (string * Json))
                             : list (string * Outcome Json) :=
                             match l with
                             | [] => []
                             | (key, x) :: l' =>
                                 (key, cloneDeepWith customizer x) :: each l'
                             end) props)) ;;
          Returns (JObj copied)
      | _ => Returns value
      end
  | Throws e => Throws e
  | Unmodelled => Unmodelled
  end.

(** ** conditions-parser.util.ts *)

Section ConditionsParser.

Context {engine : TemplateEngine}.

(** The customizer that [parseConditions] hands to [cloneDeepWith]. *)
Definition renderLeaf (user : User) (value : Json) : Outcome (option Json) :=
  match value with
  | JStr template =>
      rendered <- render template user ;;
      if allDigits rendered then Returns (Some (JNum (Number rendered)))
      else Returns (Some (JStr rendered))
  | _ => Returns None
  end.

(** [parseConditions(conditions, user)]; [None] is [undefined]. *)
Definition parseConditions (conditions : Json) (user : User)
  : Outcome (option Json) :=
  match conditions with
  | JArr _ | JObj _ =>
      resolved <- cloneDeepWith (renderLeaf user) conditions ;;
      Returns (Some resolved)
  | _ => Returns None
  end.

End ConditionsParser.

(** ** CASL: rules and the builder

    [AbilityBuilder] of @casl/ability: [can] and [cannot] push raw rules
    onto the builder's [rules] array and [build] hands the array to
    [createMongoAbility]. *)

(** A raw rule as [AbilityBuilder] accumulates it. *)
Record RawRule : Type := {
  rule_action : Action;
  rule_subject : string;
  rule_conditions : option Json;
  rule_inverted : bool;
  rule_reason : option string
}.

Definition withInverted (r : RawRule) : RawRule :=
  {| rule_action := rule_action r; rule_subject := rule_subject r;
     rule_conditions := rule_conditions r; rule_inverted := true;
     rule_reason := rule_reason r |}.

Definition withReason (text : string) (r : RawRule) : RawRule :=
  {| rule_action := rule_action r; rule_subject := rule_subject r;
     rule_conditions := rule_conditions r; rule_inverted := rule_inverted r;
     rule_reason := Some text |}.

(** The ability that [build] returns: the rules in definition order. *)
Record Ability : Type := { rules : list RawRule }.

Module AbilityBuilder.

(** The rule that a [RuleBuilder] refers to is the one pushed last. *)
Fixpoint updateLast (f : RawRule -> RawRule) (l : list RawRule) : list RawRule :=
  match l with
  | [] => []
  | [r] => [f r]
  | r :: l' => r :: updateLast f l'
  end.

(** [can(action, subject, conditionsOrFields)] pushes a rule onto the
    builder's [rules].  An empty subject makes a rule without subject,
    and an array as third argument is read as a field list: neither
    belongs to the model. *)
Definition can (action : Action) (subject : string)
    (conditionsOrFields : option Json) (builder : list RawRule)
  : Outcome (list RawRule) :=
  let push (c : option Json) :=
    Returns (builder ++ [ {| rule_action := action; rule_subject := subject;
                             rule_conditions := c; rule_inverted := false;
                             rule_reason := None |} ]) in
  if String.eqb subject "" then Unmodelled
  else
    match conditionsOrFields with
    | None => push None
    | Some (JObj props) => push (Some (JObj props))
    | Some _ => Unmodelled
    end.

(** [cannot(...)]: [can(...)], then the pushed rule is marked inverted. *)
Definition cannot (action : Action) (subject : string)
    (conditionsOrFields : option Json) (builder : list RawRule)
  : Outcome (list RawRule) :=
  pushed <- can action subject conditionsOrFields builder ;;
  Returns (updateLast withInverted pushed).

(** [.because(reason)] on the builder of the rule pushed last. *)
Definition because (text : string) (builder : list RawRule) : list RawRule :=
  updateLast (withReason text) builder.

(** [build(options)]: [createMongoAbility] over the accumulated rules. *)
Definition build (builder : list RawRule) : Outcome Ability :=
  Returns {| rules := builder |}.

End AbilityBuilder.

(** ** casl-ability.factory.ts *)

Section Factory.

Context {engine : TemplateEngine}.

(** [dp.reason ?? ''] *)
Definition reasonOrEmpty (text : option string) : string :=
  match text with
  | Some t => t
  | None => ""
  end.

(** Step 1: one [can] per permission of each role, roles outermost. *)
Definition loadRolePermissions (user : User) (builder : list RawRule)
  : Outcome (list RawRule) :=
  forEach
    (fun b ur =>
       forEach
         (fun b' rp =>
            c <- parseConditions (conditions (rp_permission rp)) user ;;
            AbilityBuilder.can (action (rp_permission rp))
              (subject (rp_permission rp)) c b')
         (permissions (role ur)) b)
    (roles user) builder.

(** Step 2: the direct permissions that are not inverted. *)
Definition loadGrants (user : User) (builder : list RawRule)
  : Outcome (list RawRule) :=
  forEach
    (fun b dp =>
       c <- parseConditions (conditions (permission dp)) user ;;
       AbilityBuilder.can (action (permission dp)) (subject (permission dp)) c b)
    (filter (fun dp => negb (inverted dp)) (directPermissions user)) builder.

(** Step 3: the inverted ones, each with its reason. *)
Definition loadRevokes (user : User) (builder : list RawRule)
  : Outcome (list RawRule) :=
  forEach
    (fun b dp =>
       c <- parseConditions (conditions (permission dp)) user ;;
       pushed <- AbilityBuilder.cannot (action (permission dp))
                   (subject (permission dp)) c b ;;
       Returns (AbilityBuilder.because (reasonOrEmpty (reason dp)) pushed))
    (filter (fun dp => inverted dp) (directPermissions user)) builder.

(** [createAbility(user)]; [None] is a null user. *)
Definition createAbility (user : option User) : Outcome Ability :=
  builder <- match user with
             | Some u =>
                 b1 <- loadRolePermissions u [] ;;
                 b2 <- loadGrants u b1 ;;
                 loadRevokes u b2
             | None => Returns []
             end ;;
  AbilityBuilder.build builder.

End Factory.

(** ** CASL: evaluation

    The ability that [createMongoAbility] returns ([PureAbility] of
    @casl/ability): [can] asks [relevantRuleFor], which goes through the
    rules indexed for the action and the subject type, the rule defined
    last first, and answers the first one whose conditions match. *)

(** What a caller passes as subject: a subject-type string, or an instance
    of a wrapper class ([new Post(row)]) with its own properties. *)
Inductive Subject : Type :=
| TypeOnly (subjectType : string)
| Instance (className : string) (props : list (string * Attr)).

(** A string is its own subject type; on an instance the factory's
    [detectSubjectType] option answers [item.constructor.name]. *)
Definition detectSubjectType (s : Subject) : string :=
  match s with
  | TypeOnly t => t
  | Instance className _ => className
  end.

(** The [conditionsMatcher] option of an ability: whether the resolved
    conditions of a rule hold of the own properties of an instance. *)
Class ConditionsMatcher : Type :=
  matchConditions : Json -> list (string * Attr) -> Outcome bool.

Section Evaluation.

Context {matcher : ConditionsMatcher}.

(** Rules indexed under the queried action or [manage], and under the
    queried subject type or [all]. *)
Definition relevant (r : RawRule) (a : Action) (t : string) : bool :=
  (Action_eqb (rule_action r) a || Action_eqb (rule_action r) manage)
  && (String.eqb (rule_subject r) t || String.eqb (rule_subject r) "all").

(** [rulesFor(action, subjectType)]: the relevant rules, highest
    priority (defined last) first. *)
Definition rulesFor (ab : Ability) (a : Action) (t : string) : list RawRule :=
  rev (filter (fun r => relevant r a t) (rules ab)).

(** [Rule.matchesConditions(object)].  A rule without conditions matches.
    On a subject-type string the conditions are not evaluated and the rule
    matches unless it is inverted; the controllers are written for this:
    [PATCH posts/:id] is guarded by [ability.can(Action.update, 'Post')]
    and the ownership condition is checked afterwards, on the instance, by
    [verifyPostAccess].  On an instance the conditions matcher decides. *)
Definition matchesConditions (r : RawRule) (s : Subject) : Outcome bool :=
  match rule_conditions r with
  | None => Returns true
  | Some c =>
      match s with
      | TypeOnly _ => Returns (negb (rule_inverted r))
      | Instance _ props => matchConditions c props
      end
  end.

Fixpoint firstMatching (candidates : list RawRule) (s : Subject)
  : Outcome (option RawRule) :=
  match candidates with
  | [] => Returns None
  | r :: rest =>
      m <- matchesConditions r s ;;
      if m then Returns (Some r) else firstMatching rest s
  end.

(** [relevantRuleFor(action, subject)] *)
Definition relevantRuleFor (ab : Ability) (a : Action) (s : Subject)
  : Outcome (option RawRule) :=
  firstMatching (rulesFor ab a (detectSubjectType s)) s.

(** [ability.can(action, subject)] *)
Definition can (ab : Ability) (a : Action) (s : Subject) : Outcome bool :=
  found <- relevantRuleFor ab a s ;;
  Returns (match found with
           | Some r => negb (rule_inverted r)
           | None => false
           end).

(** [ability.cannot(action, subject)] *)
Definition cannot (ab : Ability) (a : Action) (s : Subject) : Outcome bool :=
  allowed <- can ab a s ;;
  Returns (negb allowed).

(** Whether a rule applies to a query: relevant, and its conditions
    match the subject. *)
Definition ruleMatches (r : RawRule) (a : Action) (s : Subject) : Outcome bool :=
  if relevant r a (detectSubjectType s) then matchesConditions r s
  else Returns false.

End Evaluation.

(** ** The Mongo conditions matcher

    [createMongoAbility] installs [mongoQueryMatcher] (@ucast/mongo2js).
    The model covers the queries the permissions of this project use: a
    conjunction of fields, each compared with a primitive (boolean, number,
    string) by equality or by [$ne], on properties that hold primitives.
    Everything else is [Unmodelled]. *)

Module MongoQuery.

(** A primitive operand of a field condition. *)
Inductive Operand : Type :=
| OBool (b : bool)
| ONum (n : JsNumber)
| OStr (s : string).

Inductive FieldCondition : Type :=
| Eq (field : string) (operand : Operand)
| Ne (field : string) (operand : Operand).

Definition operandOf (v : Json) : option Operand :=
  match v with
  | JBool b => Some (OBool b)
  | JNum n => Some (ONum n)
  | JStr s => Some (OStr s)
  | _ => None
  end.

Definition startsWithDollar (field : string) : bool :=
  match field with
  | String c _ => Ascii.eqb c "$"
  | EmptyString => false
  end.

(** A field name that is read as [object[field]]: no dotted path, no
    top-level operator, no inherited member. *)
Definition plainField (field : string) : bool :=
  negb (Mustache.hasDot field || startsWithDollar field
        || existsb (String.eqb field) Mustache.prototypeNames).

(** One entry of the conditions object.  Operators other than [$eq] and
    [$ne], dotted paths, top-level operators and non-primitive operands
    are left out. *)
Definition parseField (entry : string * Json) : Outcome FieldCondition :=
  let (field, v) := entry in
  if negb (plainField field) then Unmodelled
  else
    match operandOf v with
    | Some o => Returns (Eq field o)
    | None =>
        match v with
        | JObj [(op, w)] =>
            match operandOf w with
            | Some o =>
                if String.eqb op "$ne" then Returns (Ne field o)
                else if String.eqb op "$eq" then Returns (Eq field o)
                else Unmodelled
            | None => Unmodelled
            end
        | _ => Unmodelled
        end
    end.

Definition parse (conditions : Json) : Outcome (list FieldCondition) :=
  match conditions with
  | JObj props => mapM parseField props
  | _ => Unmodelled
  end.

(** [compare(value, operand) === 0], that is [value === operand], for a
    primitive operand. *)
Definition strictEquals (value : option Attr) (o : Operand) : Outcome bool :=
  match value with
  | Some AOther => Unmodelled
  | Some (ABool b) =>
      Returns (match o with OBool b' => Bool.eqb b b' | _ => false end)
  | Some (ANum n) =>
      Returns (match o with ONum n' => JsNumber_eqb n n' | _ => false end)
  | Some (AStr s) =>
      Returns (match o with OStr s' => String.eqb s s' | _ => false end)
  | Some ANull | None => Returns false
  end.

Definition interpret (c : FieldCondition) (object : list (string * Attr))
  : Outcome bool :=
  match c with
  | Eq field o => strictEquals (getProperty field object) o
  | Ne field o =>
      e <- strictEquals (getProperty field object) o ;;
      Returns (negb e)
  end.

(** The conjunction: [conditions.every(c => interpret(c, object))]. *)
Fixpoint every (q : list FieldCondition) (object : list (string * Attr))
  : Outcome bool :=
  match q with
  | [] => Returns true
  | c :: q' =>
      holds <- interpret c object ;;
      if holds then every q' object else Returns false
  end.

Definition matcher (conditions : Json) (object : list (string * Attr))
  : Outcome bool :=
  q <- parse conditions ;;
  every q object.

(** The operand as a JSON leaf and as a property value. *)
Definition jsonOf (o : Operand) : Json :=
  match o with
  | OBool b => JBool b
  | ONum n => JNum n
  | OStr s => JStr s
  end.

Definition attrOf (o : Operand) : Attr :=
  match o with
  | OBool b => ABool b
  | ONum n => ANum n
  | OStr s => AStr s
  end.

Definition fieldOf (c : FieldCondition) : string :=
  match c with
  | Eq field _ | Ne field _ => field
  end.

End MongoQuery.

#[export] Instance mongoQueryMatcher : ConditionsMatcher := MongoQuery.matcher.

(** ** permission.service.ts *)

(** [OR: [{ expiresAt: null }, { expiresAt: { gt: now } }]] *)
Definition notExpired (now : Timestamp) (expiresAt : option Timestamp) : bool :=
  match expiresAt with
  | None => true
  | Some t => (now <? t)%Z
  end.

(** The [where] clause on the included [roles]. *)
Definition roleIncluded (now : Timestamp) (ur : UserRole) : bool :=
  role_isActive (role ur) && notExpired now (ur_expiresAt ur).

(** The [where] clause on the included [directPermissions]. *)
Definition claimIncluded (now : Timestamp) (dp : UserPermission) : bool :=
  notExpired now (up_expiresAt dp).

(** [getUserWithPermissions(userId)] over the [User] table with all its
    relation rows.  The query evaluates [new Date()] once for each of the
    two relation filters. *)
Definition getUserWithPermissions (nowRoles nowClaims : Timestamp)
    (table : list User) (userId : Z) : option User :=
  match find (fun u => (id u =? userId)%Z && isActive u
                       && match deletedAt u with None => true | Some _ => false end)
             table with
  | Some u =>
      Some {| id := id u; email := email u; isActive := isActive u;
              deletedAt := deletedAt u; columns := columns u;
              roles := filter (roleIncluded nowRoles) (roles u);
              directPermissions :=
                filter (claimIncluded nowClaims) (directPermissions u) |}
  | None => None
  end.

(** ** The evaluation algorithm in the words of the specification *)

Module Spec.

Inductive Effect : Type := Allow | Deny.

Definition effectOf (r : RawRule) : Effect :=
  if rule_inverted r then Deny else Allow.

Section Scan.

Context {matcher : ConditionsMatcher}.

(** Section 4.4, step 2, in the words of the specification: a rule is
    considered when its action is the queried one or [manage] and its
    subject type is the queried one or [all]; without a condition it
    matches; with a condition it matches only if the subject carries a
    resource instance whose attributes satisfy the condition, so never on
    a bare subject-type string.  Whether the attributes of an instance
    satisfy a condition is left to the conditions matcher. *)
Definition matches (r : RawRule) (a : Action) (s : Subject) : Outcome bool :=
  if (Action_eqb (rule_action r) a || Action_eqb (rule_action r) manage)
     && (String.eqb (rule_subject r) (detectSubjectType s)
         || String.eqb (rule_subject r) "all")
  then
    match rule_conditions r with
    | None => Returns true
    | Some c =>
        match s with
        | TypeOnly _ => Returns false
        | Instance _ props => matchConditions c props
        end
    end
  else Returns false.

(** Section 4.4, step 2: the rules are scanned in stored order, index
    0 to n-1; a rule that matches records its effect and reason over
    whatever was recorded before. *)
Fixpoint scan (rs : list RawRule) (a : Action) (s : Subject)
    (recorded : option (Effect * option string))
  : Outcome (option (Effect * option string)) :=
  match rs with
  | [] => Returns recorded
  | r :: rest =>
      m <- matches r a s ;;
      scan rest a s (if m then Some (effectOf r, rule_reason r) else recorded)
  end.

(** Step 3: deny by default, otherwise the effect recorded last. *)
Definition decision (ab : Ability) (a : Action) (s : Subject) : Outcome Effect :=
  recorded <- scan (rules ab) a s None ;;
  Returns (match recorded with
           | Some (e, _) => e
           | None => Deny
           end).

(** Modelled from the spec: [reasonFor(ability, action, subject)]
    (sections 4.4 and 6) is not a function of the repository nor of
    the library; the specification has it return the reason recorded
    with a Deny decision.  It is read off the rule that
    [relevantRuleFor] answers, which is how a caller of the library
    reaches a rule's reason. *)
Definition reasonFor (ab : Ability) (a : Action) (s : Subject)
  : Outcome (option string) :=
  found <- relevantRuleFor ab a s ;;
  Returns (match found with
           | Some r => if rule_inverted r then rule_reason r else None
           | None => None
           end).

End Scan.

End Spec.

(** ** Structural equality of permission graphs *)

Definition option_eqb {A : Type} (eqb : A -> A -> bool) (x y : option A) : bool :=
  match x, y with
  | Some a, Some b => eqb a b
  | None, None => true
  | _, _ => false
  end.

Fixpoint list_eqb {A : Type} (eqb : A -> A -> bool) (l1 l2 : list A) : bool :=
  match l1, l2 with
  | [], [] => true
  | x :: l1', y :: l2' => eqb x y && list_eqb eqb l1' l2'
  | _, _ => false
  end.

Fixpoint Json_eqb (v w : Json) {struct v} : bool :=
  match v, w with
  | JNull, JNull => true
  | JBool b, JBool c => Bool.eqb b c
  | JNum n, JNum m => JsNumber_eqb n m
  | JStr s, JStr t => String.eqb s t
  | JArr xs, JArr ys =>
      (fix items (l1 l2 : list Json) {struct l1} : bool :=
         match l1, l2 with
         | [], [] => true
         | x :: l1', y :: l2' => Json_eqb x y && items l1' l2'
         | _, _ => false
         end) xs ys
  | JObj ps, JObj qs =>
      (fix props (l1 l2 : list (string * Json)) {struct l1} : bool :=
         match l1, l2 with
         | [], [] => true
         | (k, x) :: l1', (k', y) :: l2' =>
             String.eqb k k' && Json_eqb x y && props l1' l2'
         | _, _ => false
         end) ps qs
  | _, _ => false
  end.

Definition Attr_eqb (x y : Attr) : bool :=
  match x, y with
  | ANull, ANull => true
  | ABool b, ABool c => Bool.eqb b c
  | ANum n, ANum m => JsNumber_eqb n m
  | AStr s, AStr t => String.eqb s t
  | AOther, AOther => true
  | _, _ => false
  end.

Definition Permission_eqb (p q : Permission) : bool :=
  Action_eqb (action p) (action q)
  && String.eqb (subject p) (subject q)
  && Json_eqb (conditions p) (conditions q).

Definition RolePermission_eqb (p q : RolePermission) : bool :=
  Permission_eqb (rp_permission p) (rp_permission q).

Definition Role_eqb (r1 r2 : Role) : bool :=
  String.eqb (role_name r1) (role_name r2)
  && Bool.eqb (role_isActive r1) (role_isActive r2)
  && list_eqb RolePermission_eqb (permissions r1) (permissions r2).

Definition UserRole_eqb (x y : UserRole) : bool :=
  Role_eqb (role x) (role y)
  && option_eqb Z.eqb (ur_expiresAt x) (ur_expiresAt y).

Definition UserPermission_eqb (x y : UserPermission) : bool :=
  Permission_eqb (permission x) (permission y)
  && Bool.eqb (inverted x) (inverted y)
  && option_eqb String.eqb (reason x) (reason y)
  && option_eqb Z.eqb (up_expiresAt x) (up_expiresAt y).

(** Field-by-field comparison of two loaded users: the permission graph
    (roles, direct permissions) and the attributes that serve as the
    acting-user context. *)
Definition User_eqb (u v : User) : bool :=
  Z.eqb (id u) (id v)
  && String.eqb (email u) (email v)
  && Bool.eqb (isActive u) (isActive v)
  && option_eqb Z.eqb (deletedAt u) (deletedAt v)
  && list_eqb (fun x y => String.eqb (fst x) (fst y) && Attr_eqb (snd x) (snd y))
       (columns u) (columns v)
  && list_eqb UserRole_eqb (roles u) (roles v)
  && list_eqb UserPermission_eqb (directPermissions u) (directPermissions v).

(** ** Vocabulary of the statements *)

(** The permissions a user holds through roles, in the order in which
    [createAbility] iterates them. *)
Definition rolePermissions (u : User) : list Permission :=
  flat_map (fun ur => map rp_permission (permissions (role ur))) (roles u).

Definition grants (u : User) : list UserPermission :=
  filter (fun dp => negb (inverted dp)) (directPermissions u).

Definition revokes (u : User) : list UserPermission :=
  filter (fun dp => inverted dp) (directPermissions u).

(** [r] is the Allow rule of permission [p]: same action and subject, the
    condition template of [p] resolved against [u]. *)
Definition AllowRuleFor {engine : TemplateEngine} (u : User) (p : Permission)
    (r : RawRule) : Prop :=
  parseConditions (conditions p) u = Returns (rule_conditions r)
  /\ rule_action r = action p
  /\ rule_subject r = subject p
  /\ rule_inverted r = false
  /\ rule_reason r = None.

(** [r] is the Deny rule of the revoke claim [dp]. *)
Definition DenyRuleFor {engine : TemplateEngine} (u : User) (dp : UserPermission)
    (r : RawRule) : Prop :=
  parseConditions (conditions (permission dp)) u = Returns (rule_conditions r)
  /\ rule_action r = action (permission dp)
  /\ rule_subject r = subject (permission dp)
  /\ rule_inverted r = true
  /\ rule_reason r = Some (reasonOrEmpty (reason dp)).

(** The evaluation of every rule of [ab] on the subject [s] completes. *)
Definition EvaluatesOn {matcher : ConditionsMatcher} (ab : Ability) (s : Subject)
  : Prop :=
  Forall (fun r => exists m, matchesConditions r s = Returns m) (rules ab).

(** The query is one on which no condition goes unchecked: the subject is
    a resource instance, or it is a subject-type string and no Allow rule
    of [ab] that is relevant to the query carries a condition. *)
Definition ConditionsChecked (ab : Ability) (a : Action) (s : Subject) : Prop :=
  match s with
  | Instance _ _ => True
  | TypeOnly t =>
      forall r, In r (rules ab) -> relevant r a t = true ->
                rule_inverted r = false -> rule_conditions r = None
  end.

(** Every rule of [ab] that grants [(a, t)] carries a condition. *)
Definition OnlyConditionalGrants (ab : Ability) (a : Action) (t : string) : Prop :=
  forall r, In r (rules ab) -> relevant r a t = true ->
            rule_inverted r = false -> rule_conditions r <> None.

(** What [createAbility] reads of the permission graph of a user: the
    permissions held through roles, in the order of the roles and of
    their permissions, the permissions granted directly, and the
    permissions revoked directly, each with the reason of its claim. *)
Definition graphOf (u : User)
  : list Permission * list Permission * list (Permission * option string) :=
  (rolePermissions u,
   map permission (grants u),
   map (fun dp => (permission dp, reason dp)) (revokes u)).

(** Two users are the same acting-user context when their objects hold
    the same own properties, name by name. *)
Definition sameContext (u v : User) : Prop :=
  forall name, userProperty u name = userProperty v name.


(** [typeof v === 'object'] for a value that is not [null]. *)
Definition isObject (v : Json) : bool :=
  match v with
  | JArr _ | JObj _ => true
  | _ => false
  end.

(** The string leaves of a template, in the order of the traversal. *)
Fixpoint stringLeaves (v : Json) : list string :=
  match v with
  | JStr t => [t]
  | JArr items =>
      (fix each (l : list Json) : list string :=
         match l with
         | [] => []
         | x :: l' => stringLeaves x ++ each l'
         end) items
  | JObj props =>
      flat_map snd
        (Object_entries
           ((fix each (l : list (string * Json)) : list (string * list string) :=
               match l with
               | [] => []
               | (key, x) :: l' => (key, stringLeaves x) :: each l'
               end) props))
  | _ => []
  end.

(** The copy of a template in which every string leaf [t] is replaced by
    [leaf t] and everything else is kept. *)
Fixpoint mapLeaves (leaf : string -> Json) (v : Json) : Json :=
  match v with
  | JStr t => leaf t
  | JArr items =>
      JArr ((fix each (l : list Json) : list Json :=
               match l with
               | [] => []
               | x :: l' => mapLeaves leaf x :: each l'
               end) items)
  | JObj props =>
      JObj (Object_entries
              ((fix each (l : list (string * Json)) : list (string * Json) :=
                  match l with
                  | [] => []
                  | (key, x) :: l' => (key, mapLeaves leaf x) :: each l'
                  end) props))
  | _ => v
  end.

(** What becomes of a rendered leaf: a number when it is all digits, the
    string itself otherwise. *)
Definition coerce (rendered : string) : Json :=
  if allDigits rendered then JNum (Number rendered) else JStr rendered.

(** The rendered text of a leaf, where the engine returns one. *)
Definition renderedText {engine : TemplateEngine} (u : User) (t : string) : string :=
  match render t u with
  | Returns r => r
  | _ => ""
  end.

(** No two consecutive opening braces: the template has no tag. *)
Fixpoint tagFree (s : string) : bool :=
  match s with
  | String c rest =>
      match rest with
      | String c2 _ => negb (Ascii.eqb c "{" && Ascii.eqb c2 "{") && tagFree rest
      | EmptyString => true
      end
  | EmptyString => true
  end.

Definition isIdentifierChar (c : ascii) : bool :=
  let n := nat_of_ascii c in
  (((65 <=? n) && (n <=? 90)) || ((97 <=? n) && (n <=? 122))
   || ((48 <=? n) && (n <=? 57)) || (n =? 95))%nat.

(** A placeholder name made of letters, digits and underscores. *)
Definition isIdentifier (name : string) : bool :=
  match name with
  | EmptyString => false
  | _ => forallb isIdentifierChar (list_ascii_of_string name)
  end.

(** A name that is no property of the user object, own or inherited. *)
Definition unknownName (u : User) (name : string) : bool :=
  match userProperty u name with
  | Some _ => false
  | None => negb (existsb (String.eqb name) Mustache.prototypeNames)
  end.

(** [result] fails as [leaves] fails, and returns [value] when [leaves]
    returns. *)
Definition follows {A B : Type} (leaves : Outcome A) (result : Outcome B)
    (value : B) : Prop :=
  match leaves with
  | Returns _ => result = Returns value
  | Throws e => result = Throws e
  | Unmodelled => result = Unmodelled
  end.

(** ** Sample data

    Rows in the manner of prisma/data/rbac-sample-data.sql, and the
    resources the controllers test with. *)

Module Sample.

Definition perm (a : Action) (s : string) (c : Json) : Permission :=
  {| action := a; subject := s; conditions := c |}.

Definition roleOf (name : string) (active : bool) (ps : list Permission) : Role :=
  {| role_name := name; role_isActive := active;
     permissions := map (fun p => {| rp_permission := p |}) ps |}.

Definition assigned (r : Role) (expiresAt : option Timestamp) : UserRole :=
  {| role := r; ur_expiresAt := expiresAt |}.

Definition claim (p : Permission) (inv : bool) (why : option string) : UserPermission :=
  {| permission := p; inverted := inv; reason := why; up_expiresAt := None |}.

Definition userOf (n : Z) (mail : string) (rs : list UserRole)
    (dps : list UserPermission) : User :=
  {| id := n; email := mail; isActive := true; deletedAt := None;
     columns := [("name", AStr "Test"); ("password", AStr "password123")];
     roles := rs; directPermissions := dps |}.

(** [{"authorId": "{{id}}"}] and [{"authorId": {"$ne": "{{id}}"}}] *)
Definition ownPosts : Json := JObj [("authorId", JStr "{{id}}")].
Definition othersPosts : Json :=
  JObj [("authorId", JObj [("$ne", JStr "{{id}}")])].

Definition ADMIN : Role := roleOf "ADMIN" true [perm manage "all" JNull].

Definition EDITOR : Role :=
  roleOf "EDITOR" true [perm create "Post" JNull; perm update "Post" ownPosts].

Definition MODERATOR : Role := roleOf "MODERATOR" true [perm delete "Post" JNull].

Definition INACTIVE_ROLE : Role :=
  roleOf "INACTIVE_ROLE" false [perm read "Post" JNull].

Definition editor : User := userOf 2 "editor.simple@test.com" [assigned EDITOR None] [].

Definition directOnly : User :=
  userOf 5 "direct.only@test.com" []
    [claim (perm read "Post" JNull) false (Some "Acceso especial de lectura sin rol")].

Definition clean : User := userOf 6 "clean@test.com" [] [].

Definition sanctioned : User :=
  userOf 9 "sanctioned@test.com" [assigned MODERATOR None]
    [claim (perm delete "Post" JNull) true (Some "sanctioned")].

Definition silentlySanctioned : User :=
  userOf 9 "sanctioned@test.com" [assigned MODERATOR None]
    [claim (perm delete "Post" JNull) true None].

(** 2023-01-01 00:00:00 UTC, and a later moment. *)
Definition newYear2023 : Timestamp := 1672531200000%Z.
Definition today : Timestamp := 1793664000000%Z.

(** The editor's permissions held through two roles of other names, the
    second of them assigned until [today]. *)
Definition twoRoles : User :=
  userOf 2 "editor.simple@test.com"
    [ assigned (roleOf "AUTHOR" true [perm create "Post" JNull]) None;
      assigned (roleOf "OWNER" true [perm update "Post" ownPosts]) (Some today) ]
    [].

Definition expiredAdmin : User :=
  userOf 10 "expired.role@test.com"
    [assigned ADMIN (Some newYear2023); assigned INACTIVE_ROLE None] [].

(** A permission whose template has a tag that is never closed. *)
Definition brokenTemplate : Json := JObj [("authorId", JStr "{{id")].

Definition post (n author : Z) : Subject :=
  Instance "Post"
    [("id", ANum (Int n)); ("authorId", ANum (Int author));
     ("isPublished", ABool true)].

(** The rules [createAbility] compiles for [editor] and [sanctioned]. *)
Definition editorAbility : Ability :=
  {| rules :=
       [ {| rule_action := create; rule_subject := "Post";
            rule_conditions := None; rule_inverted := false;
            rule_reason := None |};
         {| rule_action := update; rule_subject := "Post";
            rule_conditions := Some (JObj [("authorId", JNum (Int 2))]);
            rule_inverted := false; rule_reason := None |} ] |}.

Definition sanctionedAbility : Ability :=
  {| rules :=
       [ {| rule_action := delete; rule_subject := "Post";
            rule_conditions := None; rule_inverted := false;
            rule_reason := None |};
         {| rule_action := delete; rule_subject := "Post";
            rule_conditions := None; rule_inverted := true;
            rule_reason := Some "sanctioned" |} ] |}.

End Sample.

(** * The request pipeline

    What stands around the engine: the services that load the post and
    the user and ask the ability, the guard that runs the policies of a
    route, the controllers of the posts, and the filter that turns what
    was thrown into the response. *)

(** ** Exceptions and completions *)

(** [PrismaErrorMeta] (interfaces/prisma-errors-interface.ts);
    [constraintFields] is [driverAdapterError.cause.constraint.fields]. *)
Inductive Target : Type :=
| TargetName (name : string)
| TargetNames (names : list string).

Record PrismaErrorMeta : Type := {
  target : option Target;
  constraintFields : option (list string);
  field_name : option string;
  modelName : option string;
  cause : option string
}.

(** What a [throw] carries: an [HttpException] of @nestjs/common with
    what [getStatus()] and [getResponse()] answer, the errors of the
    Prisma client, another [Error] with its message, or a value that is
    no [Error]. *)
Inductive Exception : Type :=
| HttpException (status : Z) (response : Json)
| PrismaClientKnownRequestError (code : string) (meta : option PrismaErrorMeta)
| PrismaClientValidationError
| PrismaClientInitializationError
| Error (message : string)
| Thrown.

(** How a call of the pipeline ends: with a value, or with an exception
    on its way to the filter (a rejected promise, for the [async]
    methods). *)
Inductive Completion (A : Type) : Type :=
| Completes (a : A)
| Raises (e : Exception)
| NotModelled.

Arguments Completes {A} a.
Arguments Raises {A} e.
Arguments NotModelled {A}.

Definition andThen {A B : Type} (c : Completion A) (k : A -> Completion B)
  : Completion B :=
  match c with
  | Completes a => k a
  | Raises e => Raises e
  | NotModelled => NotModelled
  end.

Notation "x <-- c ;; k" := (andThen c (fun x => k))
  (at level 61, c at next level, right associativity).

(** A call into the engine: what the libraries throw there is an
    [Error]. *)
Definition ofOutcome {A : Type} (c : Outcome A) : Completion A :=
  match c with
  | Returns a => Completes a
  | Throws text => Raises (Error text)
  | Unmodelled => NotModelled
  end.

(** The built-in exceptions of @nestjs/common, for the two kinds of
    argument the project passes: a message, or the response object. *)
Module Nest.

Inductive Argument : Type :=
| Message (text : string)
| Body (props : list (string * Json)).

(** [HttpException.createBody(objectOrError, description, statusCode)] *)
Definition createBody (arg : Argument) (description : string) (statusCode : Z)
  : Json :=
  match arg with
  | Message text =>
      JObj [("message", JStr text); ("error", JStr description);
            ("statusCode", JNum (Int statusCode))]
  | Body props => JObj props
  end.

Definition UnauthorizedException (arg : Argument) : Exception :=
  HttpException 401 (createBody arg "Unauthorized" 401).

Definition ForbiddenException (arg : Argument) : Exception :=
  HttpException 403 (createBody arg "Forbidden" 403).

Definition NotFoundException (arg : Argument) : Exception :=
  HttpException 404 (createBody arg "Not Found" 404).

(** A route under [@UseGuards(guard)]: the handler runs when the guard
    answers true; on false the router throws
    [ForbiddenException('Forbidden resource')]. *)
Definition UseGuards {A : Type} (guard : Completion bool) (handler : Completion A)
  : Completion A :=
  activated <-- guard ;;
  if activated then handler
  else Raises (ForbiddenException (Message "Forbidden resource")).

End Nest.

(** ** Rows of the database *)

(** A row of the [Post] table. *)
Record Post : Type := {
  post_id : Z;
  title : string;
  content : string;
  authorId : Z;
  isPublished : bool;
  createdAt : Timestamp;
  updatedAt : Timestamp
}.

(** The own properties of [new Post(row)]: [Object.assign] copies every
    column of the row. *)
Definition postProperties (p : Post) : list (string * Attr) :=
  [ ("id", ANum (Int (post_id p))); ("title", AStr (title p));
    ("content", AStr (content p)); ("authorId", ANum (Int (authorId p)));
    ("isPublished", ABool (isPublished p));
    ("createdAt", AOther); ("updatedAt", AOther) ].

Definition newPost (p : Post) : Subject := Instance "Post" (postProperties p).

Record Database : Type := {
  users : list User;
  posts : list Post
}.

(** The two [new Date()] of one [getUserWithPermissions] query. *)
Record Clock : Type := {
  rolesNow : Timestamp;
  claimsNow : Timestamp
}.

(** The values of the Prisma enum [Action] are their names. *)
Definition actionName (a : Action) : string :=
  match a with
  | manage => "manage"
  | create => "create"
  | read => "read"
  | update => "update"
  | delete => "delete"
  end.

(** [obj[key]] on a JSON object. *)
Fixpoint jsonProperty (key : string) (props : list (string * Json)) : option Json :=
  match props with
  | [] => None
  | (k, v) :: rest => if String.eqb k key then Some v else jsonProperty key rest
  end.

(** [{ ...obj, [key]: value }]: the property is set where the object
    has it, and added at the end otherwise. *)
Fixpoint setProperty (key : string) (value : Attr) (props : list (string * Attr))
  : list (string * Attr) :=
  match props with
  | [] => [(key, value)]
  | (k, v) :: rest =>
      if String.eqb k key then (k, value) :: rest
      else (k, v) :: setProperty key value rest
  end.

Module Prisma.

(** [prisma.post.findUnique({ where: { id } })] *)
Definition findUnique (table : list Post) (id : Z) : option Post :=
  find (fun p => (post_id p =? id)%Z) table.

(** [prisma.post.delete({ where: { id } })] on a row that is there: the
    row leaves the table and is returned. *)
Definition delete (table : list Post) (id : Z) : Completion (Post * list Post) :=
  match findUnique table id with
  | Some row => Completes (row, filter (fun p => negb (post_id p =? id)%Z) table)
  | None => NotModelled
  end.

End Prisma.

(** ** permission.service.ts: verifyPostAccess *)

Module PermissionService.

Section Service.

Context {engine : TemplateEngine} {matcher : ConditionsMatcher}.

Variable now : Clock.
Variable db : Database.

Definition getPostById (postId : Z) : option Post :=
  Prisma.findUnique (posts db) postId.

(** The response object of the [ForbiddenException] of step 5. *)
Definition denied (action : Action) (post : Post) (user : User)
  : list (string * Json) :=
  [ ("message",
     JStr ("No tienes permiso para " ++ actionName action ++ " este post")%string);
    ("details",
     JObj [ ("action", JStr (actionName action));
            ("postId", JNum (Int (post_id post)));
            ("postAuthorId", JNum (Int (authorId post)));
            ("userId", JNum (Int (id user)));
            ("reason",
             JStr (if negb (authorId post =? id user)%Z
                   then "No eres el autor de este post"
                   else "Permiso denegado por política de seguridad")) ]) ].

(** The object returned when the action is allowed. *)
Definition granted (action : Action) (post : Post) (user : User) : Json :=
  JObj [ ("success", JBool true);
         ("verification",
          JObj [ ("action", JStr (actionName action));
                 ("allowed", JBool true);
                 ("user", JObj [ ("id", JNum (Int (id user)));
                                 ("email", JStr (email user)) ]);
                 ("post", JObj [ ("id", JNum (Int (post_id post)));
                                 ("title", JStr (title post));
                                 ("authorId", JNum (Int (authorId post))) ]);
                 ("isOwner", JBool (authorId post =? id user)%Z);
                 ("message",
                  JStr (if (authorId post =? id user)%Z
                        then "Acceso permitido: Eres el autor del post"
                        else "Acceso permitido: Tienes permisos especiales")) ]) ].

Definition verifyPostAccess (userId postId : Z) (action : Action)
  : Completion Json :=
  match getPostById postId with
  | None =>
      numeral <-- ofOutcome (numberToString (Int postId)) ;;
      Raises (Nest.NotFoundException
                (Nest.Message ("Post con ID " ++ numeral ++ " no encontrado")%string))
  | Some post =>
      match getUserWithPermissions (rolesNow now) (claimsNow now) (users db) userId with
      | None =>
          Raises (Nest.ForbiddenException
                    (Nest.Message "Usuario no encontrado o inactivo"))
      | Some user =>
          ability <-- ofOutcome (createAbility (Some user)) ;;
          canPerformAction <-- ofOutcome (can ability action (newPost post)) ;;
          if negb canPerformAction
          then Raises (Nest.ForbiddenException (Nest.Body (denied action post user)))
          else Completes (granted action post user)
      end
  end.

End Service.

End PermissionService.

(** ** authorization.service.ts

    The service of the authorization module: the same query for the
    user, and [verifyPostAccess] without the closing message. *)

Module AuthorizationService.

Section Service.

Context {engine : TemplateEngine} {matcher : ConditionsMatcher}.

Variable now : Clock.
Variable db : Database.

Definition granted (action : Action) (post : Post) (user : User) : Json :=
  JObj [ ("success", JBool true);
         ("verification",
          JObj [ ("action", JStr (actionName action));
                 ("allowed", JBool true);
                 ("user", JObj [ ("id", JNum (Int (id user)));
                                 ("email", JStr (email user)) ]);
                 ("post", JObj [ ("id", JNum (Int (post_id post)));
                                 ("title", JStr (title post));
                                 ("authorId", JNum (Int (authorId post))) ]);
                 ("isOwner", JBool (authorId post =? id user)%Z) ]) ].

Definition verifyPostAccess (userId postId : Z) (action : Action)
  : Completion Json :=
  match Prisma.findUnique (posts db) postId with
  | None =>
      numeral <-- ofOutcome (numberToString (Int postId)) ;;
      Raises (Nest.NotFoundException
                (Nest.Message ("Post con ID " ++ numeral ++ " no encontrado")%string))
  | Some post =>
      match getUserWithPermissions (rolesNow now) (claimsNow now) (users db) userId with
      | None =>
          Raises (Nest.ForbiddenException
                    (Nest.Message "Usuario no encontrado o inactivo"))
      | Some user =>
          ability <-- ofOutcome (createAbility (Some user)) ;;
          canPerformAction <-- ofOutcome (can ability action (newPost post)) ;;
          if negb canPerformAction
          then Raises (Nest.ForbiddenException
                         (Nest.Body (PermissionService.denied action post user)))
          else Completes (granted action post user)
      end
  end.

End Service.

End AuthorizationService.

(** ** policies.guard.ts *)

(** [request.user], as [JwtStrategy.validate] leaves it. *)
Record UserPayload : Type := {
  payload_id : Z;
  payload_email : string
}.

(** [PolicyHandler] (interfaces/policy-handler.interface.ts): a callback,
    or an object with a [handle] method. *)
Inductive PolicyHandler : Type :=
| PolicyHandlerCallback (callback : Ability -> Completion bool)
| IPolicyHandler (handle : Ability -> Completion bool).

Module PoliciesGuard.

Definition execPolicyHandler (handler : PolicyHandler) (ability : Ability)
  : Completion bool :=
  match handler with
  | PolicyHandlerCallback callback => callback ability
  | IPolicyHandler handle => handle ability
  end.

(** [Array.prototype.every]: the elements in order, up to the first one
    the callback refuses. *)
Fixpoint every {A : Type} (callback : A -> Completion bool) (l : list A)
  : Completion bool :=
  match l with
  | [] => Completes true
  | x :: l' =>
      accepted <-- callback x ;;
      if accepted then every callback l' else Completes false
  end.

Section Guard.

Context {engine : TemplateEngine}.

Variable now : Clock.
Variable db : Database.

(** [canActivate(context)]: [metadata] is what the reflector finds under
    [CHECK_POLICIES_KEY] on the handler of the route, [requestUser] is
    [request.user]. *)
Definition canActivate (metadata : option (list PolicyHandler))
    (requestUser : option UserPayload) : Completion bool :=
  let policyHandlers :=
    match metadata with
    | Some handlers => handlers
    | None => []
    end in
  match requestUser with
  | None => Completes false
  | Some userPayload =>
      match getUserWithPermissions (rolesNow now) (claimsNow now) (users db)
              (payload_id userPayload) with
      | None => Completes false
      | Some user =>
          ability <-- ofOutcome (createAbility (Some user)) ;;
          isAllowed <-- every (fun handler => execPolicyHandler handler ability)
                          policyHandlers ;;
          if negb isAllowed
          then Raises (Nest.ForbiddenException
                         (Nest.Message "No tienes permiso para realizar esta acción"))
          else Completes true
      end
  end.

End Guard.

End PoliciesGuard.

(** [@CheckPolicies((ability) => ability.can(action, 'Post'))] *)
Definition CheckPolicies {matcher : ConditionsMatcher} (action : Action)
    (subjectType : string) : option (list PolicyHandler) :=
  Some [ PolicyHandlerCallback
           (fun ability => ofOutcome (can ability action (TypeOnly subjectType))) ].

(** ** posts.service.ts and posts.controller.ts *)

Module PostsService.

Definition findAll (db : Database) : Completion (list Post) :=
  Completes (posts db).

Definition findOne (db : Database) (id : Z) : Completion Post :=
  match Prisma.findUnique (posts db) id with
  | Some post => Completes post
  | None =>
      numeral <-- ofOutcome (numberToString (Int id)) ;;
      Raises (Nest.NotFoundException
                (Nest.Message ("Post con ID " ++ numeral ++ " no encontrado")%string))
  end.

(** [remove(id)]: the row that was deleted, and the database after. *)
Definition remove (db : Database) (id : Z) : Completion (Post * Database) :=
  _ <-- findOne db id ;;
  deleted <-- Prisma.delete (posts db) id ;;
  Completes (fst deleted, {| users := users db; posts := snd deleted |}).

Section Writes.

(** [prisma.post.create({ data })] and
    [prisma.post.update({ where: { id }, data })]: what the Prisma client
    makes of the data is left open; each answers the row and the
    database after. *)
Variable prismaCreate
  : list (string * Attr) -> Database -> Completion (Post * Database).
Variable prismaUpdate
  : Z -> list (string * Attr) -> Database -> Completion (Post * Database).

Definition create (db : Database) (data : list (string * Attr))
  : Completion (Post * Database) :=
  prismaCreate data db.

Definition update (db : Database) (id : Z) (data : list (string * Attr))
  : Completion (Post * Database) :=
  _ <-- findOne db id ;;
  prismaUpdate id data db.

End Writes.

End PostsService.

Module PostsController.

Section Controller.

Context {engine : TemplateEngine} {matcher : ConditionsMatcher}.

(** The instants of the guard's query and of the service's. *)
Variable guardNow serviceNow : Clock.
Variable db : Database.

(** [GET posts] *)
Definition findAll (requestUser : option UserPayload) : Completion (list Post) :=
  Nest.UseGuards
    (PoliciesGuard.canActivate guardNow db (CheckPolicies read "Post") requestUser)
    (PostsService.findAll db).

(** The body of a handler that reads [user.id] off [@CurrentUser()]. *)
Definition withCurrentUser {A : Type} (requestUser : option UserPayload)
    (body : UserPayload -> Completion A) : Completion A :=
  match requestUser with
  | Some user => body user
  | None => NotModelled
  end.

(** [GET posts/:id] *)
Definition findOne (id : Z) (requestUser : option UserPayload) : Completion Post :=
  Nest.UseGuards
    (PoliciesGuard.canActivate guardNow db (CheckPolicies read "Post") requestUser)
    (withCurrentUser requestUser (fun user =>
       _ <-- AuthorizationService.verifyPostAccess serviceNow db
               (payload_id user) id read ;;
       PostsService.findOne db id)).

(** [DELETE posts/:id] *)
Definition remove (id : Z) (requestUser : option UserPayload)
  : Completion (Post * Database) :=
  Nest.UseGuards
    (PoliciesGuard.canActivate guardNow db (CheckPolicies delete "Post") requestUser)
    (withCurrentUser requestUser (fun user =>
       _ <-- AuthorizationService.verifyPostAccess serviceNow db
               (payload_id user) id delete ;;
       PostsService.remove db id)).

Variable prismaCreate
  : list (string * Attr) -> Database -> Completion (Post * Database).
Variable prismaUpdate
  : Z -> list (string * Attr) -> Database -> Completion (Post * Database).

(** [PATCH posts/:id] *)
Definition update (id : Z) (updatePostDto : list (string * Attr))
    (requestUser : option UserPayload) : Completion (Post * Database) :=
  Nest.UseGuards
    (PoliciesGuard.canActivate guardNow db (CheckPolicies update "Post") requestUser)
    (withCurrentUser requestUser (fun user =>
       _ <-- AuthorizationService.verifyPostAccess serviceNow db
               (payload_id user) id update ;;
       PostsService.update prismaUpdate db id updatePostDto)).

(** [POST posts]: the data are [{ ...createPostDto, authorId: user.id }]. *)
Definition create (createPostDto : list (string * Attr))
    (requestUser : option UserPayload) : Completion (Post * Database) :=
  Nest.UseGuards
    (PoliciesGuard.canActivate guardNow db (CheckPolicies create "Post") requestUser)
    (withCurrentUser requestUser (fun user =>
       PostsService.create prismaCreate db
         (setProperty "authorId" (ANum (Int (payload_id user))) createPostDto))).

End Controller.

End PostsController.

(** ** http-exception.filter.ts *)

Module AllExceptionsFilter.

(** A string in a condition: every string but the empty one counts as
    true. *)
Definition truthy (s : string) : bool := negb (String.eqb s "").

(** [meta?.modelName ? ` (${meta.modelName})` : ''] *)
Definition modelOf (meta : option PrismaErrorMeta) : string :=
  match meta with
  | Some m =>
      match modelName m with
      | Some name => if truthy name then (" (" ++ name ++ ")")%string else ""
      | None => ""
      end
  | None => ""
  end.

(** [meta?.target || meta?.driverAdapterError?.cause?.constraint?.fields
    || meta?.field_name]: the first operand that counts as true, the
    last one otherwise.  [None] is [undefined]. *)
Definition rawFields (meta : option PrismaErrorMeta) : option Target :=
  match meta with
  | None => None
  | Some m =>
      let rest :=
        match constraintFields m with
        | Some names => Some (TargetNames names)
        | None => option_map TargetName (field_name m)
        end in
      match target m with
      | Some (TargetNames names) => Some (TargetNames names)
      | Some (TargetName name) => if truthy name then Some (TargetName name) else rest
      | None => rest
      end
  end.

Definition getFields (meta : option PrismaErrorMeta) : string :=
  match rawFields meta with
  | Some (TargetNames names) => String.concat ", " names
  | Some (TargetName name) => name
  | None => "campo"
  end.

(** [meta?.modelName || meta?.cause || 'recurso'] *)
Definition resourceOf (meta : option PrismaErrorMeta) : string :=
  let second :=
    match meta with
    | Some m =>
        match cause m with
        | Some text => if truthy text then text else "recurso"
        | None => "recurso"
        end
    | None => "recurso"
    end in
  match meta with
  | Some m =>
      match modelName m with
      | Some name => if truthy name then name else second
      | None => second
      end
  | None => second
  end.

(** [handlePrismaError(exception)]: the status and the message. *)
Definition handlePrismaError (code : string) (meta : option PrismaErrorMeta)
  : Z * string :=
  if String.eqb code "P2002" then
    (409%Z,
     ("Ya existe un registro con este valor en el campo: "
      ++ getFields meta ++ modelOf meta ++ ".")%string)
  else if String.eqb code "P2003" then
    (400%Z,
     ("Error de referencia: El dato en '" ++ getFields meta
      ++ "' no es válido en la relación" ++ modelOf meta ++ ".")%string)
  else if String.eqb code "P2005" then
    (400%Z,
     ("El valor para '" ++ getFields meta
      ++ "' es inválido para la base de datos" ++ modelOf meta ++ ".")%string)
  else if String.eqb code "P2006" then
    (400%Z,
     ("El formato para '" ++ getFields meta
      ++ "' es inválido para la base de datos" ++ modelOf meta ++ ".")%string)
  else if String.eqb code "P2025" then
    (404%Z,
     ("El " ++ resourceOf meta
      ++ " solicitado no existe o no fue encontrado.")%string)
  else
    (400%Z, ("Error de base de datos (Prisma Code: " ++ code ++ ")")%string).

(** [String(res)] of a response that is no object. *)
Definition stringOf (res : Json) : Outcome string :=
  match res with
  | JStr s => Returns s
  | JNull => Returns "null"
  | JBool b => Returns (if b then "true" else "false")
  | JNum n => numberToString n
  | JArr _ | JObj _ => Unmodelled
  end.

(** The body that [response.json] sends; [timestamp] is the instant that
    [toISOString] prints, and a [message] that is [undefined] ([None])
    is left out of the JSON text. *)
Record ErrorBody : Type := {
  success : bool;
  statusCode : Z;
  timestamp : Timestamp;
  path : string;
  message : option Json
}.

(** What [response.status(status).json(body)] sends. *)
Record Reply : Type := {
  status : Z;
  json : ErrorBody
}.

(** [catch(exception, host)] for a request of [url] at the instant
    [now]. *)
Definition catch (now : Timestamp) (url : string) (exception : Exception)
  : Outcome Reply :=
  found <-
    match exception with
    | PrismaClientKnownRequestError code meta =>
        let prismaError := handlePrismaError code meta in
        Returns (fst prismaError, Some (JStr (snd prismaError)))
    | PrismaClientValidationError =>
        Returns (400%Z,
                 Some (JStr "Error de validación de datos en la persistencia (Esquema inválido)."))
    | PrismaClientInitializationError =>
        Returns (503%Z,
                 Some (JStr "No se pudo establecer conexión con la base de datos."))
    | HttpException httpStatus res =>
        match res with
        | JObj props => Returns (httpStatus, jsonProperty "message" props)
        | JArr _ => Returns (httpStatus, None)
        | _ => text <- stringOf res ;; Returns (httpStatus, Some (JStr text))
        end
    | Error text => Returns (500%Z, Some (JStr text))
    | Thrown => Returns (500%Z, Some (JStr "Internal server error"))
    end ;;
  Returns {| status := fst found;
             json := {| success := false; statusCode := fst found;
                        timestamp := now; path := url;
                        message := snd found |} |}.

End AllExceptionsFilter.

(** ** users.service.ts *)

Module UsersService.

(** The scalar columns of a [User] row, as [findUnique] and [update]
    return them (no relation is included).  A [Date] is an [AOther]. *)
Definition rowProperties (u : User) : list (string * Attr) :=
  [ ("id", ANum (Int (id u))); ("email", AStr (email u));
    ("isActive", ABool (isActive u));
    ("deletedAt", match deletedAt u with None => ANull | Some _ => AOther end) ]
  ++ columns u.

(** [const { password, ...result } = user] *)
Definition withoutPassword (props : list (string * Attr)) : list (string * Attr) :=
  filter (fun kv => negb (String.eqb (fst kv) "password")) props.

(** [findOne(id)]; [None] is [null]. *)
Definition findOne (table : list User) (userId : Z)
  : option (list (string * Attr)) :=
  match find (fun u => (id u =? userId)%Z) table with
  | Some user => Some (withoutPassword (rowProperties user))
  | None => None
  end.

Definition markDeleted (now : Timestamp) (u : User) : User :=
  {| id := id u; email := email u; isActive := isActive u;
     deletedAt := Some now; columns := columns u;
     roles := roles u; directPermissions := directPermissions u |}.

(** [remove(id)]: [prisma.user.update] sets [deletedAt] on the row of a
    user that is there; the row without its password, and the table
    after. *)
Definition remove (now : Timestamp) (table : list User) (userId : Z)
  : Completion (list (string * Attr) * list User) :=
  match find (fun u => (id u =? userId)%Z) table with
  | Some user =>
      Completes
        (withoutPassword (rowProperties (markDeleted now user)),
         map (fun u => if (id u =? userId)%Z then markDeleted now u else u) table)
  | None => NotModelled
  end.


End UsersService.

(** ** authentication.service.ts *)

Module AuthenticationService.

Section Service.

(** [bcrypt.compare(data, encrypted)] *)
Variable compare : string -> string -> bool.


End Service.

End AuthenticationService.

(** ** Vocabulary of the pipeline *)

(** Whether the rule that [relevantRuleFor] answers lets the caller
    through. *)
Definition allowedBy (found : option RawRule) : bool :=
  match found with
  | Some r => negb (rule_inverted r)
  | None => false
  end.

(** The rule that [createAbility] pushes for one permission: [inv] and
    [why] are what [cannot] and [because] set. *)
Definition compileRule {engine : TemplateEngine} (u : User) (inv : bool)
    (why : option string) (p : Permission) : Outcome RawRule :=
  c <- parseConditions (conditions p) u ;;
  if String.eqb (subject p) "" then Unmodelled
  else
    match c with
    | None | Some (JObj _) =>
        Returns {| rule_action := action p; rule_subject := subject p;
                   rule_conditions := c; rule_inverted := inv;
                   rule_reason := why |}
    | Some _ => Unmodelled
    end.

Definition compileRevoke {engine : TemplateEngine} (u : User)
    (dp : UserPermission) : Outcome RawRule :=
  compileRule u true (Some (reasonOrEmpty (reason dp))) (permission dp).

(** The user with other direct permissions. *)
Definition withClaims (u : User) (claims : list UserPermission) : User :=
  {| id := id u; email := email u; isActive := isActive u;
     deletedAt := deletedAt u; columns := columns u;
     roles := roles u; directPermissions := claims |}.

(** A permission speaks of a query when its action is the queried one or
    [manage] and its subject the queried type or [all]. *)
Definition speaksOf (p : Permission) (a : Action) (t : string) : bool :=
  (Action_eqb (action p) a || Action_eqb (action p) manage)
  && (String.eqb (subject p) t || String.eqb (subject p) "all").

(** [{ "authorId": "{{id}}" }]: the resource belongs to the user. *)
Definition ownResource : Json := JObj [("authorId", JStr "{{id}}")].

(** ** A database in the manner of the sample data *)

Module Scenario.

Definition postOf (n : Z) (heading text : string) (author : Z) (published : bool)
  : Post :=
  {| post_id := n; title := heading; content := text; authorId := author;
     isPublished := published; createdAt := Sample.newYear2023;
     updatedAt := Sample.newYear2023 |}.

Definition admin : User :=
  Sample.userOf 1 "admin@system.com" [Sample.assigned Sample.ADMIN None] [].

(** A user whose account was deleted softly. *)
Definition gone : User :=
  {| id := 8; email := "deleted@test.com"; isActive := true;
     deletedAt := Some Sample.newYear2023;
     columns := [("name", AStr "Test"); ("password", AStr "password123")];
     roles := [Sample.assigned Sample.ADMIN None]; directPermissions := [] |}.

(** A user with a permission whose template cannot be parsed. *)
Definition broken : User :=
  Sample.userOf 13 "broken@test.com"
    [Sample.assigned
       (Sample.roleOf "BROKEN" true [Sample.perm update "Post" Sample.brokenTemplate])
       None] [].

(** A user who may read their own posts. *)
Definition reader : User :=
  Sample.userOf 14 "reader@test.com"
    [Sample.assigned
       (Sample.roleOf "AUTHOR" true [Sample.perm read "Post" ownResource])
       None] [].

Definition database : Database :=
  {| users := [ admin; Sample.editor; Sample.directOnly; Sample.clean; gone;
                Sample.sanctioned; Sample.expiredAdmin; broken; reader ];
     posts := [ postOf 1 "Post de Admin" "Contenido del admin" 1 true;
                postOf 2 "Post de Editor" "Contenido del editor" 2 true;
                postOf 3 "Borrador de Editor" "Aún no publicado" 2 false;
                postOf 4 "Post de Sancionado" "Contenido del usuario sancionado" 9 true ] |}.

Definition clock : Clock :=
  {| rolesNow := Sample.today; claimsNow := Sample.today |}.

Definition signedIn (u : User) : option UserPayload :=
  Some {| payload_id := id u; payload_email := email u |}.

End Scenario.

(** * Properties *)

(** ** The outcome monad *)

Lemma bind_Returns {A B : Type} (c : Outcome A) (k : A -> Outcome B) (b : B) :
  bind c k = Returns b -> exists a, c = Returns a /\ k a = Returns b.
Proof.
  destruct c as [a | e | ]; simpl; intro E; try discriminate.
  exists a. split; [reflexivity | exact E].
Qed.

Tactic Notation "invert_bind" hyp(H) "as" ident(x) ident(E1) ident(E2) :=
  apply bind_Returns in H; destruct H as [x [E1 E2]].

(** ** The builder *)

Lemma updateLast_snoc (f : RawRule -> RawRule) (l : list RawRule) (r : RawRule) :
  AbilityBuilder.updateLast f (l ++ [r]) = l ++ [f r].
Proof.
  induction l as [| x l IH]; simpl.
  - reflexivity.
  - rewrite IH. destruct (l ++ [r]) eqn:E.
    + destruct l; discriminate.
    + reflexivity.
Qed.

Lemma can_pushes (a : Action) (s : string) (c : option Json) (b b' : list RawRule) :
  AbilityBuilder.can a s c b = Returns b' ->
  b' = b ++ [ {| rule_action := a; rule_subject := s; rule_conditions := c;
                 rule_inverted := false; rule_reason := None |} ].
Proof.
  unfold AbilityBuilder.can. destruct (String.eqb s ""); [discriminate |].
  destruct c as [[ | | | | | ] | ]; intro E; try discriminate;
    injection E as <-; reflexivity.
Qed.

Lemma cannot_because_pushes (a : Action) (s : string) (c : option Json)
    (text : string) (b pushed : list RawRule) :
  AbilityBuilder.cannot a s c b = Returns pushed ->
  AbilityBuilder.because text pushed
  = b ++ [ {| rule_action := a; rule_subject := s; rule_conditions := c;
              rule_inverted := true; rule_reason := Some text |} ].
Proof.
  unfold AbilityBuilder.cannot, AbilityBuilder.because. intro E.
  invert_bind E as b1 Ecan Eupd. apply can_pushes in Ecan. subst b1.
  rewrite updateLast_snoc in Eupd. injection Eupd as <-.
  rewrite updateLast_snoc. reflexivity.
Qed.

(** A loop whose body pushes one rule per element appends one rule per
    element, in order. *)
Lemma forEach_pushes {A : Type} (R : A -> RawRule -> Prop)
    (f : list RawRule -> A -> Outcome (list RawRule)) :
  (forall b x b', f b x = Returns b' -> exists r, b' = b ++ [r] /\ R x r) ->
  forall l b b', forEach f l b = Returns b' ->
  exists rs, b' = b ++ rs /\ Forall2 R l rs.
Proof.
  intros Hf l. induction l as [| x l IH]; intros b b' E; simpl in E.
  - injection E as <-. exists []. split; [now rewrite app_nil_r | constructor].
  - invert_bind E as b1 Ehead Etail.
    apply Hf in Ehead. destruct Ehead as [r [-> Hr]].
    apply IH in Etail. destruct Etail as [rs [-> Hrs]].
    exists (r :: rs). split.
    + now rewrite <- app_assoc.
    + now constructor.
Qed.

(** The same for a body that appends a block of rules per element. *)
Lemma forEach_appends {A B : Type} (R : B -> RawRule -> Prop) (g : A -> list B)
    (f : list RawRule -> A -> Outcome (list RawRule)) :
  (forall b x b', f b x = Returns b' -> exists rs, b' = b ++ rs /\ Forall2 R (g x) rs) ->
  forall l b b', forEach f l b = Returns b' ->
  exists rs, b' = b ++ rs /\ Forall2 R (flat_map g l) rs.
Proof.
  intros Hf l. induction l as [| x l IH]; intros b b' E; simpl in E.
  - injection E as <-. exists []. split; [now rewrite app_nil_r | constructor].
  - invert_bind E as b1 Ehead Etail.
    apply Hf in Ehead. destruct Ehead as [rs1 [-> H1]].
    apply IH in Etail. destruct Etail as [rs2 [-> H2]].
    exists (rs1 ++ rs2). split.
    + now rewrite <- app_assoc.
    + simpl. now apply Forall2_app.
Qed.

Lemma Forall2_map_l {A B C : Type} (R : B -> C -> Prop) (g : A -> B)
    (l : list A) (rs : list C) :
  Forall2 (fun x r => R (g x) r) l rs -> Forall2 R (map g l) rs.
Proof. induction 1; simpl; constructor; auto. Qed.

Section FactoryShape.

Context {engine : TemplateEngine}.

Lemma allow_step (u : User) (p : Permission) (b b' : list RawRule) :
  (c <- parseConditions (conditions p) u ;;
   AbilityBuilder.can (action p) (subject p) c b) = Returns b' ->
  exists r, b' = b ++ [r] /\ AllowRuleFor u p r.
Proof.
  intro E. invert_bind E as c Eparse Ecan. apply can_pushes in Ecan.
  eexists. split; [exact Ecan |]. unfold AllowRuleFor; simpl. auto.
Qed.

Lemma loadRolePermissions_shape (u : User) (b b' : list RawRule) :
  loadRolePermissions u b = Returns b' ->
  exists rs, b' = b ++ rs /\ Forall2 (AllowRuleFor u) (rolePermissions u) rs.
Proof.
  unfold loadRolePermissions, rolePermissions.
  apply (forEach_appends (AllowRuleFor u)
           (fun ur => map rp_permission (permissions (role ur)))).
  intros b0 ur b1 E.
  apply (forEach_pushes (fun rp r => AllowRuleFor u (rp_permission rp) r)) in E.
  - destruct E as [rs [-> H]]. exists rs. split; [reflexivity |].
    now apply Forall2_map_l.
  - intros c rp c'. apply allow_step.
Qed.

Lemma loadGrants_shape (u : User) (b b' : list RawRule) :
  loadGrants u b = Returns b' ->
  exists rs, b' = b ++ rs
             /\ Forall2 (AllowRuleFor u) (map permission (grants u)) rs.
Proof.
  unfold loadGrants, grants. intro E.
  apply (forEach_pushes (fun dp r => AllowRuleFor u (permission dp) r)) in E.
  - destruct E as [rs [-> H]]. exists rs. split; [reflexivity |].
    now apply Forall2_map_l.
  - intros c dp c'. apply allow_step.
Qed.

Lemma loadRevokes_shape (u : User) (b b' : list RawRule) :
  loadRevokes u b = Returns b' ->
  exists rs, b' = b ++ rs /\ Forall2 (DenyRuleFor u) (revokes u) rs.
Proof.
  unfold loadRevokes, revokes.
  apply (forEach_pushes (DenyRuleFor u)).
  intros b0 dp b1 E. invert_bind E as c Eparse Erest.
  invert_bind Erest as pushed Ecannot Ebecause.
  injection Ebecause as <-.
  rewrite (cannot_because_pushes _ _ _ _ _ _ Ecannot).
  eexists. split; [reflexivity |]. unfold DenyRuleFor; simpl. auto.
Qed.

(** The rules of a compiled ability: role rules, then grants, then
    revokes. *)
Lemma createAbility_shape (u : User) (ab : Ability) :
  createAbility (Some u) = Returns ab ->
  exists roleRules grantRules revokeRules,
    rules ab = roleRules ++ grantRules ++ revokeRules
    /\ Forall2 (AllowRuleFor u) (rolePermissions u) roleRules
    /\ Forall2 (AllowRuleFor u) (map permission (grants u)) grantRules
    /\ Forall2 (DenyRuleFor u) (revokes u) revokeRules.
Proof.
  unfold createAbility, AbilityBuilder.build. intro E.
  invert_bind E as b3 Eload Ebuild. injection Ebuild as <-. simpl.
  invert_bind Eload as b1 Eroles Erest.
  invert_bind Erest as b2 Egrants Erevokes.
  apply loadRolePermissions_shape in Eroles. destruct Eroles as [r1 [-> H1]].
  apply loadGrants_shape in Egrants. destruct Egrants as [r2 [-> H2]].
  apply loadRevokes_shape in Erevokes. destruct Erevokes as [r3 [-> H3]].
  exists r1, r2, r3. simpl. rewrite <- app_assoc. auto.
Qed.

End FactoryShape.

(** ** Evaluation: the last matching rule decides *)

Section EvaluationFacts.

Context {matcher : ConditionsMatcher}.

Lemma ruleMatches_true (r : RawRule) (a : Action) (s : Subject) :
  ruleMatches r a s = Returns true ->
  relevant r a (detectSubjectType s) = true
  /\ matchesConditions r s = Returns true.
Proof.
  unfold ruleMatches. destruct (relevant r a (detectSubjectType s)).
  - auto.
  - discriminate.
Qed.

Lemma ruleMatches_relevant (r : RawRule) (a : Action) (s : Subject) :
  relevant r a (detectSubjectType s) = true ->
  ruleMatches r a s = matchesConditions r s.
Proof. unfold ruleMatches. now intros ->. Qed.

Lemma ruleMatches_irrelevant (r : RawRule) (a : Action) (s : Subject) :
  relevant r a (detectSubjectType s) = false ->
  ruleMatches r a s = Returns false.
Proof. unfold ruleMatches. now intros ->. Qed.

(** The candidates of a rule list extended at its end. *)
Lemma candidates_snoc (rs : list RawRule) (x : RawRule) (a : Action) (t : string) :
  rev (filter (fun r => relevant r a t) (rs ++ [x]))
  = (if relevant x a t then [x] else [])
      ++ rev (filter (fun r => relevant r a t) rs).
Proof.
  rewrite filter_app, rev_app_distr. simpl.
  destruct (relevant x a t); reflexivity.
Qed.

(** What [firstMatching] finds among the candidates of [rs]: the last
    rule of [rs] that matches, every later rule having been tried and
    found not to match. *)
Lemma firstMatching_sound (rs : list RawRule) (a : Action) (s : Subject)
    (found : option RawRule) :
  firstMatching (rev (filter (fun r => relevant r a (detectSubjectType s)) rs)) s
  = Returns found ->
  match found with
  | Some r =>
      exists pre post,
        rs = pre ++ r :: post
        /\ ruleMatches r a s = Returns true
        /\ Forall (fun r' => ruleMatches r' a s = Returns false) post
  | None => Forall (fun r' => ruleMatches r' a s = Returns false) rs
  end.
Proof.
  revert found. induction rs as [| x rs IH] using rev_ind; intros found E.
  - simpl in E. injection E as <-. constructor.
  - rewrite candidates_snoc in E.
    destruct (relevant x a (detectSubjectType s)) eqn:Rx; simpl in E.
    + invert_bind E as m Ex Erest.
      rewrite <- (ruleMatches_relevant _ _ _ Rx) in Ex.
      destruct m.
      * injection Erest as <-. exists rs, []. repeat split; auto.
      * apply IH in Erest. destruct found as [r |].
        -- destruct Erest as [pre [post [-> [Hr Hpost]]]].
           exists pre, (post ++ [x]). rewrite <- app_assoc. simpl.
           repeat split; auto. apply Forall_app. split; auto.
        -- apply Forall_app. split; auto.
    + apply IH in E. pose proof (ruleMatches_irrelevant _ _ _ Rx) as Hx.
      destruct found as [r |].
      * destruct E as [pre [post [-> [Hr Hpost]]]].
        exists pre, (post ++ [x]). rewrite <- app_assoc. simpl.
        repeat split; auto. apply Forall_app. split; auto.
      * apply Forall_app. split; auto.
Qed.

Lemma firstMatching_skips (rs : list RawRule) (a : Action) (s : Subject)
    (post : list RawRule) :
  Forall (fun r' => ruleMatches r' a s = Returns false) post ->
  firstMatching
    (rev (filter (fun r => relevant r a (detectSubjectType s)) (rs ++ post))) s
  = firstMatching
      (rev (filter (fun r => relevant r a (detectSubjectType s)) rs)) s.
Proof.
  induction post as [| x post IH] using rev_ind; intro H.
  - now rewrite app_nil_r.
  - apply Forall_app in H. destruct H as [Hpost Hx].
    inversion Hx as [| ? ? Hx' _]; subst.
    rewrite app_assoc, candidates_snoc.
    destruct (relevant x a (detectSubjectType s)) eqn:Rx; simpl.
    + rewrite <- (ruleMatches_relevant _ _ _ Rx), Hx'. simpl. now apply IH.
    + now apply IH.
Qed.

Lemma firstMatching_complete (pre post : list RawRule) (r : RawRule)
    (a : Action) (s : Subject) :
  ruleMatches r a s = Returns true ->
  Forall (fun r' => ruleMatches r' a s = Returns false) post ->
  firstMatching
    (rev (filter (fun r => relevant r a (detectSubjectType s)) (pre ++ r :: post))) s
  = Returns (Some r).
Proof.
  intros Hr Hpost.
  replace (pre ++ r :: post) with ((pre ++ [r]) ++ post)
    by now rewrite <- app_assoc.
  rewrite (firstMatching_skips _ _ _ _ Hpost), candidates_snoc.
  apply ruleMatches_true in Hr. destruct Hr as [-> Hm]. simpl.
  now rewrite Hm.
Qed.

Lemma firstMatching_none (rs : list RawRule) (a : Action) (s : Subject) :
  Forall (fun r' => ruleMatches r' a s = Returns false) rs ->
  firstMatching (rev (filter (fun r => relevant r a (detectSubjectType s)) rs)) s
  = Returns None.
Proof.
  intro H. change rs with ([] ++ rs).
  now rewrite (firstMatching_skips [] a s rs H).
Qed.

Lemma firstMatching_total (candidates : list RawRule) (s : Subject) :
  Forall (fun r => exists m, matchesConditions r s = Returns m) candidates ->
  exists found, firstMatching candidates s = Returns found.
Proof.
  induction 1 as [| r rest [m Hm] _ IH]; simpl.
  - eauto.
  - rewrite Hm. simpl. destruct m; eauto.
Qed.

(** Where the specification's notion of a match and the evaluator's
    part: on a subject-type string, at a relevant Allow rule that carries
    a condition, which the evaluator takes for a match and the
    specification does not.  Everywhere else they are one. *)
Lemma matches_or_conditional_grant (r : RawRule) (a : Action) (s : Subject) :
  Spec.matches r a s = ruleMatches r a s
  \/ (exists t c,
        s = TypeOnly t
        /\ relevant r a t = true
        /\ rule_conditions r = Some c
        /\ rule_inverted r = false
        /\ Spec.matches r a s = Returns false
        /\ ruleMatches r a s = Returns true).
Proof.
  unfold Spec.matches, ruleMatches, matchesConditions, relevant.
  destruct ((Action_eqb (rule_action r) a || Action_eqb (rule_action r) manage)
            && (String.eqb (rule_subject r) (detectSubjectType s)
                || String.eqb (rule_subject r) "all")) eqn:Rel; [| now left].
  destruct (rule_conditions r) as [c |] eqn:Ec; [| now left].
  destruct s as [t | className props]; [| now left].
  destruct (rule_inverted r) eqn:Einv; [now left |].
  right. exists t, c. repeat split; assumption || reflexivity.
Qed.

Lemma matches_checked (ab : Ability) (a : Action) (s : Subject) :
  ConditionsChecked ab a s ->
  Forall (fun r => Spec.matches r a s = ruleMatches r a s) (rules ab).
Proof.
  intro H. apply Forall_forall. intros r Hin.
  destruct (matches_or_conditional_grant r a s)
    as [E | [t [c [-> [Hrel [Hc [Hinv _]]]]]]]; [exact E |].
  simpl in H. rewrite (H r Hin Hrel Hinv) in Hc. discriminate.
Qed.

(** The forward scan of the specification splits at the end of the
    list. *)
Lemma scan_snoc (rs : list RawRule) (x : RawRule) (a : Action) (s : Subject)
    (recorded : option (Spec.Effect * option string)) :
  Spec.scan (rs ++ [x]) a s recorded
  = (before <- Spec.scan rs a s recorded ;;
     m <- Spec.matches x a s ;;
     Returns (if m then Some (Spec.effectOf x, rule_reason x) else before)).
Proof.
  revert recorded. induction rs as [| y rs IH]; intro recorded; simpl.
  - destruct (Spec.matches x a s) as [m | e | ]; reflexivity.
  - destruct (Spec.matches y a s) as [m | e | ]; simpl; auto.
Qed.

(** Over rules on which the two notions of a match are one, what the
    forward scan records is the rule that [relevantRuleFor] answers. *)
Lemma scan_refines (rs : list RawRule) (a : Action) (s : Subject)
    (recorded : option (Spec.Effect * option string)) :
  Forall (fun r => Spec.matches r a s = ruleMatches r a s) rs ->
  Spec.scan rs a s None = Returns recorded ->
  exists found,
    firstMatching (rev (filter (fun r => relevant r a (detectSubjectType s)) rs)) s
    = Returns found
    /\ recorded = option_map (fun r => (Spec.effectOf r, rule_reason r)) found.
Proof.
  revert recorded. induction rs as [| x rs IH] using rev_ind; intros recorded Hsame E.
  - simpl in E. injection E as <-. exists None. auto.
  - apply Forall_app in Hsame. destruct Hsame as [Hrs Hx].
    inversion Hx as [| ? ? Hx' _]; subst.
    rewrite scan_snoc in E. invert_bind E as before Ebefore Ex.
    invert_bind Ex as m Em Eret. injection Eret as <-.
    destruct (IH _ Hrs Ebefore) as [found [Hfound ->]].
    rewrite candidates_snoc. rewrite Hx' in Em.
    destruct (relevant x a (detectSubjectType s)) eqn:Rx; simpl.
    + rewrite (ruleMatches_relevant _ _ _ Rx) in Em. rewrite Em. simpl.
      destruct m; eauto.
    + rewrite (ruleMatches_irrelevant _ _ _ Rx) in Em. injection Em as <-.
      eauto.
Qed.

Lemma can_of_found (ab : Ability) (a : Action) (s : Subject)
    (found : option RawRule) :
  relevantRuleFor ab a s = Returns found ->
  can ab a s = Returns (match found with
                        | Some r => negb (rule_inverted r)
                        | None => false
                        end).
Proof. unfold can. now intros ->. Qed.

Lemma EvaluatesOn_TypeOnly (ab : Ability) (t : string) :
  EvaluatesOn ab (TypeOnly t).
Proof.
  unfold EvaluatesOn. apply Forall_forall. intros r _.
  unfold matchesConditions. destruct (rule_conditions r); eauto.
Qed.

End EvaluationFacts.

(** ** C1: last match wins, deny by default *)

(** C1, refuted as stated.  The editor's ability holds one rule for
    [update] on [Post], an Allow rule with the condition [{authorId: 2}].
    On the type-only query [can(update, "Post")] no rule matches as the
    specification has it (the condition cannot be satisfied without a
    resource instance), the scan of section 4.4 decides Deny, and [can]
    answers true. *)
Lemma conditional_grant_decides_a_type_only_query :
  createAbility (Some Sample.editor) = Returns Sample.editorAbility
  /\ Forall (fun r => Spec.matches r update (TypeOnly "Post") = Returns false)
       (rules Sample.editorAbility)
  /\ Spec.decision Sample.editorAbility update (TypeOnly "Post") = Returns Spec.Deny
  /\ can Sample.editorAbility update (TypeOnly "Post") = Returns true.
Proof.
  split; [reflexivity |]. split; [| split; reflexivity].
  repeat constructor.
Qed.

(** C1, amended.  For every ability and every query [(a, s)]: [can]
    answers true exactly when the last rule in stored order that matches
    the query, as the evaluator matches ([ruleMatches]: action equal or
    [manage], subject type equal or [all], and no condition, or a
    condition that holds of the instance, or a condition on an Allow rule
    when the subject is a subject-type string), is an Allow rule.  The
    evaluator's match is the match of the specification except at a
    relevant Allow rule with a condition on a subject-type string.  On
    every query without such a rule (every query on an instance among
    them) the answer is the decision of the specification's scan of the
    whole list, later matches overwriting earlier ones.  When no rule
    matches the answer is false; [can] completes whenever the conditions
    of the rules can be evaluated on the subject; and the ability of a
    user without role assignments and without direct permissions denies
    every query. *)
Theorem can_last_matching_rule_wins
    {engine : TemplateEngine} {matcher : ConditionsMatcher}
    (ab : Ability) (a : Action) (s : Subject) :
  (forall b, can ab a s = Returns b ->
     (b = true <->
      exists pre r post,
        rules ab = pre ++ r :: post
        /\ ruleMatches r a s = Returns true
        /\ rule_inverted r = false
        /\ Forall (fun r' => ruleMatches r' a s = Returns false) post))
  /\ (forall r,
        Spec.matches r a s = ruleMatches r a s
        \/ (exists t c,
              s = TypeOnly t
              /\ relevant r a t = true
              /\ rule_conditions r = Some c
              /\ rule_inverted r = false
              /\ Spec.matches r a s = Returns false
              /\ ruleMatches r a s = Returns true))
  /\ (ConditionsChecked ab a s ->
      forall e, Spec.decision ab a s = Returns e ->
        can ab a s = Returns (match e with
                              | Spec.Allow => true
                              | Spec.Deny => false
                              end))
  /\ (Forall (fun r => ruleMatches r a s = Returns false) (rules ab) ->
      can ab a s = Returns false)
  /\ (EvaluatesOn ab s -> exists b, can ab a s = Returns b)
  /\ (forall u, roles u = [] -> directPermissions u = [] ->
      exists empty,
        createAbility (Some u) = Returns empty
        /\ forall a' s', can empty a' s' = Returns false).
Proof.
  split; [| split; [| split; [| split; [| split]]]].
  - intros b H. split.
    + (* a true answer comes from a last matching Allow rule *)
      intros ->. unfold can in H. invert_bind H as found Efound Eret.
      apply firstMatching_sound in Efound. destruct found as [r |].
      * destruct Efound as [pre [post [Hrules [Hr Hpost]]]].
        exists pre, r, post. injection Eret as Einv.
        apply negb_true_iff in Einv. auto.
      * discriminate.
    + (* and a last matching Allow rule forces a true answer *)
      intros [pre [r [post [Hrules [Hr [Hinv Hpost]]]]]].
      assert (F : relevantRuleFor ab a s = Returns (Some r)).
      { unfold relevantRuleFor, rulesFor. rewrite Hrules.
        now apply firstMatching_complete. }
      rewrite (can_of_found _ _ _ _ F), Hinv in H. now injection H as <-.
  - (* the two notions of a match *)
    intro r. apply matches_or_conditional_grant.
  - (* the full forward scan *)
    intros Hchecked e E. unfold Spec.decision in E.
    invert_bind E as recorded Escan Eret.
    apply (scan_refines _ _ _ _ (matches_checked _ _ _ Hchecked)) in Escan.
    destruct Escan as [found [Hfound ->]].
    rewrite (can_of_found _ _ _ _ Hfound). injection Eret as <-.
    destruct found as [r |]; simpl; [| reflexivity].
    unfold Spec.effectOf. now destruct (rule_inverted r).
  - (* deny by default *)
    intro Hnone.
    now rewrite (can_of_found _ _ _ None (firstMatching_none _ _ _ Hnone)).
  - (* totality *)
    intro Hev. unfold EvaluatesOn in Hev.
    destruct (firstMatching_total (rulesFor ab a (detectSubjectType s)) s)
      as [found Hfound].
    + unfold rulesFor. apply Forall_forall. intros r Hin.
      apply in_rev, filter_In in Hin. destruct Hin as [Hin _].
      now apply (proj1 (Forall_forall _ _) Hev).
    + rewrite (can_of_found _ _ _ _ Hfound). eauto.
  - (* the empty graph *)
    intros u Hroles Hclaims. exists {| rules := [] |}. split.
    + unfold createAbility, loadRolePermissions, loadGrants, loadRevokes.
      now rewrite Hroles, Hclaims.
    + reflexivity.
Qed.

(** The amended C1 at the sanctioned user's ability (the revoke is the
    last match, on an instance and on the subject type), at the editor's
    ability (nothing matches a read), and at the clean user (no rules at
    all). *)
Lemma can_last_matching_rule_wins_witness :
  can Sample.sanctionedAbility delete (Sample.post 4 9) = Returns false
  /\ can Sample.sanctionedAbility delete (TypeOnly "Post") = Returns false
  /\ can Sample.editorAbility read (TypeOnly "Post") = Returns false
  /\ (exists b, can Sample.editorAbility update (Sample.post 2 2) = Returns b)
  /\ (exists empty,
        createAbility (Some Sample.clean) = Returns empty
        /\ forall a s, can empty a s = Returns false).
Proof.
  split; [| split; [| split; [| split]]].
  - apply (proj1 (proj2 (proj2 (can_last_matching_rule_wins
                                  Sample.sanctionedAbility delete
                                  (Sample.post 4 9))))
             I Spec.Deny).
    reflexivity.
  - refine (proj1 (proj2 (proj2 (can_last_matching_rule_wins
                                   Sample.sanctionedAbility delete
                                   (TypeOnly "Post"))))
              _ Spec.Deny eq_refl).
    intros r [<- | [<- | []]] _ Hinv; [reflexivity | discriminate Hinv].
  - apply (proj1 (proj2 (proj2 (proj2 (can_last_matching_rule_wins
                                         Sample.editorAbility read
                                         (TypeOnly "Post")))))).
    repeat constructor.
  - apply (proj1 (proj2 (proj2 (proj2 (proj2 (can_last_matching_rule_wins
                                                Sample.editorAbility update
                                                (Sample.post 2 2))))))).
    unfold EvaluatesOn. simpl.
    repeat constructor; eexists; cbv; reflexivity.
  - apply (proj2 (proj2 (proj2 (proj2 (proj2 (can_last_matching_rule_wins
                                                {| rules := [] |} read
                                                (TypeOnly "Post")))))));
      reflexivity.
Defined.

(** ** C2: the order of the compiled rules *)

Lemma Forall2_In_l {A B : Type} (R : A -> B -> Prop) (l : list A) (rs : list B)
    (x : A) :
  Forall2 R l rs -> In x l -> exists r, In r rs /\ R x r.
Proof.
  induction 1 as [| y r l rs Hyr _ IH]; intro Hin.
  - destruct Hin.
  - destruct Hin as [-> | Hin].
    + exists r. split; [now left | assumption].
    + destruct (IH Hin) as [r' [Hr' HR]]. exists r'. split; [now right | assumption].
Qed.

Lemma Forall2_Forall_r {A B : Type} (R : A -> B -> Prop) (P : B -> Prop)
    (l : list A) (rs : list B) :
  (forall x r, R x r -> P r) -> Forall2 R l rs -> Forall P rs.
Proof. intros HRP. induction 1; constructor; eauto. Qed.

(** Two ways of splitting one list at an element: the element of the first
    split lies after that of the second, or the other way round. *)
Lemma split_twice {A : Type} (pre pre' post post' : list A) (r r' : A) :
  pre ++ r :: post = pre' ++ r' :: post' ->
  In r post' \/ In r' (r :: post).
Proof.
  revert pre'. induction pre as [| x pre IH]; intros pre' E.
  - destruct pre' as [| y pre']; simpl in E.
    + injection E as -> ->. right. now left.
    + injection E as -> ->. right. right. apply in_or_app. right. now left.
  - destruct pre' as [| y pre']; simpl in E.
    + injection E as -> <-. left. apply in_or_app. right. now left.
    + injection E as -> E. now apply IH in E.
Qed.

Section DenyLast.

Context {matcher : ConditionsMatcher}.

(** A matching Deny rule followed by Deny rules only: whatever rule
    decides, it denies. *)
Lemma deny_suffix_found (ab : Ability) (a : Action) (s : Subject)
    (pre post : list RawRule) (r : RawRule) (found : option RawRule) :
  rules ab = pre ++ r :: post ->
  ruleMatches r a s = Returns true ->
  rule_inverted r = true ->
  Forall (fun r' => rule_inverted r' = true) post ->
  relevantRuleFor ab a s = Returns found ->
  exists d, found = Some d /\ rule_inverted d = true /\ In d (r :: post)
            /\ ruleMatches d a s = Returns true.
Proof.
  intros Hrules Hr Hinv Hpost E.
  unfold relevantRuleFor, rulesFor in E.
  apply firstMatching_sound in E. destruct found as [d |].
  - destruct E as [pre' [post' [Hrules' [Hd Hpost']]]].
    exists d. split; [reflexivity |].
    rewrite Hrules in Hrules'. apply split_twice in Hrules'.
    destruct Hrules' as [Hin | Hin].
    + apply (proj1 (Forall_forall _ _) Hpost') in Hin. congruence.
    + repeat split; auto. destruct Hin as [<- | Hin]; [assumption |].
      now apply (proj1 (Forall_forall _ _) Hpost).
  - rewrite Hrules in E. apply Forall_app in E. destruct E as [_ E].
    inversion E; congruence.
Qed.

Lemma relevantRuleFor_total (ab : Ability) (a : Action) (s : Subject) :
  EvaluatesOn ab s -> exists found, relevantRuleFor ab a s = Returns found.
Proof.
  intro Hev. unfold relevantRuleFor, rulesFor.
  apply firstMatching_total. apply Forall_forall. intros r Hin.
  apply in_rev, filter_In in Hin. destruct Hin as [Hin _].
  now apply (proj1 (Forall_forall _ _) Hev).
Qed.

Lemma deny_suffix_denies (ab : Ability) (a : Action) (s : Subject)
    (pre post : list RawRule) (r : RawRule) :
  rules ab = pre ++ r :: post ->
  ruleMatches r a s = Returns true ->
  rule_inverted r = true ->
  Forall (fun r' => rule_inverted r' = true) post ->
  EvaluatesOn ab s ->
  can ab a s = Returns false.
Proof.
  intros Hrules Hr Hinv Hpost Hev.
  destruct (relevantRuleFor_total ab a s Hev) as [found Hfound].
  destruct (deny_suffix_found _ _ _ _ _ _ _ Hrules Hr Hinv Hpost Hfound)
    as [d [-> [Hd _]]].
  rewrite (can_of_found _ _ _ _ Hfound), Hd. reflexivity.
Qed.

Lemma unconditional_matches (r : RawRule) (s : Subject) :
  rule_conditions r = None ->
  ruleMatches r (rule_action r) s
  = Returns (String.eqb (rule_subject r) (detectSubjectType s)
             || String.eqb (rule_subject r) "all").
Proof.
  intro Hc. unfold ruleMatches, relevant, matchesConditions. rewrite Hc.
  replace (Action_eqb (rule_action r) (rule_action r)) with true
    by now destruct (rule_action r).
  simpl. now destruct (_ || _).
Qed.

End DenyLast.

Section RevokesAreLast.

Context {engine : TemplateEngine} {matcher : ConditionsMatcher}.

(** The rule compiled from a revoke claim, and what follows it. *)
Lemma revoke_rule_position (u : User) (ab : Ability) (dp : UserPermission) :
  createAbility (Some u) = Returns ab ->
  In dp (directPermissions u) ->
  inverted dp = true ->
  exists pre r post,
    rules ab = pre ++ r :: post
    /\ DenyRuleFor u dp r
    /\ Forall (fun r' => rule_inverted r' = true) post.
Proof.
  intros E Hin Hinv.
  destruct (createAbility_shape _ _ E) as [r1 [r2 [r3 [Hrules [_ [_ H3]]]]]].
  assert (Hrev : In dp (revokes u)).
  { unfold revokes. apply filter_In. auto. }
  destruct (Forall2_In_l _ _ _ _ H3 Hrev) as [r [Hr HD]].
  apply in_split in Hr. destruct Hr as [x [y ->]].
  exists (r1 ++ r2 ++ x), r, y. repeat split.
  - rewrite Hrules. now rewrite <- !app_assoc.
  - apply HD.
  - apply HD.
  - apply HD.
  - apply HD.
  - apply HD.
  - apply (Forall2_Forall_r _ (fun r' => rule_inverted r' = true)) in H3.
    + apply Forall_app in H3. destruct H3 as [_ H3]. now inversion H3.
    + intros ? ? HD'. apply HD'.
Qed.

End RevokesAreLast.

(** C2.  The rule list of a compiled ability is the concatenation of the
    Allow rules of the role permissions in the order the graph is iterated
    (roles outermost, each role's permissions in their own order), the
    Allow rules of the direct grants, and the Deny rules of the direct
    revokes.  Consequently, when a role grants [(A, T)] without condition
    and a revoke claim for [(A, T)] without condition exists, [can] answers
    false on [(A, T)] whatever other rules there are: on the bare type; and
    on an instance of the type it never answers true, and answers false as
    soon as the conditions of the rules can be evaluated on the
    instance. *)
Theorem rules_are_roles_then_grants_then_revokes
    {engine : TemplateEngine} {matcher : ConditionsMatcher}
    (u : User) (ab : Ability) :
  createAbility (Some u) = Returns ab ->
  (exists roleRules grantRules revokeRules,
      rules ab = roleRules ++ grantRules ++ revokeRules
      /\ Forall2 (AllowRuleFor u) (rolePermissions u) roleRules
      /\ Forall2 (AllowRuleFor u) (map permission (grants u)) grantRules
      /\ Forall2 (DenyRuleFor u) (revokes u) revokeRules)
  /\ (forall A T,
        In {| action := A; subject := T; conditions := JNull |} (rolePermissions u) ->
        (exists dp, In dp (directPermissions u)
                    /\ inverted dp = true
                    /\ permission dp
                       = {| action := A; subject := T; conditions := JNull |}) ->
        can ab A (TypeOnly T) = Returns false
        /\ forall props,
            can ab A (Instance T props) <> Returns true
            /\ (EvaluatesOn ab (Instance T props) ->
                can ab A (Instance T props) = Returns false)).
Proof.
  intro E. split; [now apply createAbility_shape |].
  intros A T _ [dp [Hin [Hinv Hperm]]].
  destruct (revoke_rule_position u ab dp E Hin Hinv)
    as [pre [r [post [Hrules [HD Hpost]]]]].
  destruct HD as [Hc [Ha [Hs [Hi _]]]].
  rewrite Hperm in Hc, Ha, Hs. simpl in Hc, Ha, Hs.
  injection Hc as Hc. symmetry in Hc.
  assert (M : forall s, detectSubjectType s = T -> ruleMatches r A s = Returns true).
  { intros s Hs'. rewrite <- Ha, (unconditional_matches r s Hc), Hs, Hs'.
    now rewrite String.eqb_refl. }
  split.
  - apply (deny_suffix_denies ab A (TypeOnly T) pre post r); auto.
    apply EvaluatesOn_TypeOnly.
  - intros props. split.
    + intro Htrue. unfold can in Htrue. invert_bind Htrue as found Efound Eret.
      destruct (deny_suffix_found ab A (Instance T props) pre post r found
                  Hrules (M (Instance T props) eq_refl) Hi Hpost Efound)
        as [d [-> [Hd _]]].
      rewrite Hd in Eret. discriminate.
    + intro Hev.
      now apply (deny_suffix_denies ab A (Instance T props) pre post r); auto.
Qed.

(** C2 at the sanctioned moderator: the role grants [delete] on [Post], the
    claim revokes it, and the compiled rules are the grant followed by the
    revoke. *)
Lemma rules_are_roles_then_grants_then_revokes_witness :
  createAbility (Some Sample.sanctioned) = Returns Sample.sanctionedAbility
  /\ can Sample.sanctionedAbility delete (TypeOnly "Post") = Returns false
  /\ can Sample.sanctionedAbility delete (Sample.post 4 9) = Returns false.
Proof.
  assert (E : createAbility (Some Sample.sanctioned)
              = Returns Sample.sanctionedAbility) by reflexivity.
  split; [exact E |].
  destruct (rules_are_roles_then_grants_then_revokes
              Sample.sanctioned Sample.sanctionedAbility E) as [_ H].
  destruct (H delete "Post") as [Htype Hinstance].
  - simpl. now left.
  - exists (Sample.claim (Sample.perm delete "Post" JNull) true (Some "sanctioned")).
    repeat split. simpl. now left.
  - split; [exact Htype |]. apply Hinstance.
    unfold EvaluatesOn. simpl. repeat constructor; eexists; reflexivity.
Defined.

(** ** C3: type-only queries and conditional rules *)

Section TypeOnly.

Context {matcher : ConditionsMatcher}.

Lemma ruleMatches_TypeOnly (r : RawRule) (a : Action) (t : string) :
  ruleMatches r a (TypeOnly t)
  = Returns (relevant r a t
             && match rule_conditions r with
                | None => true
                | Some _ => negb (rule_inverted r)
                end).
Proof.
  unfold ruleMatches, matchesConditions. simpl.
  destruct (relevant r a t); [| reflexivity].
  destruct (rule_conditions r); reflexivity.
Qed.

End TypeOnly.

(** C3, refuted as stated.  The editor's only rule for [update] on [Post]
    carries the condition [{authorId: 2}], and the type-only query
    [can(update, "Post")] answers true. *)
Lemma type_only_query_on_conditional_grant :
  createAbility (Some Sample.editor) = Returns Sample.editorAbility
  /\ OnlyConditionalGrants Sample.editorAbility update "Post"
  /\ can Sample.editorAbility update (TypeOnly "Post") = Returns true
  /\ can Sample.editorAbility update (TypeOnly "Post") <> Returns false.
Proof.
  split; [reflexivity |]. split; [| split; [reflexivity | discriminate]].
  intros r Hin Hrel Hinv. simpl in Hin.
  destruct Hin as [<- | [<- | []]].
  - cbv in Hrel. discriminate.
  - simpl. discriminate.
Qed.

(** C3, amended.  On a type-only query the condition of a rule is not
    evaluated: a rule with a condition matches exactly when it is relevant
    to the query and is an Allow rule, so a conditional Deny rule is
    skipped.  Hence, when some rule grants [(a, t)] and every Deny rule
    relevant to [(a, t)] carries a condition, [can(a, "t")] answers
    true. *)
Theorem type_only_query_ignores_conditions {matcher : ConditionsMatcher}
    (ab : Ability) (a : Action) (t : string) :
  (forall r, rule_conditions r <> None ->
     ruleMatches r a (TypeOnly t)
     = Returns (relevant r a t && negb (rule_inverted r)))
  /\ ((exists r, In r (rules ab) /\ relevant r a t = true
                 /\ rule_inverted r = false) ->
      (forall r, In r (rules ab) -> relevant r a t = true ->
                 rule_inverted r = true -> rule_conditions r <> None) ->
      can ab a (TypeOnly t) = Returns true).
Proof.
  split.
  - intros r Hc. rewrite ruleMatches_TypeOnly.
    destruct (rule_conditions r); [reflexivity | contradiction].
  - intros [g [Hin [Hrel Hinv]]] Hdeny.
    destruct (relevantRuleFor_total ab a (TypeOnly t) (EvaluatesOn_TypeOnly ab t))
      as [found Hfound].
    rewrite (can_of_found _ _ _ _ Hfound).
    unfold relevantRuleFor, rulesFor in Hfound.
    apply firstMatching_sound in Hfound. destruct found as [d |].
    + destruct Hfound as [pre [post [Hrules [Hd _]]]].
      destruct (rule_inverted d) eqn:Hdi; [| reflexivity].
      exfalso. rewrite ruleMatches_TypeOnly in Hd. injection Hd as Hd.
      apply andb_true_iff in Hd. destruct Hd as [Hdr Hdc].
      assert (Hdin : In d (rules ab)).
      { rewrite Hrules. apply in_or_app. right. now left. }
      specialize (Hdeny d Hdin Hdr Hdi). rewrite Hdi in Hdc.
      destruct (rule_conditions d); [discriminate | contradiction].
    + exfalso. apply (proj1 (Forall_forall _ _) Hfound) in Hin.
      rewrite ruleMatches_TypeOnly, Hrel, Hinv in Hin.
      destruct (rule_conditions g); discriminate.
Qed.

(** The amended C3 at the editor's ability. *)
Lemma type_only_query_ignores_conditions_witness :
  can Sample.editorAbility update (TypeOnly "Post") = Returns true.
Proof.
  apply (proj2 (type_only_query_ignores_conditions
                  Sample.editorAbility update "Post")).
  - eexists. split; [right; left; reflexivity |]. split; reflexivity.
  - intros r Hin Hrel Hinv. simpl in Hin.
    destruct Hin as [<- | [<- | []]]; cbv in Hinv; discriminate.
Defined.

(** ** C4: lapsed role assignments *)



Lemma getUserWithPermissions_row (nowRoles nowClaims : Timestamp)
    (table : list User) (userId : Z) (user : User) :
  getUserWithPermissions nowRoles nowClaims table userId = Some user ->
  exists row,
    In row table
    /\ id row = userId
    /\ roles user = filter (roleIncluded nowRoles) (roles row)
    /\ directPermissions user
       = filter (claimIncluded nowClaims) (directPermissions row).
Proof.
  unfold getUserWithPermissions.
  destruct (find _ table) as [row |] eqn:F; [| discriminate].
  intro E. injection E as <-. apply find_some in F. destruct F as [Hin Hrow].
  exists row. repeat split; auto.
  apply andb_true_iff in Hrow. destruct Hrow as [Hrow _].
  apply andb_true_iff in Hrow. destruct Hrow as [Hid _].
  now apply Z.eqb_eq.
Qed.



(** ** Rendering condition templates *)

Lemma mapM_app {A B : Type} (f : A -> Outcome B) (l1 l2 : list A) :
  mapM f (l1 ++ l2)
  = (a <- mapM f l1 ;; b <- mapM f l2 ;; Returns (a ++ b)).
Proof.
  induction l1 as [| x l1 IH]; simpl.
  - destruct (mapM f l2); reflexivity.
  - destruct (f x) as [y | e | ]; simpl; auto.
    rewrite IH. destruct (mapM f l1) as [a | e | ]; simpl; auto.
    destruct (mapM f l2); reflexivity.
Qed.

(** *** The order in which an object is copied *)

Lemma insertByIndex_map {A B : Type} (h : string * A -> string * B) (n : N)
    (entry : string * A) (sorted : list (N * (string * A))) :
  insertByIndex n (h entry) (map (fun ne => (fst ne, h (snd ne))) sorted)
  = map (fun ne => (fst ne, h (snd ne))) (insertByIndex n entry sorted).
Proof.
  induction sorted as [| [m e] rest IH]; simpl; [reflexivity |].
  destruct (n <? m)%N; simpl; [reflexivity | now rewrite IH].
Qed.

(** [Object_entries] looks at the keys only: it commutes with a change of
    the values. *)
Lemma Object_entries_map {A B : Type} (g : A -> B) (props : list (string * A)) :
  Object_entries (map (fun e => (fst e, g (snd e))) props)
  = map (fun e => (fst e, g (snd e))) (Object_entries props).
Proof.
  unfold Object_entries. rewrite map_app. f_equal.
  - assert (E : indexed (map (fun e => (fst e, g (snd e))) props)
                = map (fun ne => (fst ne, (fst (snd ne), g (snd (snd ne)))))
                    (indexed props)).
    { induction props as [| [key x] l IH]; simpl; [reflexivity |].
      destruct (arrayIndex key); [| exact IH].
      rewrite IH.
      exact (insertByIndex_map (fun e => (fst e, g (snd e))) _ (key, x) _). }
    rewrite E, !map_map. reflexivity.
  - induction props as [| [key x] l IH]; [reflexivity |].
    cbn [map filter]. rewrite IH. unfold isName. cbn [fst snd].
    destruct (arrayIndex key); reflexivity.
Qed.

Lemma insertByIndex_In {A : Type} (n m : N) (entry e : string * A)
    (sorted : list (N * (string * A))) :
  In (m, e) (insertByIndex n entry sorted) ->
  (m, e) = (n, entry) \/ In (m, e) sorted.
Proof.
  induction sorted as [| [k x] rest IH]; simpl.
  - intros [H | []]. now left.
  - destruct (n <? k)%N; simpl.
    + intros [H | H]; auto.
    + intros [H | H]; auto. destruct (IH H); auto.
Qed.

(** [Object_entries] lists properties of the object. *)
Lemma Object_entries_In {A : Type} (props : list (string * A)) (e : string * A) :
  In e (Object_entries props) -> In e props.
Proof.
  unfold Object_entries. intro H. apply in_app_or in H. destruct H as [H | H].
  - apply in_map_iff in H. destruct H as [[n e'] [<- H]]. simpl.
    induction props as [| entry l IH]; simpl in H; [destruct H |].
    destruct (arrayIndex (fst entry)).
    + apply insertByIndex_In in H. destruct H as [H | H].
      * injection H as _ ->. now left.
      * right. auto.
    + right. auto.
  - apply filter_In in H. tauto.
Qed.

(** An object with one property. *)
Lemma Object_entries_singleton {A : Type} (key : string) (x : A) :
  Object_entries [(key, x)] = [(key, x)].
Proof.
  unfold Object_entries, isName. simpl. now destruct (arrayIndex key).
Qed.

(** An object none of whose keys is an array index is gone through in
    insertion order. *)
Lemma Object_entries_names {A : Type} (props : list (string * A)) :
  Forall (fun e => arrayIndex (fst e) = None) props ->
  Object_entries props = props.
Proof.
  intro H. unfold Object_entries.
  assert (E : indexed props = [] /\ filter isName props = props).
  { induction H as [| e l He _ [IH1 IH2]]; [split; reflexivity |].
    cbn [indexed filter]. unfold isName at 1. rewrite He, IH2. auto. }
  destruct E as [-> ->]. reflexivity.
Qed.

Lemma stringLeaves_JObj (props : list (string * Json)) :
  stringLeaves (JObj props)
  = flat_map (fun e => stringLeaves (snd e)) (Object_entries props).
Proof.
  simpl.
  match goal with
  | |- context [Object_entries (?each props)] =>
      assert (E : each props = map (fun e => (fst e, stringLeaves (snd e))) props)
        by (induction props as [| [key x] l IH];
            [reflexivity | simpl; f_equal; exact IH])
  end.
  rewrite E, Object_entries_map.
  induction (Object_entries props) as [| e l IH]; simpl; [reflexivity |].
  now rewrite IH.
Qed.

Lemma mapLeaves_JObj (leaf : string -> Json) (props : list (string * Json)) :
  mapLeaves leaf (JObj props)
  = JObj (map (fun e => (fst e, mapLeaves leaf (snd e))) (Object_entries props)).
Proof.
  simpl.
  match goal with
  | |- context [Object_entries (?each props)] =>
      assert (E : each props = map (fun e => (fst e, mapLeaves leaf (snd e))) props)
        by (induction props as [| [key x] l IH];
            [reflexivity | simpl; f_equal; exact IH])
  end.
  now rewrite E, Object_entries_map.
Qed.

(** The copy of an object that the customizer leaves to lodash: the
    properties are copied in the order of [Object_entries]. *)
Lemma cloneDeepWith_JObj (customizer : Json -> Outcome (option Json))
    (props : list (string * Json)) :
  customizer (JObj props) = Returns None ->
  cloneDeepWith customizer (JObj props)
  = (copied <- assignValues
                 (map (fun e => (fst e, cloneDeepWith customizer (snd e)))
                    (Object_entries props)) ;;
     Returns (JObj copied)).
Proof.
  intro H. simpl. rewrite H.
  match goal with
  | |- context [Object_entries (?each props)] =>
      assert (E : each props
                  = map (fun e => (fst e, cloneDeepWith customizer (snd e))) props)
        by (clear H; induction props as [| [key x] l IH];
            [reflexivity | simpl; f_equal; exact IH])
  end.
  now rewrite E, Object_entries_map.
Qed.

Section Rendering.

Context {engine : TemplateEngine}.

Variable u : User.

(** [cloneDeepWith] with the customizer of [parseConditions] renders the
    string leaves in order: it fails as the first leaf that fails, and
    otherwise returns the copy with every string leaf rendered and
    coerced. *)
Lemma cloneDeepWith_renderLeaf (v : Json) :
  follows (mapM (fun t => render t u) (stringLeaves v))
    (cloneDeepWith (renderLeaf u) v)
    (mapLeaves (fun t => coerce (renderedText u t)) v).
Proof.
  induction v as [| b | n | t | items IH | props IH] using Json_nested_ind;
    try reflexivity.
  - (* a string leaf *)
    unfold follows, coerce, renderedText. simpl.
    destruct (render t u) as [r | e | ]; simpl; try reflexivity.
    destruct (allDigits r); reflexivity.
  - (* an array *)
    simpl.
    induction IH as [| x l Hx _ IHl]; [reflexivity |].
    rewrite mapM_app. unfold follows in Hx.
    destruct (mapM (fun t => render t u) (stringLeaves x)) as [a | e | ];
      rewrite Hx; simpl; try reflexivity.
    unfold follows in IHl.
    destruct (mapM _ _) as [a' | e | ] in IHl |- *; simpl in *.
    + destruct (_ l) as [copied | e | ] in IHl |- *; simpl in *;
        try discriminate.
      injection IHl as ->. reflexivity.
    + destruct (_ l) as [copied | e' | ] in IHl |- *; simpl in *;
        try discriminate.
      exact IHl.
    + destruct (_ l) as [copied | e' | ] in IHl |- *; simpl in *;
        try discriminate.
      reflexivity.
  - (* an object *)
    rewrite stringLeaves_JObj, mapLeaves_JObj, (cloneDeepWith_JObj _ _ eq_refl).
    assert (IH' : Forall
                    (fun kv =>
                       follows (mapM (fun t => render t u) (stringLeaves (snd kv)))
                         (cloneDeepWith (renderLeaf u) (snd kv))
                         (mapLeaves (fun t => coerce (renderedText u t)) (snd kv)))
                    (Object_entries props)).
    { apply Forall_forall. intros e He. apply Object_entries_In in He.
      exact (proj1 (Forall_forall _ _) IH e He). }
    clear IH.
    induction IH' as [| [key x] l Hx _ IHl]; [reflexivity |].
    cbn [flat_map map assignValues fst snd] in *. rewrite mapM_app.
    unfold follows in Hx.
    destruct (mapM (fun t => render t u) (stringLeaves x)) as [a | e | ];
      rewrite Hx; simpl; try reflexivity.
    unfold follows in IHl.
    destruct (mapM _ _) as [a' | e | ] in IHl |- *; simpl in *.
    + destruct (assignValues _) as [copied | e | ] in IHl |- *; simpl in *;
        try discriminate.
      injection IHl as ->. reflexivity.
    + destruct (assignValues _) as [copied | e' | ] in IHl |- *; simpl in *;
        try discriminate.
      exact IHl.
    + destruct (assignValues _) as [copied | e' | ] in IHl |- *; simpl in *;
        try discriminate.
      reflexivity.
Qed.

End Rendering.

(** ** Mustache on tag-free templates and on plain placeholders *)

Section MustacheFacts.

Variable unclosed : string.

Lemma scanText_tagFree (s : string) :
  tagFree s = true ->
  Mustache.scanText unclosed s
  = Returns (map Mustache.TText (list_ascii_of_string s)).
Proof.
  induction s as [| c rest IH]; intro H; [reflexivity |].
  simpl in H. cbn [Mustache.scanText list_ascii_of_string map].
  destruct rest as [| c2 rest2].
  - reflexivity.
  - apply andb_true_iff in H. destruct H as [Hc Hrest].
    apply negb_true_iff in Hc. rewrite Hc.
    rewrite (IH Hrest). reflexivity.
Qed.

Lemma identifier_char (c : ascii) :
  isIdentifierChar c = true ->
  isWhitespace c = false
  /\ Mustache.tagTypeOf c = None
  /\ Ascii.eqb c "}" = false
  /\ Ascii.eqb "." c = false
  /\ Mustache.isAscii c = true.
Proof.
  destruct c as [[] [] [] [] [] [] [] []]; intro H;
    try discriminate H; repeat split; reflexivity.
Qed.

(** One step of [scanTag] inside a name, on a character of the name. *)
Lemma scanTag_name_step (c : ascii) (racc : list ascii) (rest : string) :
  Ascii.eqb c "}" = false ->
  Mustache.scanTag unclosed Mustache.KName false racc (String c rest)
  = Mustache.scanTag unclosed Mustache.KName false (c :: racc) rest.
Proof.
  intro Hc. cbn [Mustache.scanTag]. rewrite Hc. simpl.
  destruct rest; reflexivity.
Qed.

Lemma scanTag_name_close (racc : list ascii) (rest : string) :
  Mustache.scanTag unclosed Mustache.KName false racc
    (String "}" (String "}" rest))
  = (ts <- Mustache.scanText unclosed rest ;;
     Returns (Mustache.TEscaped (Mustache.tagValue racc) :: ts)).
Proof. reflexivity. Qed.

Lemma scanTag_name (l racc : list ascii) (rest : string) :
  forallb isIdentifierChar l = true ->
  Mustache.scanTag unclosed Mustache.KName false racc
    (string_of_list_ascii l ++ String "}" (String "}" rest))%string
  = (ts <- Mustache.scanText unclosed rest ;;
     Returns (Mustache.TEscaped (Mustache.tagValue (rev l ++ racc)) :: ts)).
Proof.
  revert racc. induction l as [| c l IH]; intros racc H.
  - apply scanTag_name_close.
  - simpl in H. apply andb_true_iff in H. destruct H as [Hc Hl].
    destruct (identifier_char c Hc) as [_ [_ [Hbrace _]]].
    cbn [string_of_list_ascii String.append].
    rewrite (scanTag_name_step c racc _ Hbrace), (IH (c :: racc) Hl).
    simpl. now rewrite <- app_assoc.
Qed.

(** After [{{], an identifier up to [}}] is read as an escaped
    variable. *)
Lemma scanTag_identifier (l : list ascii) (rest : string) :
  l <> [] ->
  forallb isIdentifierChar l = true ->
  Mustache.scanTag unclosed Mustache.KAwait true []
    (string_of_list_ascii l ++ String "}" (String "}" rest))%string
  = (ts <- Mustache.scanText unclosed rest ;;
     Returns (Mustache.TEscaped (string_of_list_ascii l) :: ts)).
Proof.
  intros Hne H. destruct l as [| c l]; [contradiction |].
  simpl in H. apply andb_true_iff in H. destruct H as [Hc Hl].
  destruct (identifier_char c Hc) as [Hws [Htype [Hbrace _]]].
  cbn [string_of_list_ascii String.append].
  transitivity (Mustache.scanTag unclosed Mustache.KName false [c]
                  (string_of_list_ascii l ++ String "}" (String "}" rest))%string).
  - cbn [Mustache.scanTag]. rewrite Hws, Htype, Hbrace. simpl.
    destruct (string_of_list_ascii l ++ String "}" (String "}" rest))%string;
      reflexivity.
  - rewrite (scanTag_name l [c] rest Hl).
    replace (Mustache.tagValue (rev l ++ [c])) with (string_of_list_ascii (c :: l));
      [reflexivity |].
    unfold Mustache.tagValue.
    replace (rev l ++ [c]) with (rev (c :: l)) by reflexivity.
    assert (D : forall m, forallb isIdentifierChar m = true ->
                          Mustache.dropWhitespace (rev m) = rev m).
    { intros m Hm. destruct (rev m) as [| x m'] eqn:E; [reflexivity |].
      assert (Hx : In x m) by (apply in_rev; rewrite E; now left).
      apply (proj1 (forallb_forall _ _) Hm) in Hx.
      simpl. now rewrite (proj1 (identifier_char x Hx)). }
    rewrite D, rev_involutive; [reflexivity |].
    simpl. now rewrite Hc, Hl.
Qed.

End MustacheFacts.

Lemma renderTokens_text (l : list ascii) (u : User) :
  Mustache.renderTokens (map Mustache.TText l) u = Returns (string_of_list_ascii l).
Proof.
  induction l as [| c l IH]; simpl; [reflexivity |]. now rewrite IH.
Qed.

Lemma list_ascii_of_string_app (s1 s2 : string) :
  list_ascii_of_string (s1 ++ s2)%string
  = list_ascii_of_string s1 ++ list_ascii_of_string s2.
Proof. induction s1 as [| c s1 IH]; simpl; [reflexivity | now rewrite IH]. Qed.

(** A template without tag is rendered as it is. *)
Lemma render_tagFree (template : string) (u : User) :
  forallb Mustache.isAscii (list_ascii_of_string template) = true ->
  tagFree template = true ->
  Mustache.render template u = Returns template.
Proof.
  intros Hascii Hfree. unfold Mustache.render, Mustache.parseTemplate.
  rewrite Hascii, (scanText_tagFree _ _ Hfree). simpl.
  now rewrite renderTokens_text, string_of_list_ascii_of_string.
Qed.

(** A placeholder that names no property of the user renders as the
    empty string. *)
Lemma render_unknown_placeholder (name : string) (u : User) :
  isIdentifier name = true ->
  unknownName u name = true ->
  Mustache.render ("{{" ++ name ++ "}}")%string u = Returns ""%string.
Proof.
  intros Hid Hunknown. unfold isIdentifier in Hid.
  destruct name as [| c0 name0] eqn:Ename; [discriminate |]. rewrite <- Ename in *.
  assert (Hne : list_ascii_of_string name <> []) by (rewrite Ename; discriminate).
  clear Ename c0 name0.
  unfold Mustache.render, Mustache.parseTemplate.
  replace (forallb Mustache.isAscii (list_ascii_of_string ("{{" ++ name ++ "}}")%string))
    with true.
  - rewrite <- (string_of_list_ascii_of_string name) at 2.
    cbn [String.append Mustache.scanText Ascii.eqb Bool.eqb andb].
    rewrite (scanTag_identifier _ _ ""%string Hne Hid).
    rewrite string_of_list_ascii_of_string. simpl.
    unfold Mustache.lookup. unfold unknownName in Hunknown.
    replace (Mustache.hasDot name) with false.
    + destruct (userProperty u name); [discriminate |].
      apply negb_true_iff in Hunknown. now rewrite Hunknown.
    + symmetry. unfold Mustache.hasDot. apply not_true_is_false. intro Hdot.
      apply existsb_exists in Hdot. destruct Hdot as [x [Hx Hdot]].
      apply (proj1 (forallb_forall _ _) Hid) in Hx.
      destruct (identifier_char x Hx) as [_ [_ [_ [Hnodot _]]]]. congruence.
  - symmetry. rewrite !list_ascii_of_string_app, !forallb_app. simpl.
    rewrite andb_true_r. apply forallb_forall. intros x Hx.
    apply (proj1 (forallb_forall _ _) Hid) in Hx.
    now destruct (identifier_char x Hx) as [_ [_ [_ [_ Hascii]]]].
Qed.

Section ParseConditions.

Context {engine : TemplateEngine}.

Lemma mapM_returns {A B : Type} (f : A -> Outcome B) (l : list A) :
  (forall x, In x l -> exists y, f x = Returns y) ->
  exists ys, mapM f l = Returns ys.
Proof.
  induction l as [| x l IH]; intro H; simpl.
  - eauto.
  - destruct (H x (or_introl eq_refl)) as [y ->].
    destruct IH as [ys ->]; [intros z Hz; apply H; now right |].
    simpl. eauto.
Qed.

Lemma parseConditions_follows (conditions : Json) (u : User) :
  isObject conditions = true ->
  follows (mapM (fun t => render t u) (stringLeaves conditions))
    (parseConditions conditions u)
    (Some (mapLeaves (fun t => coerce (renderedText u t)) conditions)).
Proof.
  intro Hobj. pose proof (cloneDeepWith_renderLeaf u conditions) as H.
  unfold follows in *. unfold parseConditions.
  destruct conditions; try discriminate Hobj;
    destruct (mapM _ _); rewrite H; reflexivity.
Qed.

End ParseConditions.

(** ** C5: exceptions while rendering *)

(** C5, refuted as stated.  The template [{"authorId": "{{id"}] has a tag
    that is never closed: [Mustache.render] raises on its leaf, and
    [parseConditions], which catches nothing, raises with it; so does
    [createAbility] for a user who holds a permission with this
    template. *)
Lemma unclosed_tag_makes_rendering_throw :
  Mustache.render "{{id" Sample.editor = Throws "Unclosed tag at 4"
  /\ parseConditions Sample.brokenTemplate Sample.editor
     = Throws "Unclosed tag at 4"
  /\ createAbility
       (Some (Sample.userOf 2 "editor.simple@test.com" []
                [Sample.claim (Sample.perm update "Post" Sample.brokenTemplate)
                   false None]))
     = Throws "Unclosed tag at 4".
Proof. repeat split. Qed.

(** C5, amended.  A condition that is null or not an object yields
    [undefined], the unconditional rule, without any rendering.  On an
    object or array [parseConditions] renders the string leaves in order
    and fails exactly as the first leaf that fails to render: it returns
    when all of them render, and an exception of the template engine
    propagates.  With Mustache, a leaf without tag passes through
    literally and a placeholder that names no property of the user renders
    as the empty string. *)
Theorem parseConditions_fails_only_as_rendering_fails
    {engine : TemplateEngine} (conditions : Json) (u : User) :
  (isObject conditions = false -> parseConditions conditions u = Returns None)
  /\ (isObject conditions = true ->
      follows (mapM (fun t => render t u) (stringLeaves conditions))
        (parseConditions conditions u)
        (Some (mapLeaves (fun t => coerce (renderedText u t)) conditions)))
  /\ (forall template,
        forallb Mustache.isAscii (list_ascii_of_string template) = true ->
        tagFree template = true ->
        Mustache.render template u = Returns template)
  /\ (forall name,
        isIdentifier name = true -> unknownName u name = true ->
        Mustache.render ("{{" ++ name ++ "}}")%string u = Returns ""%string).
Proof.
  split; [| split; [| split]].
  - destruct conditions; try discriminate; reflexivity.
  - apply parseConditions_follows.
  - intros template. apply render_tagFree.
  - intros name. apply render_unknown_placeholder.
Qed.

(** The amended C5 at the editor: no condition, the ownership template, a
    literal, an unknown placeholder. *)
Lemma parseConditions_fails_only_as_rendering_fails_witness :
  parseConditions JNull Sample.editor = Returns None
  /\ parseConditions Sample.ownPosts Sample.editor
     = Returns (Some (JObj [("authorId", JNum (Int 2))]))
  /\ Mustache.render "${user.id}" Sample.editor = Returns "${user.id}"%string
  /\ Mustache.render "{{nickname}}" Sample.editor = Returns ""%string.
Proof.
  split; [| split; [| split]].
  - exact (proj1 (parseConditions_fails_only_as_rendering_fails
                    JNull Sample.editor) eq_refl).
  - exact (proj1 (proj2 (parseConditions_fails_only_as_rendering_fails
                           Sample.ownPosts Sample.editor)) eq_refl).
  - exact (proj1 (proj2 (proj2 (parseConditions_fails_only_as_rendering_fails
                                  JNull Sample.editor)))
             "${user.id}"%string eq_refl eq_refl).
  - exact (proj2 (proj2 (proj2 (parseConditions_fails_only_as_rendering_fails
                                  JNull Sample.editor)))
             "nickname"%string eq_refl eq_refl).
Defined.

(** ** C6: numeric coercion of rendered leaves *)

Lemma Number_exact (s : string) :
  (decimalValue s < 2 ^ 53)%N -> Number s = Int (Z.of_N (decimalValue s)).
Proof.
  intro H. unfold Number, roundToDouble.
  replace (N.size (decimalValue s) <=? 53)%N with true; [reflexivity |].
  symmetry. apply N.leb_le.
  destruct (N.eq_dec (decimalValue s) 0) as [-> | Hpos]; [discriminate |].
  rewrite N.size_log2 by assumption.
  apply N.le_succ_l. apply N.log2_lt_pow2; [| exact H].
  destruct (decimalValue s); [contradiction | reflexivity].
Qed.

Lemma render_id (u : User) :
  Mustache.render "{{id}}" u
  = (piece <- numberToString (Int (id u)) ;; Returns (piece ++ "")%string).
Proof. reflexivity. Qed.

(** The decimal numeral of a natural number: digits only, and read back
    by [decimalValue]. *)
Lemma decimalValue_acc (d : Decimal.uint) (acc : positive) :
  fold_left (fun a c => (10 * a + digitValue c)%N)
    (list_ascii_of_string (NilEmpty.string_of_uint d)) (N.pos acc)
  = N.pos (Pos.of_uint_acc d acc).
Proof.
  revert acc. induction d; intro acc;
    cbn [NilEmpty.string_of_uint list_ascii_of_string fold_left Pos.of_uint_acc];
    try reflexivity;
    rewrite <- IHd; f_equal; unfold digitValue;
    match goal with
    | |- context [nat_of_ascii ?c] =>
        let n := eval compute in (N.of_nat (nat_of_ascii c - 48)) in
        change (N.of_nat (nat_of_ascii c - 48)) with n
    end; lia.
Qed.

Lemma decimalValue_uint (d : Decimal.uint) :
  decimalValue (NilEmpty.string_of_uint d) = Pos.of_uint d.
Proof.
  unfold decimalValue.
  induction d;
    cbn [NilEmpty.string_of_uint list_ascii_of_string fold_left Pos.of_uint];
    try reflexivity;
    [ exact IHd | .. ];
    rewrite <- decimalValue_acc; f_equal.
Qed.

Lemma digits_uint (d : Decimal.uint) :
  forallb isDigit (list_ascii_of_string (NilEmpty.string_of_uint d)) = true.
Proof. induction d; simpl; auto. Qed.

Lemma numeral_of_id (z : Z) :
  (0 <= z < 2 ^ 53)%Z ->
  exists numeral,
    numberToString (Int z) = Returns numeral
    /\ allDigits numeral = true
    /\ Number numeral = Int z.
Proof.
  intros [Hlo Hhi]. unfold numberToString.
  replace (Z.abs z <? 10 ^ 21)%Z with true
    by (symmetry; apply Z.ltb_lt; rewrite Z.abs_eq by assumption;
        apply (Z.lt_trans _ _ _ Hhi); reflexivity).
  eexists. split; [reflexivity |].
  destruct z as [| p | p]; [split; reflexivity | | lia].
  simpl. unfold NilZero.string_of_uint.
  destruct (Pos.to_uint p) eqn:Ed;
    try (exfalso; exact (Unsigned.to_uint_nonnil p Ed));
    rewrite <- Ed;
    (assert (Hd : allDigits (NilEmpty.string_of_uint (Pos.to_uint p)) = true)
      by (rewrite Ed; simpl; apply (digits_uint _)));
    (split; [exact Hd |]);
    (rewrite Number_exact;
     rewrite decimalValue_uint, Unsigned.of_to; [reflexivity |]);
    change (2 ^ 53)%N with (Z.to_N (2 ^ 53)); change (N.pos p) with (Z.to_N (Z.pos p));
    apply Z2N.inj_lt; lia.
Qed.

Lemma append_empty (s : string) : (s ++ "")%string = s.
Proof. induction s as [| c s IH]; simpl; [reflexivity | now rewrite IH]. Qed.

(** C6.  When the string leaves of a condition template render,
    [parseConditions] returns the copy of the template in which every
    string leaf is replaced by its rendered text, coerced: a rendered text
    made of digits only becomes the number it denotes (exactly, below
    2^53), any other rendered text stays that string; leaves that are not
    strings are kept.  In particular the leaf ["{{id}}"] rendered by
    Mustache against a user becomes the number that is the user's id (for
    an id from 0 up to 2^53), the number 7 for the user with id 7. *)
Theorem rendered_digits_become_a_number
    {engine : TemplateEngine} (conditions : Json) (u : User) :
  isObject conditions = true ->
  (forall t, In t (stringLeaves conditions) -> exists r, render t u = Returns r) ->
  parseConditions conditions u
  = Returns (Some (mapLeaves (fun t => coerce (renderedText u t)) conditions))
  /\ (forall t r, render t u = Returns r ->
        renderedText u t = r
        /\ (allDigits r = true ->
            coerce r = JNum (Number r)
            /\ ((decimalValue r < 2 ^ 53)%N ->
                coerce r = JNum (Int (Z.of_N (decimalValue r)))))
        /\ (allDigits r = false -> coerce r = JStr r))
  /\ (forall v key, (0 <= id v < 2 ^ 53)%Z ->
        @parseConditions Mustache_engine (JObj [(key, JStr "{{id}}")]) v
        = Returns (Some (JObj [(key, JNum (Int (id v)))])))
  /\ (forall v, id v = 7%Z ->
        @parseConditions Mustache_engine (JObj [("authorId", JStr "{{id}}")]) v
        = Returns (Some (JObj [("authorId", JNum (Int 7))]))).
Proof.
  intros Hobj Hleaves.
  assert (G : forall v key, (0 <= id v < 2 ^ 53)%Z ->
                @parseConditions Mustache_engine (JObj [(key, JStr "{{id}}")]) v
                = Returns (Some (JObj [(key, JNum (Int (id v)))]))).
  { intros v key Hid. destruct (numeral_of_id _ Hid) as [numeral [Hn [Hd HN]]].
    unfold parseConditions. simpl.
    unfold renderLeaf, render, Mustache_engine.
    rewrite render_id, Hn. simpl. rewrite append_empty, Hd, HN.
    rewrite Object_entries_singleton. reflexivity. }
  split; [| split; [| split]].
  - pose proof (parseConditions_follows conditions u Hobj) as H.
    destruct (mapM_returns _ _ Hleaves) as [rs Hrs].
    unfold follows in H. now rewrite Hrs in H.
  - intros t r Hr. unfold renderedText, coerce. rewrite Hr.
    split; [reflexivity |]. split.
    + intros ->. split; [reflexivity |]. intro Hsmall.
      now rewrite (Number_exact r Hsmall).
    + now intros ->.
  - exact G.
  - intros v Hv. rewrite <- Hv. apply G. rewrite Hv. split; [discriminate | reflexivity].
Qed.

(** C6 at the editor (id 2) and the ownership template. *)
Lemma rendered_digits_become_a_number_witness :
  parseConditions Sample.ownPosts Sample.editor
  = Returns (Some (JObj [("authorId", JNum (Int 2))])).
Proof.
  refine (proj1 (rendered_digits_become_a_number
                   Sample.ownPosts Sample.editor eq_refl _)).
  intros t [<- | []]. eexists. reflexivity.
Defined.

(** ** C7: matching a resolved condition against a resource *)

Lemma JsNumber_eqb_eq (a b : JsNumber) : JsNumber_eqb a b = true <-> a = b.
Proof.
  destruct a as [x |], b as [y |]; simpl; split; intro H;
    try discriminate; try reflexivity.
  - apply Z.eqb_eq in H. now subst.
  - injection H as ->. apply Z.eqb_refl.
Qed.

Module MongoFacts.

Import MongoQuery.

Lemma strictEquals_true (value : option Attr) (o : Operand) (b : bool) :
  strictEquals value o = Returns b ->
  (b = true <-> value = Some (attrOf o)).
Proof.
  destruct value as [[ | x | n | s | ] |]; simpl; intro E;
    try discriminate; injection E as <-;
    try (split; [discriminate | destruct o; discriminate]).
  - destruct o as [y | m | t]; simpl;
      try (split; [discriminate | intro H; discriminate H]).
    split.
    + intro H. apply Bool.eqb_prop in H. now subst.
    + intro H. injection H as ->. apply Bool.eqb_reflx.
  - destruct o as [y | m | t]; simpl;
      try (split; [discriminate | intro H; discriminate H]).
    split.
    + intro H. apply JsNumber_eqb_eq in H. now subst.
    + intro H. injection H as ->. now apply JsNumber_eqb_eq.
  - destruct o as [y | m | t]; simpl;
      try (split; [discriminate | intro H; discriminate H]).
    split.
    + intro H. apply String.eqb_eq in H. now subst.
    + intro H. injection H as ->. apply String.eqb_refl.
Qed.

Lemma operandOf_jsonOf (o : Operand) : operandOf (jsonOf o) = Some o.
Proof. now destruct o. Qed.

Lemma parseField_eq (field : string) (o : Operand) :
  plainField field = true ->
  parseField (field, jsonOf o) = Returns (Eq field o).
Proof. intro H. unfold parseField. now rewrite H, operandOf_jsonOf. Qed.

Lemma parseField_ne (field : string) (o : Operand) :
  plainField field = true ->
  parseField (field, JObj [("$ne"%string, jsonOf o)]) = Returns (Ne field o).
Proof.
  intro H. unfold parseField. rewrite H. simpl. now rewrite operandOf_jsonOf.
Qed.

(** A condition with a single entry is that entry's field condition. *)
Lemma matcher_single (entry : string * Json) (object : list (string * Attr)) :
  matcher (JObj [entry]) object
  = (c <- parseField entry ;; interpret c object).
Proof.
  unfold matcher, parse. simpl.
  destruct (parseField entry) as [c | e | ]; simpl; try reflexivity.
  destruct (interpret c object) as [[] | e | ]; reflexivity.
Qed.

Lemma mapM_parse (props : list (string * Json)) (q : list FieldCondition) :
  mapM parseField props = Returns q ->
  Forall2 (fun entry c => parseField entry = Returns c) props q.
Proof.
  revert q. induction props as [| entry props IH]; intros q E; simpl in E.
  - injection E as <-. constructor.
  - invert_bind E as c Ec Erest. invert_bind Erest as q' Eq' Eret.
    injection Eret as <-. constructor; auto.
Qed.

Lemma every_true (q : list FieldCondition) (object : list (string * Attr)) :
  every q object = Returns true ->
  Forall (fun c => interpret c object = Returns true) q.
Proof.
  induction q as [| c q IH]; simpl; intro E; [constructor |].
  invert_bind E as holds Ec Erest. destruct holds; [| discriminate].
  constructor; auto.
Qed.

Lemma every_false (q : list FieldCondition) (object : list (string * Attr)) :
  every q object = Returns false ->
  exists c, In c q /\ interpret c object = Returns false.
Proof.
  induction q as [| c q IH]; simpl; intro E; [discriminate |].
  invert_bind E as holds Ec Erest. destruct holds.
  - destruct (IH Erest) as [c' [Hin Hc']]. exists c'. auto.
  - exists c. auto.
Qed.

Lemma every_total (q : list FieldCondition) (object : list (string * Attr)) :
  Forall (fun c => getProperty (fieldOf c) object <> Some AOther) q ->
  exists b, every q object = Returns b.
Proof.
  induction 1 as [| c q Hc _ IH]; simpl; [eauto |].
  assert (T : exists holds, interpret c object = Returns holds).
  { destruct c as [field o | field o]; simpl in *;
      destruct (getProperty field object) as [[ | | | | ] |]; simpl; eauto;
      contradiction. }
  destruct T as [holds ->]. simpl. destruct holds; eauto.
Qed.

End MongoFacts.

(** C7.  On a resource instance [object]: a condition [{field: value}]
    matches exactly when [object[field]] is [value]; a condition
    [{field: {"$ne": value}}] matches exactly when [object[field]] is not
    [value]; a condition with several fields matches exactly when every
    one of its fields matches; the matcher completes when the fields it
    reads hold primitives.  In particular [{authorId: {"$ne": 7}}] does
    not match a resource with [authorId] 7 and matches one with
    [authorId] 9. *)
Theorem conditions_match_field_by_field (object : list (string * Attr)) :
  (forall field o b,
      MongoQuery.plainField field = true ->
      MongoQuery.matcher (JObj [(field, MongoQuery.jsonOf o)]) object = Returns b ->
      (b = true <-> getProperty field object = Some (MongoQuery.attrOf o)))
  /\ (forall field o b,
        MongoQuery.plainField field = true ->
        MongoQuery.matcher
          (JObj [(field, JObj [("$ne"%string, MongoQuery.jsonOf o)])]) object
        = Returns b ->
        (b = true <-> getProperty field object <> Some (MongoQuery.attrOf o)))
  /\ (forall props b,
        MongoQuery.matcher (JObj props) object = Returns b ->
        (b = true <->
         forall entry, In entry props ->
                       MongoQuery.matcher (JObj [entry]) object = Returns true))
  /\ (forall props q,
        MongoQuery.parse (JObj props) = Returns q ->
        Forall (fun c => getProperty (MongoQuery.fieldOf c) object <> Some AOther) q ->
        exists b, MongoQuery.matcher (JObj props) object = Returns b)
  /\ MongoQuery.matcher (JObj [("authorId"%string, JObj [("$ne"%string, JNum (Int 7))])])
       [("authorId"%string, ANum (Int 7))] = Returns false
  /\ MongoQuery.matcher (JObj [("authorId"%string, JObj [("$ne"%string, JNum (Int 7))])])
       [("authorId"%string, ANum (Int 9))] = Returns true.
Proof.
  split; [| split; [| split; [| split; [| split]]]]; try reflexivity.
  - intros field o b Hplain E.
    rewrite MongoFacts.matcher_single, (MongoFacts.parseField_eq _ _ Hplain) in E.
    simpl in E. now apply MongoFacts.strictEquals_true.
  - intros field o b Hplain E.
    rewrite MongoFacts.matcher_single, (MongoFacts.parseField_ne _ _ Hplain) in E.
    simpl in E. invert_bind E as e Ee Eret. injection Eret as <-.
    apply MongoFacts.strictEquals_true in Ee.
    destruct e; simpl; split; intro H; try discriminate.
    + exfalso. apply H. now apply Ee.
    + intro H'. apply Ee in H'. discriminate.
    + reflexivity.
  - intros props b E. unfold MongoQuery.matcher, MongoQuery.parse in E.
    invert_bind E as q Eq Eevery. apply MongoFacts.mapM_parse in Eq. split.
    + intros -> entry Hin. apply MongoFacts.every_true in Eevery.
      destruct (Forall2_In_l _ _ _ _ Eq Hin) as [c [Hc Hparse]].
      rewrite MongoFacts.matcher_single, Hparse. simpl.
      now apply (proj1 (Forall_forall _ _) Eevery).
    + intro Hall. destruct b; [reflexivity |]. exfalso.
      apply MongoFacts.every_false in Eevery. destruct Eevery as [c [Hc Hfalse]].
      assert (Hentry : exists entry, In entry props
                                     /\ MongoQuery.parseField entry = Returns c).
      { clear - Eq Hc. induction Eq as [| entry c' props q Hp _ IH].
        - destruct Hc.
        - destruct Hc as [-> | Hc].
          + exists entry. split; [now left | assumption].
          + destruct (IH Hc) as [entry' [Hin Hp']]. exists entry'.
            split; [now right | assumption]. }
      destruct Hentry as [entry [Hin Hparse]].
      specialize (Hall entry Hin).
      rewrite MongoFacts.matcher_single, Hparse in Hall. simpl in Hall.
      congruence.
  - intros props q Hparse Hprim. unfold MongoQuery.matcher. rewrite Hparse.
    simpl. now apply MongoFacts.every_total.
Qed.

(** C7 on a post written by user 9: the ownership condition of user 9
    matches it, that of user 7 does not. *)
Lemma conditions_match_field_by_field_witness :
  (true = true <->
   getProperty "authorId" [("authorId"%string, ANum (Int 9))] = Some (ANum (Int 9)))
  /\ (false = true <->
      getProperty "authorId" [("authorId"%string, ANum (Int 9))]
      <> Some (ANum (Int 9)))
  /\ exists b,
      MongoQuery.matcher
        (JObj [("authorId"%string, JNum (Int 7)); ("isPublished"%string, JBool true)])
        [("authorId"%string, ANum (Int 9)); ("isPublished"%string, ABool true)]
      = Returns b.
Proof.
  split; [| split].
  - exact (proj1 (conditions_match_field_by_field
                    [("authorId"%string, ANum (Int 9))])
             "authorId"%string (MongoQuery.ONum (Int 9)) true eq_refl eq_refl).
  - exact (proj1 (proj2 (conditions_match_field_by_field
                           [("authorId"%string, ANum (Int 9))]))
             "authorId"%string (MongoQuery.ONum (Int 9)) false eq_refl eq_refl).
  - refine (proj1 (proj2 (proj2 (proj2 (conditions_match_field_by_field
              [("authorId"%string, ANum (Int 9));
               ("isPublished"%string, ABool true)]))))
              [("authorId"%string, JNum (Int 7)); ("isPublished"%string, JBool true)]
              _ eq_refl _).
    repeat constructor; discriminate.
Defined.

(** ** C8 and C10: the reason of a revoke *)

Lemma Forall2_In_r {A B : Type} (R : A -> B -> Prop) (l : list A) (rs : list B)
    (r : B) :
  Forall2 R l rs -> In r rs -> exists x, In x l /\ R x r.
Proof.
  induction 1 as [| y r' l rs Hyr _ IH]; intro Hin.
  - destruct Hin.
  - destruct Hin as [-> | Hin].
    + exists y. split; [now left | assumption].
    + destruct (IH Hin) as [x [Hx HR]]. exists x. split; [now right | assumption].
Qed.

(** In a list of Allow rules followed by Deny rules, only Deny rules
    follow a Deny rule. *)
Lemma after_a_deny (allows denies pre post : list RawRule) (r : RawRule) :
  Forall (fun x => rule_inverted x = false) allows ->
  Forall (fun x => rule_inverted x = true) denies ->
  allows ++ denies = pre ++ r :: post ->
  rule_inverted r = true ->
  Forall (fun x => rule_inverted x = true) post.
Proof.
  intros Hallows Hdenies. revert pre.
  induction Hallows as [| x allows Hx _ IH]; intros pre E Hr; simpl in E.
  - rewrite E in Hdenies. apply Forall_app in Hdenies.
    destruct Hdenies as [_ H]. now inversion H.
  - destruct pre as [| y pre]; simpl in E; injection E as -> E.
    + congruence.
    + now apply (IH pre).
Qed.

Section Reasons.

Context {engine : TemplateEngine} {matcher : ConditionsMatcher}.

Lemma compiled_allows_then_denies (u : User) (ab : Ability) :
  createAbility (Some u) = Returns ab ->
  exists allows denies,
    rules ab = allows ++ denies
    /\ Forall (fun x => rule_inverted x = false) allows
    /\ Forall (fun x => rule_inverted x = true) denies
    /\ Forall2 (DenyRuleFor u) (revokes u) denies.
Proof.
  intro E.
  destruct (createAbility_shape _ _ E) as [r1 [r2 [r3 [Hrules [H1 [H2 H3]]]]]].
  exists (r1 ++ r2), r3. split; [now rewrite <- app_assoc |].
  split; [| split; [| exact H3]].
  - apply Forall_app. split.
    + apply (Forall2_Forall_r _ _ _ _ (fun p r (H : AllowRuleFor u p r) =>
                                         proj1 (proj2 (proj2 (proj2 H)))) H1).
    + apply (Forall2_Forall_r _ _ _ _ (fun p r (H : AllowRuleFor u p r) =>
                                         proj1 (proj2 (proj2 (proj2 H)))) H2).
  - apply (Forall2_Forall_r _ _ _ _ (fun p r (H : DenyRuleFor u p r) =>
                                       proj1 (proj2 (proj2 (proj2 H)))) H3).
Qed.

Lemma compiled_deny_has_reason (u : User) (ab : Ability) (r : RawRule) :
  createAbility (Some u) = Returns ab ->
  In r (rules ab) ->
  rule_inverted r = true ->
  exists dp, In dp (revokes u) /\ DenyRuleFor u dp r.
Proof.
  intros E Hin Hinv.
  destruct (compiled_allows_then_denies u ab E)
    as [allows [denies [Hrules [Ha [_ Hd]]]]].
  rewrite Hrules in Hin. apply in_app_or in Hin. destruct Hin as [Hin | Hin].
  - apply (proj1 (Forall_forall _ _) Ha) in Hin. congruence.
  - now apply (Forall2_In_r _ _ _ _ Hd).
Qed.

Lemma reasonFor_of_found (ab : Ability) (a : Action) (s : Subject)
    (found : option RawRule) :
  relevantRuleFor ab a s = Returns found ->
  Spec.reasonFor ab a s
  = Returns (match found with
             | Some r => if rule_inverted r then rule_reason r else None
             | None => None
             end).
Proof. unfold Spec.reasonFor. now intros ->. Qed.

End Reasons.

(** C8.  For an ability compiled by [createAbility] and a query [(a, s)]:
    when [r] is the last Deny rule that matches the query, [can] answers
    false and [reasonFor] reports the reason of [r]; when no Deny rule
    matches, [reasonFor] reports nothing.  In particular, for a user whose
    last revoke claim is an unconditional revoke of [A] on [T] with reason
    [text] (and whose role grants [A] on [T]), [can(A, s)] is false and
    [reasonFor(A, s)] is [text] on every subject [s] of type [T]. *)
Theorem reasonFor_reports_the_last_matching_deny
    {engine : TemplateEngine} {matcher : ConditionsMatcher}
    (u : User) (ab : Ability) :
  createAbility (Some u) = Returns ab ->
  (forall a s pre r post,
      rules ab = pre ++ r :: post ->
      rule_inverted r = true ->
      ruleMatches r a s = Returns true ->
      Forall (fun r' => rule_inverted r' = true ->
                        ruleMatches r' a s = Returns false) post ->
      can ab a s = Returns false
      /\ Spec.reasonFor ab a s = Returns (rule_reason r))
  /\ (forall a s o,
        Spec.reasonFor ab a s = Returns o ->
        Forall (fun r => rule_inverted r = true ->
                         ruleMatches r a s = Returns false) (rules ab) ->
        o = None)
  /\ (forall A T text earlier dp s,
        In {| action := A; subject := T; conditions := JNull |} (rolePermissions u) ->
        revokes u = earlier ++ [dp] ->
        permission dp = {| action := A; subject := T; conditions := JNull |} ->
        reason dp = Some text ->
        detectSubjectType s = T ->
        can ab A s = Returns false
        /\ Spec.reasonFor ab A s = Returns (Some text)).
Proof.
  intro E. split; [| split].
  - intros a s pre r post Hrules Hinv Hr Hpost.
    destruct (compiled_allows_then_denies u ab E)
      as [allows [denies [Hsplit [Ha [Hd _]]]]].
    rewrite Hsplit in Hrules.
    pose proof (after_a_deny _ _ _ _ _ Ha Hd Hrules Hinv) as Hdenies.
    assert (Hnone : Forall (fun r' => ruleMatches r' a s = Returns false) post).
    { apply Forall_forall. intros r' Hin.
      apply (proj1 (Forall_forall _ _) Hpost r' Hin).
      now apply (proj1 (Forall_forall _ _) Hdenies). }
    assert (F : relevantRuleFor ab a s = Returns (Some r)).
    { unfold relevantRuleFor, rulesFor. rewrite Hsplit, Hrules.
      now apply firstMatching_complete. }
    rewrite (can_of_found _ _ _ _ F), (reasonFor_of_found _ _ _ _ F), Hinv.
    auto.
  - intros a s o Hreason Hnone. unfold Spec.reasonFor in Hreason.
    invert_bind Hreason as found Efound Eret. injection Eret as <-.
    destruct found as [d |]; [| reflexivity].
    destruct (rule_inverted d) eqn:Hd; [| reflexivity]. exfalso.
    unfold relevantRuleFor, rulesFor in Efound.
    apply firstMatching_sound in Efound.
    destruct Efound as [pre [post [Hrules [Hmatch _]]]].
    assert (Hin : In d (rules ab)).
    { rewrite Hrules. apply in_or_app. right. now left. }
    apply (proj1 (Forall_forall _ _) Hnone) in Hin; congruence.
  - intros A T text earlier dp s _ Hlast Hperm Htext <-.
    destruct (createAbility_shape _ _ E) as [r1 [r2 [r3 [Hrules [_ [_ H3]]]]]].
    rewrite Hlast in H3. apply Forall2_app_inv_l in H3.
    destruct H3 as [r3' [tail [_ [Hlast3 ->]]]].
    inversion Hlast3 as [| ? r ? rest HD Hnil]; subst. inversion Hnil. subst.
    destruct HD as [Hc [Ha [Hsub [Hinv Hreason]]]].
    rewrite Hperm in Hc, Ha, Hsub. simpl in Hc, Ha, Hsub.
    injection Hc as Hc. symmetry in Hc.
    assert (M : ruleMatches r A s = Returns true).
    { rewrite <- Ha, (unconditional_matches r s Hc), Hsub.
      now rewrite String.eqb_refl. }
    assert (F : relevantRuleFor ab A s = Returns (Some r)).
    { unfold relevantRuleFor, rulesFor. rewrite Hrules.
      replace (r1 ++ r2 ++ r3' ++ [r]) with ((r1 ++ r2 ++ r3') ++ r :: [])
        by now rewrite <- !app_assoc.
      apply firstMatching_complete; [exact M | constructor]. }
    rewrite (can_of_found _ _ _ _ F), (reasonFor_of_found _ _ _ _ F), Hinv.
    rewrite Hreason, Htext. auto.
Qed.

(** C8 at the sanctioned moderator, on the type and on a post. *)
Lemma reasonFor_reports_the_last_matching_deny_witness :
  (can Sample.sanctionedAbility delete (TypeOnly "Post") = Returns false
   /\ Spec.reasonFor Sample.sanctionedAbility delete (TypeOnly "Post")
      = Returns (Some "sanctioned"%string))
  /\ (can Sample.sanctionedAbility delete (Sample.post 4 9) = Returns false
      /\ Spec.reasonFor Sample.sanctionedAbility delete (Sample.post 4 9)
         = Returns (Some "sanctioned"%string)).
Proof.
  pose proof (reasonFor_reports_the_last_matching_deny
                Sample.sanctioned Sample.sanctionedAbility eq_refl)
    as [_ [_ H]].
  split.
  - apply (H delete "Post"%string "sanctioned"%string []
             (Sample.claim (Sample.perm delete "Post" JNull) true
                (Some "sanctioned"%string)));
      try reflexivity. simpl. now left.
  - apply (H delete "Post"%string "sanctioned"%string []
             (Sample.claim (Sample.perm delete "Post" JNull) true
                (Some "sanctioned"%string)));
      try reflexivity. simpl. now left.
Defined.

(** C10.  Every revoke claim of a user has its Deny rule in the compiled
    ability, and that rule carries the reason of the claim, or the empty
    string when the claim has none; so every Deny rule of a compiled
    ability carries a string as reason, and whenever the rule that decides
    a query is a Deny rule the reason reported for it is a string. *)
Theorem revoke_without_reason_carries_empty_string
    {engine : TemplateEngine} {matcher : ConditionsMatcher}
    (u : User) (ab : Ability) :
  createAbility (Some u) = Returns ab ->
  (forall dp, In dp (directPermissions u) -> inverted dp = true ->
     exists r, In r (rules ab) /\ DenyRuleFor u dp r
               /\ (reason dp = None -> rule_reason r = Some ""%string))
  /\ (forall r, In r (rules ab) -> rule_inverted r = true ->
        exists text, rule_reason r = Some text)
  /\ (forall a s r, relevantRuleFor ab a s = Returns (Some r) ->
        rule_inverted r = true ->
        exists text, Spec.reasonFor ab a s = Returns (Some text)).
Proof.
  intro E. split; [| split].
  - intros dp Hin Hinv.
    destruct (revoke_rule_position u ab dp E Hin Hinv)
      as [pre [r [post [Hrules [HD _]]]]].
    exists r. split; [| split; [exact HD |]].
    + rewrite Hrules. apply in_or_app. right. now left.
    + intro Hnone. destruct HD as [_ [_ [_ [_ Hreason]]]].
      now rewrite Hreason, Hnone.
  - intros r Hin Hinv.
    destruct (compiled_deny_has_reason u ab r E Hin Hinv) as [dp [_ HD]].
    destruct HD as [_ [_ [_ [_ Hreason]]]]. eauto.
  - intros a s r Hfound Hinv.
    assert (Hin : In r (rules ab)).
    { unfold relevantRuleFor, rulesFor in Hfound.
      apply firstMatching_sound in Hfound.
      destruct Hfound as [pre [post [-> _]]]. apply in_or_app. right. now left. }
    destruct (compiled_deny_has_reason u ab r E Hin Hinv) as [dp [_ HD]].
    destruct HD as [_ [_ [_ [_ Hreason]]]].
    rewrite (reasonFor_of_found _ _ _ _ Hfound), Hinv, Hreason. eauto.
Qed.

(** C10 at the moderator whose revoke claim has no reason. *)
Lemma revoke_without_reason_carries_empty_string_witness :
  exists ab,
    createAbility (Some Sample.silentlySanctioned) = Returns ab
    /\ exists r, In r (rules ab) /\ rule_inverted r = true
                 /\ rule_reason r = Some ""%string.
Proof.
  eexists. split; [reflexivity |].
  destruct (proj1 (revoke_without_reason_carries_empty_string
                     Sample.silentlySanctioned _ eq_refl)
              (Sample.claim (Sample.perm delete "Post" JNull) true None))
    as [r [Hin [HD Hempty]]].
  - simpl. now left.
  - reflexivity.
  - exists r. split; [exact Hin |]. split; [apply HD | now apply Hempty].
Defined.

(** ** Structural equality of users is equality *)

Lemma option_eqb_eq {A : Type} (eqb : A -> A -> bool) (x y : option A) :
  (forall a b, eqb a b = true -> a = b) ->
  option_eqb eqb x y = true -> x = y.
Proof.
  intros H. destruct x, y; simpl; intro E; try discriminate; try reflexivity.
  now rewrite (H _ _ E).
Qed.

Lemma list_eqb_eq {A : Type} (eqb : A -> A -> bool) (l1 l2 : list A) :
  (forall a b, eqb a b = true -> a = b) ->
  list_eqb eqb l1 l2 = true -> l1 = l2.
Proof.
  intro H. revert l2. induction l1 as [| x l1 IH]; intros [| y l2]; simpl;
    intro E; try discriminate; try reflexivity.
  apply andb_true_iff in E. destruct E as [Exy E].
  now rewrite (H _ _ Exy), (IH _ E).
Qed.

Lemma Action_eqb_eq (a b : Action) : Action_eqb a b = true -> a = b.
Proof. destruct a, b; simpl; intro E; try discriminate; reflexivity. Qed.

Lemma Json_eqb_eq (v w : Json) : Json_eqb v w = true -> v = w.
Proof.
  revert w.
  induction v as [| b | n | s | items IH | props IH] using Json_nested_ind;
    intros [| c | m | t | items' | props']; simpl; intro E;
    try discriminate; try reflexivity.
  - apply Bool.eqb_prop in E. now subst.
  - apply JsNumber_eqb_eq in E. now subst.
  - apply String.eqb_eq in E. now subst.
  - f_equal. revert items' E.
    induction IH as [| x l Hx _ IHl]; intros [| y l'] E;
      try discriminate; try reflexivity.
    apply andb_true_iff in E. destruct E as [Exy E].
    now rewrite (Hx _ Exy), (IHl _ E).
  - f_equal. revert props' E.
    induction IH as [| [k x] l Hx _ IHl]; intros [| [k' y] l'] E;
      try discriminate; try reflexivity.
    apply andb_true_iff in E. destruct E as [Ehead E].
    apply andb_true_iff in Ehead. destruct Ehead as [Ek Exy].
    apply String.eqb_eq in Ek. simpl in Hx.
    now rewrite Ek, (Hx _ Exy), (IHl _ E).
Qed.

Lemma Attr_eqb_eq (x y : Attr) : Attr_eqb x y = true -> x = y.
Proof.
  destruct x, y; simpl; intro E; try discriminate; try reflexivity.
  - apply Bool.eqb_prop in E. now subst.
  - apply JsNumber_eqb_eq in E. now subst.
  - apply String.eqb_eq in E. now subst.
Qed.

Lemma Permission_eqb_eq (p q : Permission) : Permission_eqb p q = true -> p = q.
Proof.
  destruct p, q. unfold Permission_eqb. simpl. intro E.
  apply andb_true_iff in E. destruct E as [E Ec].
  apply andb_true_iff in E. destruct E as [Ea Es].
  apply Action_eqb_eq in Ea. apply String.eqb_eq in Es. apply Json_eqb_eq in Ec.
  now subst.
Qed.

Lemma Role_eqb_eq (r1 r2 : Role) : Role_eqb r1 r2 = true -> r1 = r2.
Proof.
  destruct r1, r2. unfold Role_eqb. simpl. intro E.
  apply andb_true_iff in E. destruct E as [E Ep].
  apply andb_true_iff in E. destruct E as [En Ea].
  apply String.eqb_eq in En. apply Bool.eqb_prop in Ea.
  apply list_eqb_eq in Ep.
  - now subst.
  - intros [p] [q]. unfold RolePermission_eqb. simpl. intro H.
    now rewrite (Permission_eqb_eq _ _ H).
Qed.

Lemma Z_eqb_sound (a b : Z) : Z.eqb a b = true -> a = b.
Proof. apply Z.eqb_eq. Qed.

Lemma String_eqb_sound (a b : string) : String.eqb a b = true -> a = b.
Proof. apply String.eqb_eq. Qed.

Lemma UserRole_eqb_eq (x y : UserRole) : UserRole_eqb x y = true -> x = y.
Proof.
  destruct x, y. unfold UserRole_eqb. simpl. intro E.
  apply andb_true_iff in E. destruct E as [Er Ee].
  apply Role_eqb_eq in Er. apply (option_eqb_eq _ _ _ Z_eqb_sound) in Ee.
  now subst.
Qed.

Lemma UserPermission_eqb_eq (x y : UserPermission) :
  UserPermission_eqb x y = true -> x = y.
Proof.
  destruct x, y. unfold UserPermission_eqb. simpl. intro E.
  apply andb_true_iff in E. destruct E as [E Ee].
  apply andb_true_iff in E. destruct E as [E Er].
  apply andb_true_iff in E. destruct E as [Ep Ei].
  apply Permission_eqb_eq in Ep. apply Bool.eqb_prop in Ei.
  apply (option_eqb_eq _ _ _ String_eqb_sound) in Er.
  apply (option_eqb_eq _ _ _ Z_eqb_sound) in Ee.
  now subst.
Qed.

Lemma User_eqb_eq (u v : User) : User_eqb u v = true -> u = v.
Proof.
  destruct u, v. unfold User_eqb. simpl. intro E.
  repeat (let H := fresh "E" in
          apply andb_true_iff in E; destruct E as [E H]).
  apply Z.eqb_eq in E. apply String.eqb_eq in E5. apply Bool.eqb_prop in E4.
  apply (option_eqb_eq _ _ _ Z_eqb_sound) in E3.
  apply list_eqb_eq in E2.
  - apply (list_eqb_eq _ _ _ UserRole_eqb_eq) in E1.
    apply (list_eqb_eq _ _ _ UserPermission_eqb_eq) in E0.
    now subst.
  - intros [k x] [k' y]. simpl. intro H.
    apply andb_true_iff in H. destruct H as [Hk Hx].
    apply String.eqb_eq in Hk. apply Attr_eqb_eq in Hx. now subst.
Qed.

(** ** The scenarios of the specification, computed *)

(** The editor (id 2) with [create] on [Post] and [update] on own posts. *)
Example editor_updates_own_post :
  (ab <- createAbility (Some Sample.editor) ;; can ab update (Sample.post 100 2))
  = Returns true.
Proof. reflexivity. Qed.

Example editor_does_not_update_foreign_post :
  (ab <- createAbility (Some Sample.editor) ;; can ab update (Sample.post 200 5))
  = Returns false.
Proof. reflexivity. Qed.

Example editor_creates_posts :
  (ab <- createAbility (Some Sample.editor) ;; can ab create (TypeOnly "Post"))
  = Returns true.
Proof. reflexivity. Qed.

Example editor_is_no_admin :
  (ab <- createAbility (Some Sample.editor) ;; can ab manage (TypeOnly "all"))
  = Returns false.
Proof. reflexivity. Qed.

(** A user without roles and with a direct grant of [read] on [Post]. *)
Example direct_grant_reads_posts :
  (ab <- createAbility (Some Sample.directOnly) ;; can ab read (TypeOnly "Post"))
  = Returns true.
Proof. reflexivity. Qed.

(** The administrator: [manage] on [all] matches every query. *)
Example admin_manages_all :
  (ab <- createAbility
           (Some (Sample.userOf 1 "admin@system.com"
                    [Sample.assigned Sample.ADMIN None] [])) ;;
   can ab delete (Sample.post 4 9))
  = Returns true.
Proof. reflexivity. Qed.

(** The administrator forbidden to delete its own posts and those of
    others (the two revokes of the sample data): the guard's type-only
    check passes, and every post is refused. *)
Example revokes_with_conditions :
  let user :=
    Sample.userOf 12 "admin2@system.com" [Sample.assigned Sample.ADMIN None]
      [ Sample.claim (Sample.perm delete "Post" Sample.ownPosts) true
          (Some "Auto-restriccion: Prohibido borrar mis posts");
        Sample.claim (Sample.perm delete "Post" Sample.othersPosts) true
          (Some "Restriccion extra: Tampoco puede borrar posts ajenos") ] in
  (ab <- createAbility (Some user) ;; can ab delete (TypeOnly "Post"))
  = Returns true
  /\ (ab <- createAbility (Some user) ;; can ab delete (Sample.post 1 12))
     = Returns false
  /\ (ab <- createAbility (Some user) ;; can ab delete (Sample.post 2 2))
     = Returns false
  /\ (ab <- createAbility (Some user) ;; Spec.reasonFor ab delete (Sample.post 1 12))
     = Returns (Some "Auto-restriccion: Prohibido borrar mis posts").
Proof. repeat split. Qed.

(** The seed's [${user.id}] is no Mustache tag: it stays as it is, and
    the condition compares [authorId] with that string. *)
Example dollar_brace_is_literal :
  parseConditions (JObj [("authorId", JStr "${user.id}")]) Sample.editor
  = Returns (Some (JObj [("authorId", JStr "${user.id}")])).
Proof. reflexivity. Qed.

(** The properties of a template are rendered in the order of
    [Object.keys], array indices first: of two leaves that fail, the one
    under the key [1] raises, though it was inserted last. *)
Example index_keys_are_rendered_first :
  Object_entries [("b", JStr "{{x"); ("10", JStr "{{y"); ("1", JStr "{{yy");
                  ("01", JStr "{{z")]
  = [("1", JStr "{{yy"); ("10", JStr "{{y"); ("b", JStr "{{x"); ("01", JStr "{{z")]
  /\ parseConditions (JObj [("b", JStr "{{x"); ("1", JStr "{{yy")]) Sample.editor
     = Throws "Unclosed tag at 4"
  /\ parseConditions (JObj [("b", JStr "{{id}}"); ("1", JStr "{{email}}")])
       Sample.editor
     = Returns (Some (JObj [("1", JStr "editor.simple@test.com");
                            ("b", JNum (Int 2))])).
Proof. repeat split. Qed.

(** * The request pipeline: properties *)

Lemma andThen_Completes {A B : Type} (c : Completion A) (k : A -> Completion B)
    (b : B) :
  andThen c k = Completes b -> exists a, c = Completes a /\ k a = Completes b.
Proof.
  destruct c as [a | e | ]; simpl; intro E; try discriminate.
  exists a. split; [reflexivity | exact E].
Qed.

Lemma ofOutcome_Completes {A : Type} (c : Outcome A) (a : A) :
  ofOutcome c = Completes a -> c = Returns a.
Proof. destruct c; simpl; intro E; try discriminate. now injection E as ->. Qed.

Tactic Notation "invert_andThen" hyp(H) "as" ident(x) ident(E1) ident(E2) :=
  apply andThen_Completes in H; destruct H as [x [E1 E2]].

Lemma numberToString_small (n : Z) :
  (- 10 ^ 21 < n < 10 ^ 21)%Z ->
  exists numeral, numberToString (Int n) = Returns numeral.
Proof.
  intro H. unfold numberToString.
  replace (Z.abs n <? 10 ^ 21)%Z with true; [eauto |].
  symmetry. apply Z.ltb_lt. lia.
Qed.

(** ** The guard's question and the service's *)

Section TypeLevel.

Context {matcher : ConditionsMatcher}.

(** Where an instance is let through, so is its type: the rules tried
    before the deciding one carry conditions, and on the bare type such a
    rule is skipped when it denies and decides when it allows. *)
Lemma firstMatching_instance_type (candidates : list RawRule)
    (className : string) (props : list (string * Attr)) (found : option RawRule) :
  firstMatching candidates (Instance className props) = Returns found ->
  allowedBy found = true ->
  exists found',
    firstMatching candidates (TypeOnly className) = Returns found'
    /\ allowedBy found' = true.
Proof.
  induction candidates as [| r rest IH]; simpl; intros E Hallowed.
  - injection E as <-. discriminate.
  - unfold matchesConditions in *.
    destruct (rule_conditions r) as [c |]; simpl in *.
    + destruct (rule_inverted r) eqn:Hinv; simpl.
      * destruct (matchConditions c props) as [[|] | |]; simpl in E;
          try discriminate.
        -- injection E as <-. simpl in Hallowed. rewrite Hinv in Hallowed.
           discriminate.
        -- now apply IH.
      * exists (Some r). simpl. now rewrite Hinv.
    + injection E as <-. exists (Some r). auto.
Qed.

Lemma can_on_instance_can_on_type (ab : Ability) (a : Action)
    (className : string) (props : list (string * Attr)) :
  can ab a (Instance className props) = Returns true ->
  can ab a (TypeOnly className) = Returns true.
Proof.
  unfold can, relevantRuleFor. simpl. intro E.
  destruct (firstMatching (rulesFor ab a className) (Instance className props))
    as [found | |] eqn:F; simpl in E; try discriminate.
  injection E as E.
  destruct (firstMatching_instance_type _ _ _ _ F E) as [found' [-> H]].
  simpl. now f_equal.
Qed.

End TypeLevel.

Section Access.

Context {engine : TemplateEngine} {matcher : ConditionsMatcher}.

(** What a completed [verifyPostAccess] went through. *)
Lemma verifyPostAccess_Completes (now : Clock) (db : Database)
    (userId postId : Z) (action : Action) (verification : Json) :
  PermissionService.verifyPostAccess now db userId postId action
  = Completes verification ->
  exists post user ability,
    Prisma.findUnique (posts db) postId = Some post
    /\ getUserWithPermissions (rolesNow now) (claimsNow now) (users db) userId
       = Some user
    /\ createAbility (Some user) = Returns ability
    /\ can ability action (newPost post) = Returns true
    /\ verification = PermissionService.granted action post user.
Proof.
  unfold PermissionService.verifyPostAccess, PermissionService.getPostById.
  destruct (Prisma.findUnique (posts db) postId) as [post |].
  - destruct (getUserWithPermissions _ _ _ userId) as [user |]; [| discriminate].
    intro E. invert_andThen E as ability Eab E.
    invert_andThen E as allowed Ecan E.
    apply ofOutcome_Completes in Eab, Ecan.
    destruct allowed; simpl in E; [| discriminate]. injection E as <-.
    exists post, user, ability. auto.
  - intro E. invert_andThen E as numeral Enum E. discriminate.
Qed.

Lemma authorization_verifyPostAccess_Completes (now : Clock) (db : Database)
    (userId postId : Z) (action : Action) (verification : Json) :
  AuthorizationService.verifyPostAccess now db userId postId action
  = Completes verification ->
  exists post user ability,
    Prisma.findUnique (posts db) postId = Some post
    /\ getUserWithPermissions (rolesNow now) (claimsNow now) (users db) userId
       = Some user
    /\ createAbility (Some user) = Returns ability
    /\ can ability action (newPost post) = Returns true.
Proof.
  unfold AuthorizationService.verifyPostAccess.
  destruct (Prisma.findUnique (posts db) postId) as [post |].
  - destruct (getUserWithPermissions _ _ _ userId) as [user |]; [| discriminate].
    intro E. invert_andThen E as ability Eab E.
    invert_andThen E as allowed Ecan E.
    apply ofOutcome_Completes in Eab, Ecan.
    destruct allowed; simpl in E; [| discriminate].
    exists post, user, ability. auto.
  - intro E. invert_andThen E as numeral Enum E. discriminate.
Qed.

End Access.

(** X1.  When [verifyPostAccess] lets a user act on a post, the policy
    of the route, [ability.can(action, 'Post')], lets the same user
    through [PoliciesGuard] (same database, same instants): what the
    service allows on the instance, the guard allows on the type.  So
    [GET posts/:id] and [DELETE posts/:id] then answer what
    [PostsService] answers. *)
Theorem verified_access_passes_the_route_policy
    {engine : TemplateEngine} {matcher : ConditionsMatcher}
    (now : Clock) (db : Database) (userId postId : Z) (mail : string)
    (action : Action) (verification : Json) :
  AuthorizationService.verifyPostAccess now db userId postId action
  = Completes verification ->
  PoliciesGuard.canActivate now db (CheckPolicies action "Post")
    (Some {| payload_id := userId; payload_email := mail |})
  = Completes true
  /\ (action = read ->
      PostsController.findOne now now db postId
        (Some {| payload_id := userId; payload_email := mail |})
      = PostsService.findOne db postId)
  /\ (action = delete ->
      PostsController.remove now now db postId
        (Some {| payload_id := userId; payload_email := mail |})
      = PostsService.remove db postId).
Proof.
  intro E.
  assert (Hguard : PoliciesGuard.canActivate now db (CheckPolicies action "Post")
                     (Some {| payload_id := userId; payload_email := mail |})
                   = Completes true).
  { apply authorization_verifyPostAccess_Completes in E.
    destruct E as [post [user [ability [_ [Huser [Hab Hcan]]]]]].
    unfold PoliciesGuard.canActivate, CheckPolicies. simpl.
    rewrite Huser, Hab. simpl.
    apply can_on_instance_can_on_type in Hcan. rewrite Hcan. reflexivity. }
  split; [exact Hguard |]. split; intros ->.
  - unfold PostsController.findOne, Nest.UseGuards. rewrite Hguard. simpl.
    now rewrite E.
  - unfold PostsController.remove, Nest.UseGuards. rewrite Hguard. simpl.
    now rewrite E.
Qed.

Lemma verified_access_passes_the_route_policy_witness :
  AuthorizationService.verifyPostAccess Scenario.clock Scenario.database 2 2 update
  = Completes (AuthorizationService.granted update
                 (Scenario.postOf 2 "Post de Editor" "Contenido del editor" 2 true)
                 Sample.editor)
  /\ PoliciesGuard.canActivate Scenario.clock Scenario.database
       (CheckPolicies update "Post")
       (Some {| payload_id := 2; payload_email := "editor.simple@test.com" |})
     = Completes true.
Proof.
  assert (H : AuthorizationService.verifyPostAccess Scenario.clock Scenario.database
                2 2 update
              = Completes (AuthorizationService.granted update
                             (Scenario.postOf 2 "Post de Editor"
                                "Contenido del editor" 2 true)
                             Sample.editor))
    by reflexivity.
  split; [exact H |].
  exact (proj1 (verified_access_passes_the_route_policy _ _ _ _ _ _ _ H)).
Defined.

(** ** The guard *)

Section GuardFacts.

Context {engine : TemplateEngine}.

Variable now : Clock.
Variable db : Database.

Lemma every_accepts {A : Type} (callback : A -> Completion bool) (l : list A) :
  Forall (fun x => callback x = Completes true) l ->
  PoliciesGuard.every callback l = Completes true.
Proof.
  induction 1 as [| x l Hx _ IH]; simpl.
  - reflexivity.
  - now rewrite Hx.
Qed.

Lemma every_refuses {A : Type} (callback : A -> Completion bool)
    (accepted rest : list A) (refusing : A) :
  Forall (fun x => callback x = Completes true) accepted ->
  callback refusing = Completes false ->
  PoliciesGuard.every callback (accepted ++ refusing :: rest) = Completes false.
Proof.
  intros Hacc Hrefuse. induction Hacc as [| x l Hx _ IH]; simpl.
  - now rewrite Hrefuse.
  - now rewrite Hx.
Qed.

Lemma every_all_accept {A : Type} (callback : A -> Completion bool) (l : list A) :
  PoliciesGuard.every callback l = Completes true ->
  Forall (fun x => callback x = Completes true) l.
Proof.
  induction l as [| x l IH]; simpl; intro E.
  - constructor.
  - destruct (callback x) as [[|] | |] eqn:Hx; simpl in E; try discriminate.
    constructor; auto.
Qed.

(** The guard with a user loaded and an ability compiled. *)
Lemma canActivate_loaded (metadata : option (list PolicyHandler))
    (payload : UserPayload) (user : User) (ability : Ability) :
  getUserWithPermissions (rolesNow now) (claimsNow now) (users db)
    (payload_id payload) = Some user ->
  createAbility (Some user) = Returns ability ->
  PoliciesGuard.canActivate now db metadata (Some payload)
  = (isAllowed <-- PoliciesGuard.every
                     (fun handler => PoliciesGuard.execPolicyHandler handler ability)
                     match metadata with Some handlers => handlers | None => [] end ;;
     if negb isAllowed
     then Raises (Nest.ForbiddenException
                    (Nest.Message "No tienes permiso para realizar esta acción"))
     else Completes true).
Proof.
  intros Huser Hab. unfold PoliciesGuard.canActivate. now rewrite Huser, Hab.
Qed.

End GuardFacts.

(** X2.  [canActivate] answers false only when the request carries no
    user or the user is not loaded (no row, inactive, deleted).  For a
    loaded user it answers true, throws, or fails as the engine fails,
    whatever the policies of the route. *)
Theorem canActivate_answers_false_only_without_a_user
    {engine : TemplateEngine} (now : Clock) (db : Database)
    (metadata : option (list PolicyHandler)) (requestUser : option UserPayload) :
  PoliciesGuard.canActivate now db metadata requestUser = Completes false
  <-> match requestUser with
      | Some payload =>
          getUserWithPermissions (rolesNow now) (claimsNow now) (users db)
            (payload_id payload) = None
      | None => True
      end.
Proof.
  unfold PoliciesGuard.canActivate. destruct requestUser as [payload |].
  - destruct (getUserWithPermissions _ _ _ _) as [user |].
    + split; [| discriminate]. intro E.
      destruct (createAbility (Some user)) as [ability | |]; simpl in E;
        try discriminate.
      destruct (PoliciesGuard.every _ _) as [[|] | |]; simpl in E; discriminate.
    + split; reflexivity.
  - split; auto.
Qed.

(** X3.  For a loaded user whose ability compiles: a route without
    policy metadata lets the user through; with handlers, [canActivate]
    answers true exactly when every handler accepts the ability; the
    first handler that refuses makes it throw the [ForbiddenException],
    and the handlers after it are not run. *)
Theorem canActivate_runs_the_policies_in_order
    {engine : TemplateEngine} (now : Clock) (db : Database)
    (payload : UserPayload) (user : User) (ability : Ability) :
  getUserWithPermissions (rolesNow now) (claimsNow now) (users db)
    (payload_id payload) = Some user ->
  createAbility (Some user) = Returns ability ->
  PoliciesGuard.canActivate now db None (Some payload) = Completes true
  /\ (forall handlers,
        PoliciesGuard.canActivate now db (Some handlers) (Some payload)
        = Completes true
        <-> Forall (fun handler =>
                      PoliciesGuard.execPolicyHandler handler ability
                      = Completes true) handlers)
  /\ (forall accepted refusing rest,
        Forall (fun handler =>
                  PoliciesGuard.execPolicyHandler handler ability
                  = Completes true) accepted ->
        PoliciesGuard.execPolicyHandler refusing ability = Completes false ->
        PoliciesGuard.canActivate now db (Some (accepted ++ refusing :: rest))
          (Some payload)
        = Raises (Nest.ForbiddenException
                    (Nest.Message "No tienes permiso para realizar esta acción"))).
Proof.
  intros Huser Hab. split; [| split].
  - now rewrite (canActivate_loaded now db None payload user ability).
  - intro handlers.
    rewrite (canActivate_loaded now db (Some handlers) payload user ability)
      by assumption.
    split.
    + intro E.
      destruct (PoliciesGuard.every _ handlers) as [[|] | |] eqn:Hevery;
        simpl in E; try discriminate.
      now apply every_all_accept in Hevery.
    + intro H. now rewrite (every_accepts _ _ H).
  - intros accepted refusing rest Hacc Href.
    rewrite (canActivate_loaded now db _ payload user ability) by assumption.
    now rewrite (every_refuses _ _ rest _ Hacc Href).
Qed.

Lemma canActivate_runs_the_policies_in_order_witness :
  PoliciesGuard.canActivate Scenario.clock Scenario.database None
    (Scenario.signedIn Sample.clean)
  = Completes true
  /\ PoliciesGuard.canActivate Scenario.clock Scenario.database
       (Some [ PolicyHandlerCallback (fun _ => Completes false);
               IPolicyHandler (fun _ => Raises Thrown) ])
       (Scenario.signedIn Sample.clean)
     = Raises (Nest.ForbiddenException
                 (Nest.Message "No tienes permiso para realizar esta acción")).
Proof.
  pose proof (canActivate_runs_the_policies_in_order
                Scenario.clock Scenario.database
                {| payload_id := 6; payload_email := "clean@test.com" |}
                Sample.clean {| rules := [] |} eq_refl eq_refl) as H.
  split.
  - exact (proj1 H).
  - exact (proj2 (proj2 H) [] (PolicyHandlerCallback (fun _ => Completes false))
             [IPolicyHandler (fun _ => Raises Thrown)]
             (Forall_nil _) eq_refl).
Defined.

(** X4.  A permission whose template makes [createAbility] throw locks
    the user out: [canActivate] fails with the engine's error whatever
    the policies of the route (also without any), and so does every
    access check on a post that exists; the filter answers that error
    with status 500 and the engine's message. *)
Theorem template_error_locks_the_user_out
    {engine : TemplateEngine} {matcher : ConditionsMatcher}
    (now : Clock) (db : Database) (userId : Z) (mail : string) (user : User)
    (text : string) :
  getUserWithPermissions (rolesNow now) (claimsNow now) (users db) userId
  = Some user ->
  createAbility (Some user) = Throws text ->
  (forall metadata,
     PoliciesGuard.canActivate now db metadata
       (Some {| payload_id := userId; payload_email := mail |})
     = Raises (Error text))
  /\ (forall postId post action,
        Prisma.findUnique (posts db) postId = Some post ->
        PermissionService.verifyPostAccess now db userId postId action
        = Raises (Error text))
  /\ (forall instant url,
        AllExceptionsFilter.catch instant url (Error text)
        = Returns {| AllExceptionsFilter.status := 500;
                     AllExceptionsFilter.json :=
                       {| AllExceptionsFilter.success := false;
                          AllExceptionsFilter.statusCode := 500;
                          AllExceptionsFilter.timestamp := instant;
                          AllExceptionsFilter.path := url;
                          AllExceptionsFilter.message := Some (JStr text) |} |}).
Proof.
  intros Huser Hab. split; [| split].
  - intro metadata. unfold PoliciesGuard.canActivate. simpl.
    now rewrite Huser, Hab.
  - intros postId post action Hpost.
    unfold PermissionService.verifyPostAccess, PermissionService.getPostById.
    now rewrite Hpost, Huser, Hab.
  - reflexivity.
Qed.

Lemma template_error_locks_the_user_out_witness :
  PoliciesGuard.canActivate Scenario.clock Scenario.database None
    (Scenario.signedIn Scenario.broken)
  = Raises (Error "Unclosed tag at 4")
  /\ PermissionService.verifyPostAccess Scenario.clock Scenario.database 13 1 read
     = Raises (Error "Unclosed tag at 4").
Proof.
  pose proof (template_error_locks_the_user_out
                Scenario.clock Scenario.database 13 "broken@test.com"
                Scenario.broken "Unclosed tag at 4" eq_refl eq_refl) as H.
  split.
  - exact (proj1 H None).
  - exact (proj1 (proj2 H) 1%Z _ read eq_refl).
Defined.

(** X5.  The outcomes of [verifyPostAccess], for a post id whose
    [String(id)] is its decimal numeral: it resolves exactly when the post
    exists, the user is loaded, the ability compiles and allows the action
    on the post, and then with the verification object; it throws with
    status 404 exactly when the post is missing, whoever asks; every
    other [HttpException] it throws has status 403. *)
Theorem verifyPostAccess_outcomes
    {engine : TemplateEngine} {matcher : ConditionsMatcher}
    (now : Clock) (db : Database) (userId postId : Z) (action : Action) :
  (- 10 ^ 21 < postId < 10 ^ 21)%Z ->
  (forall verification,
     PermissionService.verifyPostAccess now db userId postId action
     = Completes verification
     <-> exists post user ability,
           Prisma.findUnique (posts db) postId = Some post
           /\ getUserWithPermissions (rolesNow now) (claimsNow now) (users db)
                userId = Some user
           /\ createAbility (Some user) = Returns ability
           /\ can ability action (newPost post) = Returns true
           /\ verification = PermissionService.granted action post user)
  /\ (Prisma.findUnique (posts db) postId = None
      <-> exists response,
            PermissionService.verifyPostAccess now db userId postId action
            = Raises (HttpException 404 response))
  /\ (forall httpStatus response,
        PermissionService.verifyPostAccess now db userId postId action
        = Raises (HttpException httpStatus response) ->
        httpStatus = 404%Z \/ httpStatus = 403%Z).
Proof.
  intro Hid. split.
  { intro verification. split.
    - apply verifyPostAccess_Completes.
    - intros [post [user [ability [Hpost [Huser [Hab [Hcan ->]]]]]]].
      unfold PermissionService.verifyPostAccess, PermissionService.getPostById.
      rewrite Hpost, Huser, Hab. simpl. now rewrite Hcan. }
  destruct (numberToString_small postId Hid) as [numeral Hnum].
  unfold PermissionService.verifyPostAccess, PermissionService.getPostById.
  destruct (Prisma.findUnique (posts db) postId) as [post |].
  - assert (H : forall httpStatus response,
               match getUserWithPermissions (rolesNow now) (claimsNow now)
                       (users db) userId with
               | Some user =>
                   ability <-- ofOutcome (createAbility (Some user)) ;;
                   canPerformAction <-- ofOutcome (can ability action (newPost post)) ;;
                   if negb canPerformAction
                   then Raises (Nest.ForbiddenException
                                  (Nest.Body (PermissionService.denied action post user)))
                   else Completes (PermissionService.granted action post user)
               | None =>
                   Raises (Nest.ForbiddenException
                             (Nest.Message "Usuario no encontrado o inactivo"))
               end = Raises (HttpException httpStatus response) ->
               httpStatus = 403%Z).
    { intros httpStatus response.
      destruct (getUserWithPermissions _ _ _ _) as [user |].
      - destruct (createAbility (Some user)) as [ability | |]; simpl;
          try discriminate.
        destruct (can ability action (newPost post)) as [[|] | |]; simpl;
          try discriminate.
        intro E. now injection E as <- _.
      - intro E. now injection E as <- _. }
    split.
    + split; [discriminate |]. intros [response E]. apply H in E. discriminate E.
    + intros httpStatus response E. right. now apply (H _ response).
  - rewrite Hnum. simpl. split.
    + split; [intros _; eexists; reflexivity | reflexivity].
    + intros httpStatus response E. left. now injection E as <- _.
Qed.

Lemma verifyPostAccess_outcomes_witness :
  Prisma.findUnique (posts Scenario.database) 99 = None
  /\ exists response,
       PermissionService.verifyPostAccess Scenario.clock Scenario.database 777 99
         delete
       = Raises (HttpException 404 response).
Proof.
  split; [reflexivity |].
  apply (proj1 (proj1 (proj2 (verifyPostAccess_outcomes
                                Scenario.clock Scenario.database 777 99 delete
                                (conj eq_refl eq_refl))))).
  reflexivity.
Defined.

(** X6.  A refused access check reaches the client, through the
    filter, as status 403 with the message of the exception, which names
    the action only: the details of the exception (author of the post,
    id of the user, reason) are no part of the response. *)
Theorem denied_access_is_answered_403_without_details
    {engine : TemplateEngine} {matcher : ConditionsMatcher}
    (now : Clock) (db : Database) (userId postId : Z) (action : Action)
    (post : Post) (user : User) (ability : Ability)
    (instant : Timestamp) (url : string) :
  Prisma.findUnique (posts db) postId = Some post ->
  getUserWithPermissions (rolesNow now) (claimsNow now) (users db) userId
  = Some user ->
  createAbility (Some user) = Returns ability ->
  can ability action (newPost post) = Returns false ->
  exists e,
    PermissionService.verifyPostAccess now db userId postId action = Raises e
    /\ AllExceptionsFilter.catch instant url e
       = Returns
           {| AllExceptionsFilter.status := 403;
              AllExceptionsFilter.json :=
                {| AllExceptionsFilter.success := false;
                   AllExceptionsFilter.statusCode := 403;
                   AllExceptionsFilter.timestamp := instant;
                   AllExceptionsFilter.path := url;
                   AllExceptionsFilter.message :=
                     Some (JStr ("No tienes permiso para " ++ actionName action
                                 ++ " este post")) |} |}.
Proof.
  intros Hpost Huser Hab Hcan.
  unfold PermissionService.verifyPostAccess, PermissionService.getPostById.
  rewrite Hpost, Huser, Hab. simpl. rewrite Hcan. simpl.
  eexists. split; reflexivity.
Qed.

Lemma denied_access_is_answered_403_without_details_witness :
  exists e,
    PermissionService.verifyPostAccess Scenario.clock Scenario.database 2 1 update
    = Raises e
    /\ AllExceptionsFilter.catch Sample.today "/posts/1" e
       = Returns
           {| AllExceptionsFilter.status := 403;
              AllExceptionsFilter.json :=
                {| AllExceptionsFilter.success := false;
                   AllExceptionsFilter.statusCode := 403;
                   AllExceptionsFilter.timestamp := Sample.today;
                   AllExceptionsFilter.path := "/posts/1";
                   AllExceptionsFilter.message :=
                     Some (JStr "No tienes permiso para update este post") |} |}.
Proof.
  exact (denied_access_is_answered_403_without_details
           Scenario.clock Scenario.database 2 1 update _ _ _
           Sample.today "/posts/1" eq_refl eq_refl eq_refl eq_refl).
Defined.

(** ** What [createAbility] compiles *)

Lemma mapM_map {A B C : Type} (g : B -> Outcome C) (h : A -> B) (l : list A) :
  mapM g (map h l) = mapM (fun x => g (h x)) l.
Proof.
  induction l as [| x l IH]; simpl; [reflexivity |].
  destruct (g (h x)); simpl; auto. now rewrite IH.
Qed.

(** A loop that pushes one rule per element collects the rules of the
    elements, the first failure ending it. *)
Lemma forEach_mapM {A : Type} (g : A -> Outcome RawRule)
    (f : list RawRule -> A -> Outcome (list RawRule)) :
  (forall b x, f b x = (r <- g x ;; Returns (b ++ [r]))) ->
  forall l b, forEach f l b = (rs <- mapM g l ;; Returns (b ++ rs)).
Proof.
  intros Hf l. induction l as [| x l IH]; intro b; simpl.
  - now rewrite app_nil_r.
  - rewrite Hf. destruct (g x) as [r | e |]; simpl; auto.
    rewrite IH. destruct (mapM g l) as [rs | e |]; simpl; auto.
    now rewrite <- app_assoc.
Qed.

Lemma forEach_flat_mapM {A B : Type} (g : B -> Outcome RawRule) (h : A -> list B)
    (f : list RawRule -> A -> Outcome (list RawRule)) :
  (forall b x, f b x = (rs <- mapM g (h x) ;; Returns (b ++ rs))) ->
  forall l b, forEach f l b = (rs <- mapM g (flat_map h l) ;; Returns (b ++ rs)).
Proof.
  intros Hf l. induction l as [| x l IH]; intro b; simpl.
  - now rewrite app_nil_r.
  - rewrite Hf, mapM_app.
    destruct (mapM g (h x)) as [rs1 | e |]; simpl; auto.
    rewrite IH. destruct (mapM g (flat_map h l)) as [rs2 | e |]; simpl; auto.
    now rewrite <- app_assoc.
Qed.

Section Compilation.

Context {engine : TemplateEngine}.

Lemma allow_step_compiles (u : User) (p : Permission) (b : list RawRule) :
  (c <- parseConditions (conditions p) u ;;
   AbilityBuilder.can (action p) (subject p) c b)
  = (r <- compileRule u false None p ;; Returns (b ++ [r])).
Proof.
  unfold compileRule, AbilityBuilder.can.
  destruct (parseConditions (conditions p) u) as [c | e |]; simpl; auto.
  destruct (String.eqb (subject p) ""); auto.
  destruct c as [[ | | | | | ] |]; reflexivity.
Qed.

Lemma revoke_step_compiles (u : User) (dp : UserPermission) (b : list RawRule) :
  (c <- parseConditions (conditions (permission dp)) u ;;
   pushed <- AbilityBuilder.cannot (action (permission dp))
               (subject (permission dp)) c b ;;
   Returns (AbilityBuilder.because (reasonOrEmpty (reason dp)) pushed))
  = (r <- compileRevoke u dp ;; Returns (b ++ [r])).
Proof.
  unfold compileRevoke, compileRule, AbilityBuilder.cannot, AbilityBuilder.can,
    AbilityBuilder.because.
  destruct (parseConditions (conditions (permission dp)) u) as [c | e |];
    simpl; auto.
  destruct (String.eqb (subject (permission dp)) ""); auto.
  destruct c as [[ | | | | | ] |]; simpl; try reflexivity;
    now rewrite !updateLast_snoc.
Qed.

(** [createAbility] compiles the permissions one by one: those of the
    roles and the grants, then the revokes; the first one that fails ends
    the compilation. *)
Lemma createAbility_compiles (u : User) :
  createAbility (Some u)
  = (allows <- mapM (compileRule u false None)
                 (rolePermissions u ++ map permission (grants u)) ;;
     denies <- mapM (compileRevoke u) (revokes u) ;;
     Returns {| rules := allows ++ denies |}).
Proof.
  unfold createAbility, AbilityBuilder.build.
  unfold loadRolePermissions.
  rewrite (forEach_flat_mapM (compileRule u false None)
             (fun ur => map rp_permission (permissions (role ur)))).
  - fold (rolePermissions u). rewrite mapM_app.
    destruct (mapM _ (rolePermissions u)) as [rs1 | e |]; simpl; auto.
    unfold loadGrants.
    rewrite (forEach_mapM (fun dp => compileRule u false None (permission dp))).
    + fold (grants u). rewrite mapM_map.
      destruct (mapM _ (grants u)) as [rs2 | e |]; simpl; auto.
      unfold loadRevokes.
      rewrite (forEach_mapM (compileRevoke u)).
      * fold (revokes u).
        destruct (mapM _ (revokes u)) as [rs3 | e |]; simpl; auto.
      * intros b dp. apply revoke_step_compiles.
    + intros b dp. apply allow_step_compiles.
  - intros b ur. rewrite mapM_map.
    apply (forEach_mapM (fun rp => compileRule u false None (rp_permission rp))).
    intros b' rp. apply allow_step_compiles.
Qed.

End Compilation.

Lemma Action_eqb_refl (a : Action) : Action_eqb a a = true.
Proof. now destruct a. Qed.

Lemma getUserWithPermissions_id (nowRoles nowClaims : Timestamp)
    (table : list User) (userId : Z) (user : User) :
  getUserWithPermissions nowRoles nowClaims table userId = Some user ->
  id user = userId /\ isActive user = true /\ deletedAt user = None.
Proof.
  unfold getUserWithPermissions.
  destruct (find _ table) as [row |] eqn:F; [| discriminate].
  intro E. injection E as <-. simpl. apply find_some in F.
  destruct F as [_ F]. apply andb_true_iff in F. destruct F as [F Hdel].
  apply andb_true_iff in F. destruct F as [Hid Hact].
  apply Z.eqb_eq in Hid. destruct (deletedAt row); [discriminate |]. auto.
Qed.

(** The owner's condition, resolved by Mustache against a user. *)
Lemma ownResource_resolved (u : User) :
  (0 <= id u < 2 ^ 53)%Z ->
  @parseConditions Mustache_engine ownResource u
  = Returns (Some (JObj [("authorId", JNum (Int (id u)))])).
Proof.
  intro Hid. destruct (numeral_of_id _ Hid) as [numeral [Hn [Hd HN]]].
  unfold ownResource, parseConditions. simpl.
  unfold renderLeaf, render, Mustache_engine.
  rewrite render_id, Hn. simpl. rewrite append_empty, Hd, HN. reflexivity.
Qed.

Lemma mapM_Forall2 {A B : Type} (f : A -> Outcome B) (l : list A) (rs : list B) :
  mapM f l = Returns rs -> Forall2 (fun x r => f x = Returns r) l rs.
Proof.
  revert rs. induction l as [| x l IH]; simpl; intros rs E.
  - injection E as <-. constructor.
  - invert_bind E as y Ey E. invert_bind E as ys Eys E. injection E as <-.
    constructor; auto.
Qed.

Section Compiled.

Context {engine : TemplateEngine}.

(** Every rule of a compiled ability is the rule of a permission of the
    user: of a role or of a grant when it allows, of a revoke when it
    denies. *)
Lemma compiled_rule_origin (u : User) (ab : Ability) (r : RawRule) :
  createAbility (Some u) = Returns ab ->
  In r (rules ab) ->
  (exists p, In p (rolePermissions u ++ map permission (grants u))
             /\ compileRule u false None p = Returns r)
  \/ (exists dp, In dp (revokes u) /\ compileRevoke u dp = Returns r).
Proof.
  rewrite createAbility_compiles. intros E Hin.
  invert_bind E as allows Eallows E. invert_bind E as denies Edenies E.
  injection E as <-. simpl in Hin. apply in_app_or in Hin.
  apply mapM_Forall2 in Eallows, Edenies.
  destruct Hin as [Hin | Hin].
  - left. destruct (Forall2_In_r _ _ _ _ Eallows Hin) as [p [Hp Hr]]. eauto.
  - right. destruct (Forall2_In_r _ _ _ _ Edenies Hin) as [dp [Hp Hr]]. eauto.
Qed.

Lemma compileRule_fields (u : User) (inv : bool) (why : option string)
    (p : Permission) (r : RawRule) :
  compileRule u inv why p = Returns r ->
  parseConditions (conditions p) u = Returns (rule_conditions r)
  /\ rule_action r = action p /\ rule_subject r = subject p
  /\ rule_inverted r = inv /\ rule_reason r = why.
Proof.
  unfold compileRule. intro E. invert_bind E as c Ec E.
  destruct (String.eqb (subject p) ""); [discriminate |].
  destruct c as [[ | | | | | ] |]; try discriminate; injection E as <-; simpl; auto.
Qed.

Lemma compileRule_relevant (u : User) (inv : bool) (why : option string)
    (p : Permission) (r : RawRule) (a : Action) (t : string) :
  compileRule u inv why p = Returns r -> relevant r a t = speaksOf p a t.
Proof.
  intro E. apply compileRule_fields in E. destruct E as [_ [Ha [Hs _]]].
  unfold relevant, speaksOf. now rewrite Ha, Hs.
Qed.

End Compiled.

Lemma compiled_rule_of_permission {engine : TemplateEngine} (u : User)
    (ab : Ability) (p : Permission) :
  createAbility (Some u) = Returns ab ->
  In p (rolePermissions u ++ map permission (grants u)) ->
  exists r, In r (rules ab) /\ compileRule u false None p = Returns r.
Proof.
  rewrite createAbility_compiles. intros E Hin.
  invert_bind E as allows Eallows E. invert_bind E as denies Edenies E.
  injection E as <-. simpl. apply mapM_Forall2 in Eallows.
  destruct (Forall2_In_l _ _ _ _ Eallows Hin) as [r [Hr Hc]].
  exists r. split; [apply in_or_app; now left | assumption].
Qed.

(** Candidates that all allow and all match alike. *)
Lemma firstMatching_uniform {matcher : ConditionsMatcher}
    (candidates : list RawRule) (s : Subject) (m : bool) :
  Forall (fun r => matchesConditions r s = Returns m /\ rule_inverted r = false)
    candidates ->
  candidates <> [] ->
  exists found, firstMatching candidates s = Returns found /\ allowedBy found = m.
Proof.
  intros H Hne. destruct m.
  - destruct candidates as [| r rest]; [contradiction |].
    inversion H as [| ? ? [Hm Hinv] _]; subst. simpl. rewrite Hm. simpl.
    exists (Some r). simpl. now rewrite Hinv.
  - clear Hne. exists None. split; [| reflexivity].
    induction H as [| r rest [Hm _] _ IH]; simpl; [reflexivity |].
    now rewrite Hm.
Qed.

(** The owner's condition on a post. *)
Lemma owner_condition_on_post (owner : Z) (post : Post) :
  MongoQuery.matcher (JObj [("authorId", JNum (Int owner))]) (postProperties post)
  = Returns (authorId post =? owner)%Z.
Proof.
  unfold MongoQuery.matcher. simpl.
  destruct (authorId post =? owner)%Z; reflexivity.
Qed.

(** The candidates of a query on posts for a user whose permissions on
    it are all owner-conditioned grants: each carries the condition on
    the author, resolved, and allows. *)
Lemma owner_candidates (user : User) (ability : Ability) (a : Action) :
  (0 <= id user < 2 ^ 53)%Z ->
  createAbility (Some user) = Returns ability ->
  (forall p, In p (rolePermissions user) -> speaksOf p a "Post" = true ->
             conditions p = ownResource) ->
  (forall dp, In dp (directPermissions user) ->
              speaksOf (permission dp) a "Post" = true ->
              conditions (permission dp) = ownResource /\ inverted dp = false) ->
  (exists p, In p (rolePermissions user ++ map permission (grants user))
             /\ speaksOf p a "Post" = true) ->
  Forall (fun r => rule_conditions r
                   = Some (JObj [("authorId", JNum (Int (id user)))])
                   /\ rule_inverted r = false)
    (rulesFor ability a "Post")
  /\ rulesFor ability a "Post" <> [].
Proof.
  intros Hid Hab Hroles Hclaims [p0 [Hp0 Hs0]]. split.
  - apply Forall_forall. intros r Hr. unfold rulesFor in Hr.
    apply in_rev, filter_In in Hr. destruct Hr as [Hr Hrel].
    assert (Hown : forall inv why p,
               compileRule user inv why p = Returns r ->
               conditions p = ownResource ->
               rule_conditions r
               = Some (JObj [("authorId", JNum (Int (id user)))])).
    { intros inv why p Hc Hcond. apply compileRule_fields in Hc.
      destruct Hc as [Hparse _]. rewrite Hcond in Hparse.
      rewrite ownResource_resolved in Hparse by assumption.
      now injection Hparse as <-. }
    destruct (compiled_rule_origin _ _ _ Hab Hr) as [[p [Hp Hc]] | [dp [Hdp Hc]]].
    + rewrite (compileRule_relevant _ _ _ _ _ a "Post" Hc) in Hrel.
      split; [| now apply compileRule_fields in Hc].
      apply (Hown _ _ _ Hc). apply in_app_or in Hp. destruct Hp as [Hp | Hp].
      * now apply Hroles.
      * apply in_map_iff in Hp. destruct Hp as [dp [<- Hdp]].
        unfold grants in Hdp. apply filter_In in Hdp.
        now apply Hclaims.
    + unfold compileRevoke in Hc.
      rewrite (compileRule_relevant _ _ _ _ _ a "Post" Hc) in Hrel.
      unfold revokes in Hdp. apply filter_In in Hdp. destruct Hdp as [Hdp Hinv].
      destruct (Hclaims dp Hdp Hrel) as [_ Hno]. congruence.
  - destruct (compiled_rule_of_permission _ _ _ Hab Hp0) as [r0 [Hr0 Hc0]].
    intro Hempty.
    assert (Hin : In r0 (rulesFor ability a "Post")).
    { unfold rulesFor. apply -> in_rev. apply filter_In. split; [assumption |].
      now rewrite (compileRule_relevant _ _ _ _ _ a "Post" Hc0). }
    rewrite Hempty in Hin. destruct Hin.
Qed.

Lemma owner_can (user : User) (ability : Ability) (a : Action) (post : Post) :
  Forall (fun r => rule_conditions r
                   = Some (JObj [("authorId", JNum (Int (id user)))])
                   /\ rule_inverted r = false)
    (rulesFor ability a "Post") ->
  rulesFor ability a "Post" <> [] ->
  can ability a (newPost post) = Returns (authorId post =? id user)%Z.
Proof.
  intros Hall Hne. unfold can, relevantRuleFor. simpl.
  destruct (firstMatching_uniform (rulesFor ability a "Post") (newPost post)
              (authorId post =? id user)%Z) as [found [-> Hfound]];
    [| assumption | simpl; now rewrite <- Hfound].
  apply (Forall_impl _ (P := fun r => rule_conditions r
                 = Some (JObj [("authorId", JNum (Int (id user)))])
                 /\ rule_inverted r = false)); [| assumption].
  intros r [Hc Hinv]. split; [| assumption].
  unfold matchesConditions. rewrite Hc. apply owner_condition_on_post.
Qed.

Lemma owner_can_on_type (user : User) (ability : Ability) (a : Action) :
  Forall (fun r => rule_conditions r
                   = Some (JObj [("authorId", JNum (Int (id user)))])
                   /\ rule_inverted r = false)
    (rulesFor ability a "Post") ->
  rulesFor ability a "Post" <> [] ->
  can ability a (TypeOnly "Post") = Returns true.
Proof.
  intros Hall Hne. unfold can, relevantRuleFor. simpl.
  destruct (firstMatching_uniform (rulesFor ability a "Post") (TypeOnly "Post")
              true) as [found [-> Hfound]];
    [| assumption | simpl; now rewrite <- Hfound].
  apply (Forall_impl _ (P := fun r => rule_conditions r
                 = Some (JObj [("authorId", JNum (Int (id user)))])
                 /\ rule_inverted r = false)); [| assumption].
  intros r [Hc Hinv]. split; [| assumption].
  unfold matchesConditions. now rewrite Hc, Hinv.
Qed.

(** X7.  Ownership.  For a user with an id from 0 up to 2^53 whose
    permissions that speak of the action on posts are all grants with the
    condition [{ authorId: '{{id}}' }], at least one, rendered by Mustache
    and matched by the Mongo matcher: the ability allows the action on a
    post exactly when the author of the post is the user, and
    [verifyPostAccess] resolves or throws the [ForbiddenException]
    accordingly. *)
Theorem owner_condition_admits_exactly_the_author
    (now : Clock) (db : Database) (userId postId : Z) (a : Action)
    (post : Post) (user : User) (ability : Ability) :
  (0 <= userId < 2 ^ 53)%Z ->
  Prisma.findUnique (posts db) postId = Some post ->
  getUserWithPermissions (rolesNow now) (claimsNow now) (users db) userId
  = Some user ->
  createAbility (Some user) = Returns ability ->
  (forall p, In p (rolePermissions user) -> speaksOf p a "Post" = true ->
             conditions p = ownResource) ->
  (forall dp, In dp (directPermissions user) ->
              speaksOf (permission dp) a "Post" = true ->
              conditions (permission dp) = ownResource /\ inverted dp = false) ->
  (exists p, In p (rolePermissions user ++ map permission (grants user))
             /\ speaksOf p a "Post" = true) ->
  can ability a (newPost post) = Returns (authorId post =? userId)%Z
  /\ PermissionService.verifyPostAccess now db userId postId a
     = if (authorId post =? userId)%Z
       then Completes (PermissionService.granted a post user)
       else Raises (Nest.ForbiddenException
                      (Nest.Body (PermissionService.denied a post user))).
Proof.
  intros Hid Hpost Huser Hab Hroles Hclaims Hsome.
  destruct (getUserWithPermissions_id _ _ _ _ _ Huser) as [Hu _].
  rewrite <- Hu in Hid.
  destruct (owner_candidates user ability a Hid Hab Hroles Hclaims Hsome)
    as [Hall Hne].
  pose proof (owner_can user ability a post Hall Hne) as Hcan.
  rewrite Hu in Hcan. split; [exact Hcan |].
  unfold PermissionService.verifyPostAccess, PermissionService.getPostById.
  rewrite Hpost, Huser, Hab. simpl. rewrite Hcan. simpl.
  destruct (authorId post =? userId)%Z; reflexivity.
Qed.

Lemma owner_condition_admits_exactly_the_author_witness :
  PermissionService.verifyPostAccess Scenario.clock Scenario.database 2 3 update
  = Completes (PermissionService.granted update
                 (Scenario.postOf 3 "Borrador de Editor" "Aún no publicado" 2 false)
                 Sample.editor)
  /\ PermissionService.verifyPostAccess Scenario.clock Scenario.database 2 4 update
     = Raises (Nest.ForbiddenException
                 (Nest.Body (PermissionService.denied update
                               (Scenario.postOf 4 "Post de Sancionado"
                                  "Contenido del usuario sancionado" 9 true)
                               Sample.editor))).
Proof.
  assert (H : forall postId post,
             Prisma.findUnique (posts Scenario.database) postId = Some post ->
             PermissionService.verifyPostAccess Scenario.clock Scenario.database
               2 postId update
             = if (authorId post =? 2)%Z
               then Completes (PermissionService.granted update post Sample.editor)
               else Raises (Nest.ForbiddenException
                              (Nest.Body (PermissionService.denied update post
                                            Sample.editor)))).
  { intros postId post Hpost.
    refine (proj2 (owner_condition_admits_exactly_the_author
                     Scenario.clock Scenario.database 2 postId update post
                     Sample.editor Sample.editorAbility
                     (conj _ eq_refl) Hpost eq_refl eq_refl _ _ _)).
    - discriminate.
    - intros p [<- | [<- | []]]; [discriminate | reflexivity].
    - intros dp [].
    - exists (Sample.perm update "Post" Sample.ownPosts).
      split; [right; left |]; reflexivity. }
  split.
  - exact (H 3%Z _ eq_refl).
  - exact (H 4%Z _ eq_refl).
Defined.

(** ** One more direct permission *)

Lemma cloneDeepWith_ext (f g : Json -> Outcome (option Json)) :
  (forall v, f v = g v) -> forall v, cloneDeepWith f v = cloneDeepWith g v.
Proof.
  intros H v.
  induction v as [| b | n | t | items IH | props IH] using Json_nested_ind;
    try (simpl; rewrite <- H; reflexivity).
  - simpl; rewrite <- H.
    destruct (f (JArr items)) as [[r |] | e |]; try reflexivity.
    match goal with
    | |- bind ?l _ = bind ?r _ => assert (E : l = r)
    end.
    { induction IH as [| x l Hx _ IHl]; [reflexivity |].
      now rewrite Hx, IHl. }
    now rewrite E.
  - destruct (f (JObj props)) as [[r |] | e |] eqn:Ef;
      try (simpl; rewrite <- H, Ef; reflexivity).
    rewrite (cloneDeepWith_JObj f _ Ef), (cloneDeepWith_JObj g _)
      by (now rewrite <- H).
    assert (E : map (fun e => (fst e, cloneDeepWith f (snd e))) (Object_entries props)
                = map (fun e => (fst e, cloneDeepWith g (snd e)))
                    (Object_entries props)).
    { apply map_ext_in. intros e He. apply Object_entries_In in He. f_equal.
      exact (proj1 (Forall_forall _ _) IH e He). }
    now rewrite E.
Qed.

Lemma mapM_ext {A B : Type} (f g : A -> Outcome B) (l : list A) :
  (forall x, f x = g x) -> mapM f l = mapM g l.
Proof.
  intro H. induction l as [| x l IH]; simpl; [reflexivity |].
  now rewrite H, IH.
Qed.

Lemma mapM_insert {A B : Type} (f : A -> Outcome B) (l1 l2 : list A) (x : A)
    (rs : list B) :
  mapM f (l1 ++ x :: l2) = Returns rs ->
  exists r1 r r2,
    rs = r1 ++ r :: r2
    /\ mapM f l1 = Returns r1 /\ f x = Returns r /\ mapM f l2 = Returns r2.
Proof.
  rewrite mapM_app. simpl. intro E.
  invert_bind E as r1 E1 E. invert_bind E as tail Etail E. injection E as <-.
  invert_bind Etail as r Er Etail. invert_bind Etail as r2 E2 Etail.
  injection Etail as <-. exists r1, r, r2. auto.
Qed.

Section OneMoreClaim.

Context {engine : TemplateEngine}.

Variable u : User.
Variable claims : list UserPermission.

(** The template engine does not look at the direct permissions. *)
Hypothesis render_alike : forall t, render t (withClaims u claims) = render t u.

Lemma compileRule_alike (inv : bool) (why : option string) (p : Permission) :
  compileRule (withClaims u claims) inv why p = compileRule u inv why p.
Proof.
  unfold compileRule. f_equal. unfold parseConditions.
  assert (H : forall v, renderLeaf (withClaims u claims) v = renderLeaf u v).
  { intros [ | | | t | | ]; simpl; try reflexivity. now rewrite render_alike. }
  destruct (conditions p); try reflexivity;
    now rewrite (cloneDeepWith_ext _ _ H).
Qed.

Lemma createAbility_with_claims :
  createAbility (Some (withClaims u claims))
  = (allows <- mapM (compileRule u false None)
                 (rolePermissions u
                    ++ map permission (filter (fun dp => negb (inverted dp)) claims)) ;;
     denies <- mapM (compileRevoke u) (filter (fun dp => inverted dp) claims) ;;
     Returns {| rules := allows ++ denies |}).
Proof.
  rewrite createAbility_compiles. unfold grants, revokes, rolePermissions. simpl.
  rewrite (mapM_ext _ (compileRule u false None))
    by (intro p; apply compileRule_alike).
  rewrite (mapM_ext (compileRevoke (withClaims u claims)) (compileRevoke u))
    by (intro dp; apply compileRule_alike).
  reflexivity.
Qed.

End OneMoreClaim.

(** ** C9: the answers depend on the graph and on the context alone *)

(** Mustache reads the user through the own properties only. *)
Lemma Mustache_render_same_context (u v : User) :
  sameContext u v -> forall t, Mustache.render t u = Mustache.render t v.
Proof.
  intros H t. unfold Mustache.render.
  destruct (Mustache.parseTemplate t) as [tokens | e |]; simpl; auto.
  induction tokens as [| [c | name | name] tokens IH];
    cbn [Mustache.renderTokens]; [reflexivity | now rewrite IH | |];
    unfold Mustache.lookup; rewrite (H name), IH; reflexivity.
Qed.

Section SameRendering.

Context {engine : TemplateEngine}.

Variables u v : User.

Hypothesis same_rendering : forall t, render t u = render t v.

Lemma compileRule_same_rendering (inv : bool) (why : option string)
    (p : Permission) :
  compileRule u inv why p = compileRule v inv why p.
Proof.
  unfold compileRule. f_equal. unfold parseConditions.
  assert (H : forall x, renderLeaf u x = renderLeaf v x).
  { intros [ | | | t | | ]; simpl; try reflexivity. now rewrite same_rendering. }
  destruct (conditions p); try reflexivity;
    now rewrite (cloneDeepWith_ext _ _ H).
Qed.

(** Users with the same permissions, rendered alike, compile to the same
    ability. *)
Lemma createAbility_same_graph :
  graphOf u = graphOf v ->
  createAbility (Some u) = createAbility (Some v).
Proof.
  unfold graphOf. intro E. injection E as Eroles Egrants Erevokes.
  rewrite !createAbility_compiles, Eroles, Egrants.
  rewrite (mapM_ext _ (compileRule v false None))
    by (intro p; apply compileRule_same_rendering).
  assert (R : forall w, mapM (compileRevoke w) (revokes w)
                        = mapM (fun pr => compileRule w true
                                            (Some (reasonOrEmpty (snd pr))) (fst pr))
                            (map (fun dp => (permission dp, reason dp)) (revokes w)))
    by (intro w; now rewrite mapM_map).
  rewrite !R, Erevokes.
  rewrite (mapM_ext (fun pr => compileRule u true (Some (reasonOrEmpty (snd pr)))
                                 (fst pr))
             (fun pr => compileRule v true (Some (reasonOrEmpty (snd pr))) (fst pr)))
    by (intro pr; apply compileRule_same_rendering).
  reflexivity.
Qed.

End SameRendering.

(** C9.  The outcome of compiling and querying depends on the user only
    through the permission graph and the acting-user context.  Two users
    that are structurally equal have the same graph and are the same
    context.  Two users with the same graph (the permissions held through
    roles in order, the direct grants, the direct revokes with their
    reasons) that are the same context (the same own properties) compile
    to the same ability, failures included, and every query has the same
    outcome on both, whatever else differs in their rows: the names of
    the roles, how the permissions are spread over the roles, the expiry
    dates.  So it is for any template engine that renders every template
    alike for the two users.  And an ability has no identity beyond its
    rules: two abilities whose rules relevant to a query are the same
    answer the query alike. *)
Theorem equal_graphs_give_equal_answers
    {matcher : ConditionsMatcher} (u1 u2 : User) :
  (User_eqb u1 u2 = true -> graphOf u1 = graphOf u2 /\ sameContext u1 u2)
  /\ (graphOf u1 = graphOf u2 -> sameContext u1 u2 ->
      @createAbility Mustache_engine (Some u1)
      = @createAbility Mustache_engine (Some u2)
      /\ forall a s,
           (ab <- @createAbility Mustache_engine (Some u1) ;; can ab a s)
           = (ab <- @createAbility Mustache_engine (Some u2) ;; can ab a s))
  /\ (forall engine : TemplateEngine,
        graphOf u1 = graphOf u2 ->
        (forall t, render t u1 = render t u2) ->
        createAbility (Some u1) = createAbility (Some u2))
  /\ (forall ab1 ab2 a s,
        filter (fun r => relevant r a (detectSubjectType s)) (rules ab1)
        = filter (fun r => relevant r a (detectSubjectType s)) (rules ab2) ->
        can ab1 a s = can ab2 a s
        /\ cannot ab1 a s = cannot ab2 a s
        /\ Spec.reasonFor ab1 a s = Spec.reasonFor ab2 a s).
Proof.
  split; [| split; [| split]].
  - intro E. apply User_eqb_eq in E. subst u2. split; [reflexivity | now intro].
  - intros Hgraph Hcontext.
    assert (E : @createAbility Mustache_engine (Some u1)
                = @createAbility Mustache_engine (Some u2)).
    { apply (@createAbility_same_graph Mustache_engine); [| exact Hgraph].
      exact (Mustache_render_same_context u1 u2 Hcontext). }
    split; [exact E |]. intros a s. now rewrite E.
  - intros engine Hgraph Hrender.
    now apply (@createAbility_same_graph engine).
  - intros ab1 ab2 a s E.
    assert (F : relevantRuleFor ab1 a s = relevantRuleFor ab2 a s)
      by (unfold relevantRuleFor, rulesFor; now rewrite E).
    unfold cannot, can, Spec.reasonFor. now rewrite F.
Qed.

(** C9 at the editor and at a user who holds the editor's permissions
    through two roles of other names, one of them with an expiry date:
    the rows differ, the graph and the context are the same, and so are
    the ability and the answers. *)
Lemma equal_graphs_give_equal_answers_witness :
  User_eqb Sample.editor Sample.twoRoles = false
  /\ createAbility (Some Sample.twoRoles) = Returns Sample.editorAbility
  /\ (ab <- createAbility (Some Sample.editor) ;; can ab update (Sample.post 2 2))
     = (ab <- createAbility (Some Sample.twoRoles) ;; can ab update (Sample.post 2 2)).
Proof.
  assert (H : @createAbility Mustache_engine (Some Sample.editor)
              = @createAbility Mustache_engine (Some Sample.twoRoles)
              /\ forall a s,
                   (ab <- @createAbility Mustache_engine (Some Sample.editor) ;;
                    can ab a s)
                   = (ab <- @createAbility Mustache_engine (Some Sample.twoRoles) ;;
                      can ab a s)).
  { apply (proj1 (proj2 (equal_graphs_give_equal_answers
                           Sample.editor Sample.twoRoles))).
    - reflexivity.
    - intro name. reflexivity. }
  destruct H as [Hab Hcan].
  split; [reflexivity |]. split.
  - rewrite <- Hab. reflexivity.
  - apply Hcan.
Defined.


Lemma insert_split {A : Type} (pre post p1 p2 : list A) (g r : A) :
  pre ++ g :: post = p1 ++ r :: p2 ->
  (exists m, pre = p1 ++ r :: m /\ p2 = m ++ g :: post)
  \/ (p1 = pre /\ r = g /\ p2 = post)
  \/ (exists m, p1 = pre ++ g :: m /\ post = m ++ r :: p2).
Proof.
  revert p1. induction pre as [| x pre IH]; intros p1 E.
  - destruct p1 as [| y p1]; simpl in E.
    + injection E as -> ->. right. left. auto.
    + injection E as -> ->. right. right. exists p1. auto.
  - destruct p1 as [| y p1]; simpl in E.
    + injection E as -> <-. left. exists pre. auto.
    + injection E as -> E. apply IH in E.
      destruct E as [[m [-> ->]] | [[-> [-> ->]] | [m [-> ->]]]].
      * left. exists m. auto.
      * right. left. auto.
      * right. right. exists m. auto.
Qed.

Section Insertion.

Context {matcher : ConditionsMatcher}.

(** A rule put into a rule list decides a query itself, or leaves the
    decision as it was. *)
Lemma firstMatching_insert (pre post : list RawRule) (g : RawRule)
    (a : Action) (s : Subject) (found : option RawRule) :
  firstMatching
    (rev (filter (fun r => relevant r a (detectSubjectType s)) (pre ++ g :: post))) s
  = Returns found ->
  found = Some g
  \/ firstMatching
       (rev (filter (fun r => relevant r a (detectSubjectType s)) (pre ++ post))) s
     = Returns found.
Proof.
  intro E. apply firstMatching_sound in E. destruct found as [r |].
  - destruct E as [p1 [p2 [Hsplit [Hr Hp2]]]].
    apply insert_split in Hsplit.
    destruct Hsplit as [[m [-> ->]] | [[-> [-> ->]] | [m [-> ->]]]].
    + right. rewrite <- app_assoc. simpl.
      apply firstMatching_complete; [assumption |].
      apply Forall_app in Hp2. destruct Hp2 as [Hm Hpost].
      inversion Hpost; subst. apply Forall_app. auto.
    + now left.
    + right. rewrite app_assoc. now apply firstMatching_complete.
  - right. apply firstMatching_none.
    apply Forall_app in E. destruct E as [Hpre Hpost].
    inversion Hpost; subst. apply Forall_app. auto.
Qed.

Lemma can_insert (pre post : list RawRule) (g : RawRule) (a : Action)
    (s : Subject) (b : bool) :
  can {| rules := pre ++ g :: post |} a s = Returns b ->
  b = negb (rule_inverted g)
  \/ can {| rules := pre ++ post |} a s = Returns b.
Proof.
  unfold can, relevantRuleFor, rulesFor. simpl. intro E.
  invert_bind E as found Efound E. injection E as <-.
  apply firstMatching_insert in Efound. destruct Efound as [-> | ->].
  - now left.
  - now right.
Qed.

End Insertion.

(** X8.  One more revoke only restricts.  For a template engine that
    does not read the direct permissions: a query allowed to the user
    with one more inverted direct permission, wherever in the list, is
    allowed to the user without it. *)
Theorem revoke_only_restricts
    {engine : TemplateEngine} {matcher : ConditionsMatcher}
    (u : User) (before after : list UserPermission) (dp : UserPermission)
    (ability : Ability) (a : Action) (s : Subject) :
  directPermissions u = before ++ after ->
  inverted dp = true ->
  (forall t, render t (withClaims u (before ++ dp :: after)) = render t u) ->
  createAbility (Some (withClaims u (before ++ dp :: after))) = Returns ability ->
  can ability a s = Returns true ->
  exists ability0,
    createAbility (Some u) = Returns ability0
    /\ can ability0 a s = Returns true.
Proof.
  intros Hclaims Hinv Hrender.
  rewrite (createAbility_with_claims _ _ Hrender), createAbility_compiles.
  unfold grants, revokes. rewrite Hclaims, !filter_app. simpl. rewrite Hinv. simpl.
  intro E. invert_bind E as allows Eallows E. rewrite Eallows. simpl.
  invert_bind E as denies Edenies E. injection E as <-.
  apply mapM_insert in Edenies.
  destruct Edenies as [d1 [d [d2 [-> [E1 [Ed E2]]]]]].
  rewrite mapM_app, E1, E2. simpl. intro Hcan.
  eexists. split; [reflexivity |].
  rewrite app_assoc in Hcan. apply can_insert in Hcan.
  destruct Hcan as [Hd | Hcan].
  - apply compileRule_fields in Ed. destruct Ed as [_ [_ [_ [Hdinv _]]]].
    rewrite Hdinv in Hd. discriminate.
  - now rewrite <- app_assoc in Hcan.
Qed.

(** X9.  One more grant only extends.  For a template engine that does
    not read the direct permissions: a query allowed to the user is not
    refused to the user with one more direct permission that is not
    inverted, wherever in the list. *)
Theorem grant_only_extends
    {engine : TemplateEngine} {matcher : ConditionsMatcher}
    (u : User) (before after : list UserPermission) (dp : UserPermission)
    (ability0 ability : Ability) (a : Action) (s : Subject) :
  directPermissions u = before ++ after ->
  inverted dp = false ->
  (forall t, render t (withClaims u (before ++ dp :: after)) = render t u) ->
  createAbility (Some u) = Returns ability0 ->
  can ability0 a s = Returns true ->
  createAbility (Some (withClaims u (before ++ dp :: after))) = Returns ability ->
  can ability a s <> Returns false.
Proof.
  intros Hclaims Hinv Hrender.
  rewrite (createAbility_with_claims _ _ Hrender), createAbility_compiles.
  unfold grants, revokes. rewrite Hclaims, !filter_app. simpl. rewrite Hinv. simpl.
  rewrite !map_app. simpl. rewrite !app_assoc.
  intros E0 Hcan0 E Hcan.
  invert_bind E as allows Eallows E. invert_bind E as denies Edenies E.
  injection E as <-.
  apply mapM_insert in Eallows.
  destruct Eallows as [a1 [g [a2 [-> [E1 [Eg E2]]]]]].
  rewrite mapM_app, E1, E2, Edenies in E0. simpl in E0. injection E0 as <-.
  rewrite <- app_assoc in Hcan. simpl in Hcan. apply can_insert in Hcan.
  destruct Hcan as [Hg | Hcan].
  - apply compileRule_fields in Eg. destruct Eg as [_ [_ [_ [Hginv _]]]].
    rewrite Hginv in Hg. discriminate.
  - rewrite <- app_assoc in Hcan0. congruence.
Qed.

(** Mustache looks names up among the scalar columns of the user. *)
Lemma Mustache_reads_no_claims (u : User) (claims : list UserPermission)
    (t : string) :
  @render Mustache_engine t (withClaims u claims) = @render Mustache_engine t u.
Proof.
  unfold render, Mustache_engine, Mustache.render.
  destruct (Mustache.parseTemplate t) as [tokens | e |]; simpl; auto.
  induction tokens as [| [c | name | name] tokens IH]; simpl.
  - reflexivity.
  - now rewrite IH.
  - change (Mustache.lookup name (withClaims u claims))
      with (Mustache.lookup name u).
    destruct (Mustache.lookup name u) as [v | e |]; simpl; auto.
    destruct (Mustache.renderValue true v); simpl; auto. now rewrite IH.
  - change (Mustache.lookup name (withClaims u claims))
      with (Mustache.lookup name u).
    destruct (Mustache.lookup name u) as [v | e |]; simpl; auto.
    destruct (Mustache.renderValue false v); simpl; auto. now rewrite IH.
Qed.

Lemma revoke_only_restricts_witness :
  exists ability0,
    createAbility (Some Sample.editor) = Returns ability0
    /\ can ability0 create (TypeOnly "Post") = Returns true.
Proof.
  eapply (revoke_only_restricts Sample.editor [] []
            (Sample.claim (Sample.perm delete "Post" JNull) true (Some "sanctioned"))
            _ create (TypeOnly "Post")).
  - reflexivity.
  - reflexivity.
  - intro t. apply Mustache_reads_no_claims.
  - reflexivity.
  - reflexivity.
Defined.

Lemma grant_only_extends_witness :
  createAbility
    (Some (withClaims Sample.editor
             [Sample.claim (Sample.perm read "Post" JNull) false None]))
  = Returns {| rules := rules Sample.editorAbility
                        ++ [ {| rule_action := read; rule_subject := "Post";
                                rule_conditions := None; rule_inverted := false;
                                rule_reason := None |} ] |}
  /\ can {| rules := rules Sample.editorAbility
                     ++ [ {| rule_action := read; rule_subject := "Post";
                             rule_conditions := None; rule_inverted := false;
                             rule_reason := None |} ] |}
       update (Sample.post 100 2)
     <> Returns false.
Proof.
  split; [reflexivity |].
  eapply (grant_only_extends Sample.editor [] []
            (Sample.claim (Sample.perm read "Post" JNull) false None)
            Sample.editorAbility _ update (Sample.post 100 2)).
  - reflexivity.
  - reflexivity.
  - intro t. apply Mustache_reads_no_claims.
  - reflexivity.
  - reflexivity.
  - reflexivity.
Defined.

(** X10.  An allowed query is backed by a permission: when the compiled
    ability allows [(a, s)], some permission of a role or of a grant of
    the user has the action [a] or [manage] and the subject type of [s]
    or [all]. *)
Theorem allowed_query_is_backed_by_a_permission
    {engine : TemplateEngine} {matcher : ConditionsMatcher}
    (u : User) (ability : Ability) (a : Action) (s : Subject) :
  createAbility (Some u) = Returns ability ->
  can ability a s = Returns true ->
  exists p,
    In p (rolePermissions u ++ map permission (grants u))
    /\ speaksOf p a (detectSubjectType s) = true.
Proof.
  intros Hab Hcan. unfold can, relevantRuleFor, rulesFor in Hcan.
  invert_bind Hcan as found Efound Hcan. injection Hcan as Hcan.
  apply firstMatching_sound in Efound.
  destruct found as [r |]; [| discriminate].
  destruct Efound as [pre [post [Hrules [Hr _]]]].
  apply ruleMatches_true in Hr. destruct Hr as [Hrel _].
  assert (Hin : In r (rules ability))
    by (rewrite Hrules; apply in_or_app; right; now left).
  destruct (compiled_rule_origin _ _ _ Hab Hin) as [[p [Hp Hc]] | [dp [_ Hc]]].
  - exists p. split; [assumption |].
    now rewrite <- (compileRule_relevant _ _ _ _ _ a (detectSubjectType s) Hc).
  - apply compileRule_fields in Hc. destruct Hc as [_ [_ [_ [Hinv _]]]].
    rewrite Hinv in Hcan. discriminate.
Qed.

Lemma allowed_query_is_backed_by_a_permission_witness :
  exists p,
    In p (rolePermissions Sample.editor ++ map permission (grants Sample.editor))
    /\ speaksOf p update "Post" = true.
Proof.
  exact (allowed_query_is_backed_by_a_permission
           Sample.editor Sample.editorAbility update (Sample.post 100 2)
           eq_refl eq_refl).
Defined.

(** X11.  A user who holds [manage] on [all] without condition, through
    a role or a grant, and has no revoke, is allowed every action on every
    subject on which the conditions of the rules evaluate. *)
Theorem manage_all_without_revokes_allows_everything
    {engine : TemplateEngine} {matcher : ConditionsMatcher}
    (u : User) (ability : Ability) (a : Action) (s : Subject) :
  createAbility (Some u) = Returns ability ->
  In {| action := manage; subject := "all"; conditions := JNull |}
     (rolePermissions u ++ map permission (grants u)) ->
  revokes u = [] ->
  EvaluatesOn ability s ->
  can ability a s = Returns true.
Proof.
  intros Hab Hin Hrevokes Hev.
  destruct (compiled_rule_of_permission _ _ _ Hab Hin) as [r0 [Hr0 Hc0]].
  assert (Hmatch : ruleMatches r0 a s = Returns true).
  { pose proof (compileRule_relevant _ _ _ _ _ a (detectSubjectType s) Hc0) as Hrel.
    apply compileRule_fields in Hc0. destruct Hc0 as [Hparse _].
    simpl in Hparse. injection Hparse as Hnone.
    unfold ruleMatches, matchesConditions. rewrite Hrel, <- Hnone.
    unfold speaksOf. cbn [action subject Action_eqb].
    now rewrite String.eqb_refl, !orb_true_r. }
  destruct (relevantRuleFor_total ability a s Hev) as [found Hfound].
  rewrite (can_of_found _ _ _ _ Hfound). f_equal.
  unfold relevantRuleFor, rulesFor in Hfound.
  apply firstMatching_sound in Hfound. destruct found as [r |].
  - destruct Hfound as [pre [post [Hrules _]]].
    assert (Hr : In r (rules ability))
      by (rewrite Hrules; apply in_or_app; right; now left).
    destruct (compiled_rule_origin _ _ _ Hab Hr) as [[p [_ Hc]] | [dp [Hdp _]]].
    + apply compileRule_fields in Hc. destruct Hc as [_ [_ [_ [-> _]]]].
      reflexivity.
    + rewrite Hrevokes in Hdp. destruct Hdp.
  - apply (proj1 (Forall_forall _ _) Hfound) in Hr0. congruence.
Qed.

Lemma manage_all_without_revokes_allows_everything_witness :
  can {| rules := [ {| rule_action := manage; rule_subject := "all";
                       rule_conditions := None; rule_inverted := false;
                       rule_reason := None |} ] |}
    delete (newPost (Scenario.postOf 4 "Post de Sancionado"
                       "Contenido del usuario sancionado" 9 true))
  = Returns true.
Proof.
  apply (manage_all_without_revokes_allows_everything Scenario.admin).
  - reflexivity.
  - left. reflexivity.
  - reflexivity.
  - repeat constructor. eexists. reflexivity.
Defined.

(** ** Who is loaded *)

Lemma getUserWithPermissions_none (nowRoles nowClaims : Timestamp)
    (table : list User) (userId : Z) :
  (forall row, In row table -> id row = userId ->
               isActive row = false \/ deletedAt row <> None) ->
  getUserWithPermissions nowRoles nowClaims table userId = None.
Proof.
  intro H. unfold getUserWithPermissions.
  destruct (find _ table) as [row |] eqn:F; [| reflexivity].
  apply find_some in F. destruct F as [Hin F].
  apply andb_true_iff in F. destruct F as [F Hdel].
  apply andb_true_iff in F. destruct F as [Hid Hact].
  apply Z.eqb_eq in Hid. destruct (H row Hin Hid) as [Hno | Hno].
  - congruence.
  - destruct (deletedAt row); [discriminate | contradiction].
Qed.

(** X12.  A user whose rows are all inactive or softly deleted, or who
    has no row, passes no guard ([canActivate] answers false whatever the
    policies) and no access check: on a post that exists
    [verifyPostAccess] throws the [ForbiddenException] for a user not
    found, and it never resolves. *)
Theorem inactive_or_deleted_user_is_locked_out
    {engine : TemplateEngine} {matcher : ConditionsMatcher}
    (now : Clock) (db : Database) (userId : Z) (mail : string) :
  (forall row, In row (users db) -> id row = userId ->
               isActive row = false \/ deletedAt row <> None) ->
  (forall metadata,
     PoliciesGuard.canActivate now db metadata
       (Some {| payload_id := userId; payload_email := mail |})
     = Completes false)
  /\ (forall postId post action,
        Prisma.findUnique (posts db) postId = Some post ->
        PermissionService.verifyPostAccess now db userId postId action
        = Raises (Nest.ForbiddenException
                    (Nest.Message "Usuario no encontrado o inactivo")))
  /\ (forall postId action verification,
        PermissionService.verifyPostAccess now db userId postId action
        <> Completes verification).
Proof.
  intro H.
  pose proof (getUserWithPermissions_none (rolesNow now) (claimsNow now) _ _ H)
    as Hnone.
  split; [| split].
  - intro metadata. unfold PoliciesGuard.canActivate. simpl. now rewrite Hnone.
  - intros postId post action Hpost.
    unfold PermissionService.verifyPostAccess, PermissionService.getPostById.
    now rewrite Hpost, Hnone.
  - intros postId action verification E.
    apply verifyPostAccess_Completes in E.
    destruct E as [post [user [ability [_ [Huser _]]]]]. congruence.
Qed.

Lemma inactive_or_deleted_user_is_locked_out_witness :
  PoliciesGuard.canActivate Scenario.clock Scenario.database None
    (Scenario.signedIn Scenario.gone)
  = Completes false
  /\ PermissionService.verifyPostAccess Scenario.clock Scenario.database 8 1 read
     = Raises (Nest.ForbiddenException
                 (Nest.Message "Usuario no encontrado o inactivo")).
Proof.
  assert (H : forall row, In row (users Scenario.database) -> id row = 8%Z ->
                          isActive row = false \/ deletedAt row <> None).
  { intros row Hin Hid. simpl in Hin.
    repeat (destruct Hin as [<- | Hin]; [try discriminate Hid |]);
      [right; discriminate | destruct Hin]. }
  pose proof (inactive_or_deleted_user_is_locked_out
                Scenario.clock Scenario.database 8 "deleted@test.com" H) as L.
  split.
  - exact (proj1 L None).
  - exact (proj1 (proj2 L) 1%Z _ read eq_refl).
Defined.

(** X13.  Every rule of the ability compiled for a loaded user has a
    current source in the user's row: a permission of a role that is
    active and whose assignment has not expired, or a direct permission
    that has not expired, a Deny rule with its reason for an inverted
    one and an Allow rule otherwise. *)
Theorem every_rule_has_a_current_source
    {engine : TemplateEngine}
    (nowRoles nowClaims : Timestamp) (table : list User) (userId : Z)
    (user : User) (ability : Ability) (r : RawRule) :
  getUserWithPermissions nowRoles nowClaims table userId = Some user ->
  createAbility (Some user) = Returns ability ->
  In r (rules ability) ->
  exists row,
    In row table /\ id row = userId
    /\ ((exists ur rp,
           In ur (roles row) /\ role_isActive (role ur) = true
           /\ notExpired nowRoles (ur_expiresAt ur) = true
           /\ In rp (permissions (role ur))
           /\ AllowRuleFor user (rp_permission rp) r)
        \/ (exists dp,
              In dp (directPermissions row)
              /\ notExpired nowClaims (up_expiresAt dp) = true
              /\ if inverted dp then DenyRuleFor user dp r
                 else AllowRuleFor user (permission dp) r)).
Proof.
  intros Huser Hab Hr.
  destruct (getUserWithPermissions_row _ _ _ _ _ Huser)
    as [row [Hrow [Hid [Hroles Hclaims]]]].
  exists row. split; [assumption |]. split; [assumption |].
  destruct (compiled_rule_origin _ _ _ Hab Hr) as [[p [Hp Hc]] | [dp [Hdp Hc]]].
  - apply compileRule_fields in Hc. apply in_app_or in Hp.
    destruct Hp as [Hp | Hp].
    + left. unfold rolePermissions in Hp. apply in_flat_map in Hp.
      destruct Hp as [ur [Hur Hp]]. apply in_map_iff in Hp.
      destruct Hp as [rp [<- Hrp]].
      rewrite Hroles in Hur. apply filter_In in Hur. destruct Hur as [Hur Hinc].
      unfold roleIncluded in Hinc. apply andb_true_iff in Hinc.
      exists ur, rp. unfold AllowRuleFor. tauto.
    + right. apply in_map_iff in Hp. destruct Hp as [dp [<- Hdp]].
      unfold grants in Hdp. apply filter_In in Hdp. destruct Hdp as [Hdp Hinv].
      rewrite Hclaims in Hdp. apply filter_In in Hdp. destruct Hdp as [Hdp Hinc].
      exists dp. apply negb_true_iff in Hinv. rewrite Hinv.
      unfold AllowRuleFor. tauto.
  - right. unfold compileRevoke in Hc. apply compileRule_fields in Hc.
    unfold revokes in Hdp. apply filter_In in Hdp. destruct Hdp as [Hdp Hinv].
    rewrite Hclaims in Hdp. apply filter_In in Hdp. destruct Hdp as [Hdp Hinc].
    exists dp. rewrite Hinv. unfold DenyRuleFor. tauto.
Qed.

Lemma every_rule_has_a_current_source_witness :
  exists row,
    In row (users Scenario.database) /\ id row = 9%Z
    /\ ((exists ur rp,
           In ur (roles row) /\ role_isActive (role ur) = true
           /\ notExpired Sample.today (ur_expiresAt ur) = true
           /\ In rp (permissions (role ur))
           /\ AllowRuleFor Sample.sanctioned (rp_permission rp)
                {| rule_action := delete; rule_subject := "Post";
                   rule_conditions := None; rule_inverted := true;
                   rule_reason := Some "sanctioned" |})
        \/ (exists dp,
              In dp (directPermissions row)
              /\ notExpired Sample.today (up_expiresAt dp) = true
              /\ if inverted dp
                 then DenyRuleFor Sample.sanctioned dp
                        {| rule_action := delete; rule_subject := "Post";
                           rule_conditions := None; rule_inverted := true;
                           rule_reason := Some "sanctioned" |}
                 else AllowRuleFor Sample.sanctioned (permission dp)
                        {| rule_action := delete; rule_subject := "Post";
                           rule_conditions := None; rule_inverted := true;
                           rule_reason := Some "sanctioned" |})).
Proof.
  apply (every_rule_has_a_current_source Sample.today Sample.today
           (users Scenario.database) 9 Sample.sanctioned Sample.sanctionedAbility).
  - reflexivity.
  - reflexivity.
  - right. left. reflexivity.
Defined.

(** ** The exception filter *)

(** X14.  The filter answers a known request error of Prisma as a client
    error, and the code alone decides the status: 409 exactly for code
    P2002, 404 exactly for P2025 and 400 exactly for every other code; the
    body says [success: false], repeats the status and carries the message
    of [handlePrismaError]; for a code that is not one of P2002, P2003,
    P2005, P2006 and P2025 the message names the code and nothing of the
    error's [meta]. *)
Theorem known_request_errors_are_answered_as_client_errors
    (code : string) (meta : option PrismaErrorMeta)
    (instant : Timestamp) (url : string) :
  exists reply,
    AllExceptionsFilter.catch instant url (PrismaClientKnownRequestError code meta)
    = Returns reply
    /\ (AllExceptionsFilter.status reply = 409%Z <-> code = "P2002")
    /\ (AllExceptionsFilter.status reply = 404%Z <-> code = "P2025")
    /\ (AllExceptionsFilter.status reply = 400%Z
        <-> code <> "P2002" /\ code <> "P2025")
    /\ AllExceptionsFilter.status reply
       = (if String.eqb code "P2002" then 409
          else if String.eqb code "P2025" then 404 else 400)%Z
    /\ (400 <= AllExceptionsFilter.status reply < 500)%Z
    /\ AllExceptionsFilter.statusCode (AllExceptionsFilter.json reply)
       = AllExceptionsFilter.status reply
    /\ AllExceptionsFilter.success (AllExceptionsFilter.json reply) = false
    /\ AllExceptionsFilter.message (AllExceptionsFilter.json reply)
       = Some (JStr (snd (AllExceptionsFilter.handlePrismaError code meta)))
    /\ (code <> "P2002" -> code <> "P2003" -> code <> "P2005" ->
        code <> "P2006" -> code <> "P2025" ->
        AllExceptionsFilter.message (AllExceptionsFilter.json reply)
        = Some (JStr ("Error de base de datos (Prisma Code: " ++ code ++ ")")%string)).
Proof.
  eexists. split; [reflexivity |]. simpl.
  unfold AllExceptionsFilter.handlePrismaError.
  destruct (String.eqb_spec code "P2002") as [-> | H2];
    [repeat split; try (lia || discriminate || tauto || congruence) |].
  destruct (String.eqb_spec code "P2003") as [-> | H3];
    [simpl; repeat split; try (lia || discriminate || tauto || congruence) |].
  destruct (String.eqb_spec code "P2005") as [-> | H5];
    [simpl; repeat split; try (lia || discriminate || tauto || congruence) |].
  destruct (String.eqb_spec code "P2006") as [-> | H6];
    [simpl; repeat split; try (lia || discriminate || tauto || congruence) |].
  destruct (String.eqb_spec code "P2025") as [-> | H25];
    simpl; repeat split; try (lia || discriminate || tauto || congruence).
Qed.

(** ** The routes of the posts *)


Lemma find_filter {A : Type} (f g : A -> bool) (l : list A) :
  (forall x, f x = true -> g x = true) -> find f (filter g l) = find f l.
Proof.
  intro H. induction l as [| x l IH]; simpl; [reflexivity |].
  destruct (g x) eqn:Gx; simpl.
  - now rewrite IH.
  - destruct (f x) eqn:Fx; [| assumption].
    apply H in Fx. congruence.
Qed.

Lemma find_filter_none {A : Type} (f g : A -> bool) (l : list A) :
  (forall x, f x = true -> g x = false) -> find f (filter g l) = None.
Proof.
  intro H. induction l as [| x l IH]; simpl; [reflexivity |].
  destruct (g x) eqn:Gx; simpl; [| assumption].
  destruct (f x) eqn:Fx; [| assumption].
  apply H in Fx. congruence.
Qed.

Lemma findUnique_id (table : list Post) (n : Z) (post : Post) :
  Prisma.findUnique table n = Some post -> In post table /\ post_id post = n.
Proof.
  unfold Prisma.findUnique. intro F. apply find_some in F.
  destruct F as [Hin Hid]. apply Z.eqb_eq in Hid. auto.
Qed.

Section Routes.

Context {engine : TemplateEngine} {matcher : ConditionsMatcher}.

(** A handler behind the guard and the access check ran for a signed-in
    user who may do the action on the post. *)
Lemma guarded_and_verified {A : Type} (guardNow serviceNow : Clock)
    (db : Database) (action : Action) (n : Z)
    (requestUser : option UserPayload) (rest : Completion A) (result : A) :
  Nest.UseGuards
    (PoliciesGuard.canActivate guardNow db (CheckPolicies action "Post") requestUser)
    (PostsController.withCurrentUser requestUser (fun user =>
       _ <-- AuthorizationService.verifyPostAccess serviceNow db
               (payload_id user) n action ;;
       rest))
  = Completes result ->
  rest = Completes result
  /\ exists payload post user ability,
       requestUser = Some payload
       /\ Prisma.findUnique (posts db) n = Some post
       /\ getUserWithPermissions (rolesNow serviceNow) (claimsNow serviceNow)
            (users db) (payload_id payload) = Some user
       /\ createAbility (Some user) = Returns ability
       /\ can ability action (newPost post) = Returns true.
Proof.
  unfold Nest.UseGuards. intro E. invert_andThen E as activated Eguard E.
  destruct activated; [| discriminate].
  destruct requestUser as [payload |]; simpl in E; [| discriminate].
  invert_andThen E as verification Everified E.
  apply authorization_verifyPostAccess_Completes in Everified.
  destruct Everified as [post [user [ability H]]].
  split; [assumption |]. exists payload, post, user, ability. tauto.
Qed.

End Routes.

(** X15.  [DELETE posts/:id] completes only for a signed-in user who is
    loaded and whose ability allows [delete] on that very post; the post
    returned is the row with that id, the table afterwards is the table
    without it, and the users are as before. *)
Theorem post_is_deleted_only_by_who_may_delete_it
    {engine : TemplateEngine} {matcher : ConditionsMatcher}
    (guardNow serviceNow : Clock) (db db' : Database) (n : Z)
    (requestUser : option UserPayload) (deleted : Post) :
  PostsController.remove guardNow serviceNow db n requestUser
  = Completes (deleted, db') ->
  (exists payload user ability,
     requestUser = Some payload
     /\ getUserWithPermissions (rolesNow serviceNow) (claimsNow serviceNow)
          (users db) (payload_id payload) = Some user
     /\ createAbility (Some user) = Returns ability
     /\ can ability delete (newPost deleted) = Returns true)
  /\ Prisma.findUnique (posts db) n = Some deleted
  /\ posts db' = filter (fun p => negb (post_id p =? n)%Z) (posts db)
  /\ users db' = users db.
Proof.
  unfold PostsController.remove. intro E.
  apply guarded_and_verified in E.
  destruct E as [E [payload [post [user [ability [-> [Hpost [Huser [Hab Hcan]]]]]]]]].
  unfold PostsService.remove, PostsService.findOne, Prisma.delete in E.
  rewrite Hpost in E. simpl in E. injection E as <- <-. simpl.
  split; [| auto]. exists payload, user, ability. auto.
Qed.

Lemma post_is_deleted_only_by_who_may_delete_it_witness :
  PostsController.remove Scenario.clock Scenario.clock Scenario.database 2
    (Scenario.signedIn Scenario.admin)
  = Completes
      (Scenario.postOf 2 "Post de Editor" "Contenido del editor" 2 true,
       {| users := users Scenario.database;
          posts := [ Scenario.postOf 1 "Post de Admin" "Contenido del admin" 1 true;
                     Scenario.postOf 3 "Borrador de Editor" "Aún no publicado" 2 false;
                     Scenario.postOf 4 "Post de Sancionado"
                       "Contenido del usuario sancionado" 9 true ] |})
  /\ Prisma.findUnique (posts Scenario.database) 2
     = Some (Scenario.postOf 2 "Post de Editor" "Contenido del editor" 2 true).
Proof.
  assert (H : PostsController.remove Scenario.clock Scenario.clock
                Scenario.database 2 (Scenario.signedIn Scenario.admin)
              = Completes
                  (Scenario.postOf 2 "Post de Editor" "Contenido del editor" 2 true,
                   {| users := users Scenario.database;
                      posts := [ Scenario.postOf 1 "Post de Admin"
                                   "Contenido del admin" 1 true;
                                 Scenario.postOf 3 "Borrador de Editor"
                                   "Aún no publicado" 2 false;
                                 Scenario.postOf 4 "Post de Sancionado"
                                   "Contenido del usuario sancionado" 9 true ] |}))
    by reflexivity.
  split; [exact H |].
  exact (proj1 (proj2 (post_is_deleted_only_by_who_may_delete_it _ _ _ _ _ _ _ H))).
Defined.

(** X16.  After [remove(id)] the post is not found again: [findOne(id)]
    throws with status 404, every other id is found as before, and the
    table holds exactly the other posts. *)
Theorem removed_post_is_not_found_again
    (db db' : Database) (n : Z) (deleted : Post) :
  (- 10 ^ 21 < n < 10 ^ 21)%Z ->
  PostsService.remove db n = Completes (deleted, db') ->
  In deleted (posts db) /\ post_id deleted = n
  /\ (exists response,
        PostsService.findOne db' n = Raises (HttpException 404 response))
  /\ (forall other, other <> n ->
        PostsService.findOne db' other = PostsService.findOne db other)
  /\ (forall post, In post (posts db') <-> In post (posts db) /\ post_id post <> n).
Proof.
  intros Hn E. unfold PostsService.remove, PostsService.findOne, Prisma.delete in E.
  destruct (Prisma.findUnique (posts db) n) as [post |] eqn:Hpost.
  - simpl in E. injection E as <- <-. simpl.
    destruct (findUnique_id _ _ _ Hpost) as [Hin Hid].
    split; [assumption |]. split; [assumption |]. split; [| split].
    + destruct (numberToString_small n Hn) as [numeral Hnum].
      unfold PostsService.findOne, Prisma.findUnique. cbn [posts].
      rewrite find_filter_none, Hnum.
      * eexists. reflexivity.
      * intros x Hx. now rewrite Hx.
    + intros other Hother. unfold PostsService.findOne, Prisma.findUnique. simpl.
      rewrite find_filter; [reflexivity |].
      intros x Hx. apply Z.eqb_eq in Hx. apply negb_true_iff, Z.eqb_neq. lia.
    + intro x. rewrite filter_In, negb_true_iff, Z.eqb_neq. tauto.
  - invert_andThen E as found Efound E.
    invert_andThen Efound as numeral Enum Efound. discriminate.
Qed.

Lemma removed_post_is_not_found_again_witness :
  exists response,
    PostsService.findOne
      {| users := users Scenario.database;
         posts := filter (fun p => negb (post_id p =? 2)%Z) (posts Scenario.database) |}
      2
    = Raises (HttpException 404 response).
Proof.
  exact (proj1 (proj2 (proj2 (removed_post_is_not_found_again
                                Scenario.database _ 2 _ (conj eq_refl eq_refl)
                                eq_refl)))).
Defined.

(** X17.  [GET posts/:id] returns a post only to a signed-in user who
    is loaded and whose ability allows [read] on that post, and the post
    returned is the row with that id.  [PATCH posts/:id] reaches
    [prisma.post.update] only for a signed-in user who is loaded and whose
    ability allows [update] on the post with that id, and answers what
    the update answers. *)
Theorem post_is_read_or_changed_only_by_who_may
    {engine : TemplateEngine} {matcher : ConditionsMatcher}
    (guardNow serviceNow : Clock) (db : Database) (n : Z)
    (requestUser : option UserPayload) :
  (forall post,
     PostsController.findOne guardNow serviceNow db n requestUser = Completes post ->
     Prisma.findUnique (posts db) n = Some post
     /\ exists payload user ability,
          requestUser = Some payload
          /\ getUserWithPermissions (rolesNow serviceNow) (claimsNow serviceNow)
               (users db) (payload_id payload) = Some user
          /\ createAbility (Some user) = Returns ability
          /\ can ability read (newPost post) = Returns true)
  /\ (forall prismaUpdate updatePostDto result,
        PostsController.update guardNow serviceNow db prismaUpdate n updatePostDto
          requestUser
        = Completes result ->
        prismaUpdate n updatePostDto db = Completes result
        /\ exists payload post user ability,
             requestUser = Some payload
             /\ Prisma.findUnique (posts db) n = Some post
             /\ getUserWithPermissions (rolesNow serviceNow) (claimsNow serviceNow)
                  (users db) (payload_id payload) = Some user
             /\ createAbility (Some user) = Returns ability
             /\ can ability update (newPost post) = Returns true).
Proof.
  split.
  - intros post E. unfold PostsController.findOne in E.
    apply guarded_and_verified in E.
    destruct E as [E [payload [found [user [ability [-> [Hpost [Huser [Hab Hcan]]]]]]]]].
    unfold PostsService.findOne in E. rewrite Hpost in E. injection E as <-.
    split; [assumption |]. exists payload, user, ability. auto.
  - intros prismaUpdate updatePostDto result E.
    unfold PostsController.update in E. apply guarded_and_verified in E.
    destruct E as [E H]. split; [| exact H].
    destruct H as [payload [post [user [ability [_ [Hpost _]]]]]].
    unfold PostsService.update, PostsService.findOne in E.
    now rewrite Hpost in E.
Qed.

Lemma post_is_read_or_changed_only_by_who_may_witness :
  PostsController.findOne Scenario.clock Scenario.clock Scenario.database 3
    (Scenario.signedIn Scenario.admin)
  = Completes (Scenario.postOf 3 "Borrador de Editor" "Aún no publicado" 2 false)
  /\ Prisma.findUnique (posts Scenario.database) 3
     = Some (Scenario.postOf 3 "Borrador de Editor" "Aún no publicado" 2 false).
Proof.
  assert (H : PostsController.findOne Scenario.clock Scenario.clock
                Scenario.database 3 (Scenario.signedIn Scenario.admin)
              = Completes (Scenario.postOf 3 "Borrador de Editor"
                             "Aún no publicado" 2 false))
    by reflexivity.
  split; [exact H |].
  exact (proj1 (proj1 (post_is_read_or_changed_only_by_who_may _ _ _ _ _) _ H)).
Defined.

(** X18.  [GET posts] applies no condition.  A user whose permissions to
    read posts are all owner-conditioned grants passes the guard and
    receives the whole table, the posts of other authors included, each
    of which [GET posts/:id] refuses with the [ForbiddenException]. *)
Theorem list_of_posts_ignores_the_owner_condition
    (now : Clock) (db : Database) (userId : Z) (mail : string)
    (user : User) (ability : Ability) :
  (0 <= userId < 2 ^ 53)%Z ->
  getUserWithPermissions (rolesNow now) (claimsNow now) (users db) userId
  = Some user ->
  createAbility (Some user) = Returns ability ->
  (forall p, In p (rolePermissions user) -> speaksOf p read "Post" = true ->
             conditions p = ownResource) ->
  (forall dp, In dp (directPermissions user) ->
              speaksOf (permission dp) read "Post" = true ->
              conditions (permission dp) = ownResource /\ inverted dp = false) ->
  (exists p, In p (rolePermissions user ++ map permission (grants user))
             /\ speaksOf p read "Post" = true) ->
  PostsController.findAll now db
    (Some {| payload_id := userId; payload_email := mail |})
  = Completes (posts db)
  /\ (forall n post,
        Prisma.findUnique (posts db) n = Some post ->
        authorId post <> userId ->
        PostsController.findOne now now db n
          (Some {| payload_id := userId; payload_email := mail |})
        = Raises (Nest.ForbiddenException
                    (Nest.Body (PermissionService.denied read post user)))).
Proof.
  intros Hid Huser Hab Hroles Hclaims Hsome.
  destruct (getUserWithPermissions_id _ _ _ _ _ Huser) as [Hu _].
  rewrite <- Hu in Hid.
  destruct (owner_candidates user ability read Hid Hab Hroles Hclaims Hsome)
    as [Hall Hne].
  assert (Hguard : PoliciesGuard.canActivate now db (CheckPolicies read "Post")
                     (Some {| payload_id := userId; payload_email := mail |})
                   = Completes true).
  { unfold PoliciesGuard.canActivate, CheckPolicies. simpl.
    rewrite Huser, Hab. simpl.
    now rewrite (owner_can_on_type user ability read Hall Hne). }
  split.
  - unfold PostsController.findAll, Nest.UseGuards. now rewrite Hguard.
  - intros n post Hpost Hforeign.
    pose proof (owner_can user ability read post Hall Hne) as Hcan.
    unfold PostsController.findOne, Nest.UseGuards. rewrite Hguard. simpl.
    unfold AuthorizationService.verifyPostAccess.
    rewrite Hpost, Huser, Hab. simpl. rewrite Hcan, Hu.
    apply Z.eqb_neq in Hforeign. now rewrite Hforeign.
Qed.

Lemma list_of_posts_ignores_the_owner_condition_witness :
  PostsController.findAll Scenario.clock Scenario.database
    (Scenario.signedIn Scenario.reader)
  = Completes (posts Scenario.database)
  /\ PostsController.findOne Scenario.clock Scenario.clock Scenario.database 1
       (Scenario.signedIn Scenario.reader)
     = Raises (Nest.ForbiddenException
                 (Nest.Body (PermissionService.denied read
                               (Scenario.postOf 1 "Post de Admin"
                                  "Contenido del admin" 1 true)
                               Scenario.reader))).
Proof.
  assert (H := list_of_posts_ignores_the_owner_condition
                 Scenario.clock Scenario.database 14 "reader@test.com"
                 Scenario.reader
                 {| rules := [ {| rule_action := read; rule_subject := "Post";
                                  rule_conditions :=
                                    Some (JObj [("authorId", JNum (Int 14))]);
                                  rule_inverted := false;
                                  rule_reason := None |} ] |}).
  destruct H as [Hall Hone].
  - split; [discriminate | reflexivity].
  - reflexivity.
  - reflexivity.
  - intros p [<- | []] _. reflexivity.
  - intros dp [].
  - exists (Sample.perm read "Post" ownResource). split; [left |]; reflexivity.
  - split; [exact Hall |]. apply (Hone 1%Z); [reflexivity | discriminate].
Defined.

Lemma setProperty_sets (key : string) (value : Attr) (props : list (string * Attr))
    (k : string) :
  getProperty k (setProperty key value props)
  = if String.eqb key k then Some value else getProperty k props.
Proof.
  induction props as [| [k0 v0] props IH]; simpl.
  - reflexivity.
  - destruct (String.eqb k0 key) eqn:Hk0; simpl.
    + apply String.eqb_eq in Hk0. subst k0.
      now destruct (String.eqb key k).
    + rewrite IH. destruct (String.eqb k0 k) eqn:Hk; [| reflexivity].
      apply String.eqb_eq in Hk. subst k0.
      rewrite String.eqb_sym in Hk0. now rewrite Hk0.
Qed.

(** X19.  [POST posts] hands [prisma.post.create] the body of the
    request with [authorId] set to the id of the signed-in user, whatever
    [authorId] the body carried, every other property as it came; and only
    for a user whom the guard let through. *)
Theorem created_post_belongs_to_the_requester
    {engine : TemplateEngine} {matcher : ConditionsMatcher}
    (guardNow : Clock) (db : Database)
    (prismaCreate : list (string * Attr) -> Database -> Completion (Post * Database))
    (createPostDto : list (string * Attr)) (requestUser : option UserPayload)
    (result : Post * Database) :
  PostsController.create guardNow db prismaCreate createPostDto requestUser
  = Completes result ->
  exists payload data,
    requestUser = Some payload
    /\ PoliciesGuard.canActivate guardNow db (CheckPolicies create "Post")
         requestUser = Completes true
    /\ prismaCreate data db = Completes result
    /\ getProperty "authorId" data = Some (ANum (Int (payload_id payload)))
    /\ forall key, key <> "authorId" ->
         getProperty key data = getProperty key createPostDto.
Proof.
  unfold PostsController.create, Nest.UseGuards. intro E.
  invert_andThen E as activated Eguard E.
  destruct activated; [| discriminate].
  destruct requestUser as [payload |]; simpl in E; [| discriminate].
  exists payload. eexists. split; [reflexivity |]. split; [exact Eguard |].
  split; [exact E |]. split.
  - now rewrite setProperty_sets, String.eqb_refl.
  - intros key Hkey. rewrite setProperty_sets.
    destruct (String.eqb_spec "authorId" key); [congruence | reflexivity].
Qed.

Lemma created_post_belongs_to_the_requester_witness :
  PostsController.create Scenario.clock Scenario.database
    (fun data db =>
       match getProperty "authorId" data with
       | Some (ANum (Int author)) =>
           Completes (Scenario.postOf 5 "Nuevo" "Texto" author false, db)
       | _ => Raises PrismaClientValidationError
       end)
    [("title", AStr "Nuevo"); ("authorId", ANum (Int 1)); ("content", AStr "Texto")]
    (Scenario.signedIn Sample.editor)
  = Completes (Scenario.postOf 5 "Nuevo" "Texto" 2 false, Scenario.database)
  /\ exists payload data,
       Scenario.signedIn Sample.editor = Some payload
       /\ PoliciesGuard.canActivate Scenario.clock Scenario.database
            (CheckPolicies create "Post") (Scenario.signedIn Sample.editor)
          = Completes true
       /\ match getProperty "authorId" data with
          | Some (ANum (Int author)) =>
              Completes (Scenario.postOf 5 "Nuevo" "Texto" author false,
                         Scenario.database)
          | _ => Raises PrismaClientValidationError
          end
          = Completes (Scenario.postOf 5 "Nuevo" "Texto" 2 false, Scenario.database)
       /\ getProperty "authorId" data = Some (ANum (Int (payload_id payload)))
       /\ forall key, key <> "authorId" ->
            getProperty key data
            = getProperty key
                [("title", AStr "Nuevo"); ("authorId", ANum (Int 1));
                 ("content", AStr "Texto")].
Proof.
  split; [reflexivity |].
  exact (created_post_belongs_to_the_requester
           Scenario.clock Scenario.database
           (fun data db =>
              match getProperty "authorId" data with
              | Some (ANum (Int author)) =>
                  Completes (Scenario.postOf 5 "Nuevo" "Texto" author false, db)
              | _ => Raises PrismaClientValidationError
              end)
           [("title", AStr "Nuevo"); ("authorId", ANum (Int 1));
            ("content", AStr "Texto")]
           (Scenario.signedIn Sample.editor) _ eq_refl).
Defined.

(** ** Soft deletion *)

Lemma find_map {A : Type} (f : A -> bool) (g : A -> A) (l : list A) :
  (forall x, f (g x) = f x) -> find f (map g l) = option_map g (find f l).
Proof.
  intro H. induction l as [| x l IH]; simpl; [reflexivity |].
  rewrite H. destruct (f x); [reflexivity | assumption].
Qed.

Lemma withoutPassword_hides (props : list (string * Attr)) (key : string) :
  getProperty key (UsersService.withoutPassword props)
  = if String.eqb key "password" then None else getProperty key props.
Proof.
  induction props as [| [k v] props IH]; simpl.
  - now destruct (String.eqb key "password").
  - destruct (String.eqb k "password") eqn:Hk; simpl; rewrite IH.
    + apply String.eqb_eq in Hk. subst k.
      rewrite (String.eqb_sym "password" key).
      now destruct (String.eqb key "password").
    + destruct (String.eqb k key) eqn:Hkey; [| reflexivity].
      apply String.eqb_eq in Hkey. subst key. now rewrite Hk.
Qed.

(** X20.  After [UsersService.remove(id)] the user passes no guard,
    whatever the policies; every other user is loaded as before;
    [findOne(id)] still returns the row; and the row returned has no
    password and has [deletedAt] set. *)
Theorem removed_user_is_locked_out
    {engine : TemplateEngine}
    (instant : Timestamp) (db : Database) (userId : Z) (mail : string)
    (row : list (string * Attr)) (table' : list User) :
  UsersService.remove instant (users db) userId = Completes (row, table') ->
  (forall now metadata,
     PoliciesGuard.canActivate now {| users := table'; posts := posts db |}
       metadata (Some {| payload_id := userId; payload_email := mail |})
     = Completes false)
  /\ (forall nowRoles nowClaims other,
        other <> userId ->
        getUserWithPermissions nowRoles nowClaims table' other
        = getUserWithPermissions nowRoles nowClaims (users db) other)
  /\ UsersService.findOne table' userId = Some row
  /\ getProperty "password" row = None
  /\ getProperty "id" row = Some (ANum (Int userId))
  /\ getProperty "deletedAt" row = Some AOther.
Proof.
  unfold UsersService.remove.
  destruct (find (fun u => (id u =? userId)%Z) (users db)) as [user |] eqn:F;
    [| discriminate].
  intro E. injection E as <- <-.
  pose proof F as Hfound. apply find_some in Hfound. destruct Hfound as [_ Hid].
  apply Z.eqb_eq in Hid.
  set (mark := fun u => if (id u =? userId)%Z
                        then UsersService.markDeleted instant u else u).
  assert (Hmark : forall x, id (mark x) = id x).
  { intro x. unfold mark. now destruct (id x =? userId)%Z. }
  split; [| split; [| split; [| split; [| split]]]].
  - intros now metadata. unfold PoliciesGuard.canActivate. simpl.
    rewrite getUserWithPermissions_none; [reflexivity |].
    intros x Hx Hxid. right. apply in_map_iff in Hx. destruct Hx as [y [<- Hy]].
    fold (mark y) in Hxid |- *. rewrite Hmark in Hxid. unfold mark.
    apply Z.eqb_eq in Hxid. rewrite Hxid. discriminate.
  - intros nowRoles nowClaims other Hother. unfold getUserWithPermissions.
    fold mark. rewrite find_map.
    + match goal with
      | |- context [option_map mark ?o] => destruct o as [y |] eqn:Fy
      end; simpl; [| reflexivity].
      apply find_some in Fy. destruct Fy as [_ Fy].
      apply andb_true_iff in Fy. destruct Fy as [Fy _].
      apply andb_true_iff in Fy. destruct Fy as [Fy _]. apply Z.eqb_eq in Fy.
      unfold mark. replace (id y =? userId)%Z with false; [reflexivity |].
      symmetry. apply Z.eqb_neq. lia.
    + intro x. rewrite Hmark. unfold mark.
      destruct (Z.eqb_spec (id x) userId) as [Hx | Hx]; [| reflexivity].
      replace (id x =? other)%Z with false; [reflexivity |].
      symmetry. apply Z.eqb_neq. lia.
  - unfold UsersService.findOne. fold mark. rewrite find_map.
    + rewrite F. simpl. unfold mark.
      apply Z.eqb_eq in Hid. now rewrite Hid.
    + intro x. now rewrite Hmark.
  - simpl. now rewrite withoutPassword_hides.
  - simpl. now rewrite Hid.
  - reflexivity.
Qed.

Lemma removed_user_is_locked_out_witness :
  PoliciesGuard.canActivate Scenario.clock
    {| users := map (fun u => if (id u =? 2)%Z
                              then UsersService.markDeleted Sample.today u else u)
                  (users Scenario.database);
       posts := posts Scenario.database |}
    (CheckPolicies create "Post") (Scenario.signedIn Sample.editor)
  = Completes false
  /\ PoliciesGuard.canActivate Scenario.clock Scenario.database
       (CheckPolicies create "Post") (Scenario.signedIn Sample.editor)
     = Completes true.
Proof.
  split; [| reflexivity].
  exact (proj1 (removed_user_is_locked_out Sample.today Scenario.database 2
                  "editor.simple@test.com" _ _ eq_refl)
           Scenario.clock (CheckPolicies create "Post")).
Defined.



(** ** Placeholders for strings *)

(** X22.  The placeholder [{{email}}] resolves to the email as Mustache
    escapes it for HTML, so a condition on it matches a resource that
    holds the user's email only when the escaping leaves the email as it
    is (and the escaped text is not made of digits only). *)
Theorem email_placeholder_is_html_escaped (u : User) (key : string) :
  @parseConditions Mustache_engine (JObj [(key, JStr "{{email}}")]) u
  = Returns (Some (JObj [(key, coerce (Mustache.escapeHtml (email u)))]))
  /\ (MongoQuery.plainField key = true ->
      MongoQuery.matcher (JObj [(key, coerce (Mustache.escapeHtml (email u)))])
        [(key, AStr (email u))]
      = Returns (String.eqb (email u) (Mustache.escapeHtml (email u))
                 && negb (allDigits (Mustache.escapeHtml (email u))))).
Proof.
  split.
  - unfold parseConditions. simpl.
    unfold renderLeaf, render, Mustache_engine.
    change (Mustache.render "{{email}}" u)
      with (Returns (Mustache.escapeHtml (email u) ++ "")%string).
    simpl. rewrite append_empty. unfold coerce.
    destruct (allDigits (Mustache.escapeHtml (email u)));
      rewrite Object_entries_singleton; reflexivity.
  - intro Hkey. unfold MongoQuery.matcher, MongoQuery.parse, coerce.
    destruct (allDigits (Mustache.escapeHtml (email u))); simpl;
      rewrite Hkey; simpl; rewrite String.eqb_refl; simpl.
    + now rewrite andb_false_r.
    + rewrite andb_true_r.
      now destruct (String.eqb (email u) (Mustache.escapeHtml (email u))).
Qed.

Lemma email_placeholder_is_html_escaped_witness :
  MongoQuery.plainField "email" = true
  /\ MongoQuery.matcher
       (JObj [("email",
               coerce (Mustache.escapeHtml
                         (email (Sample.userOf 15 "o'brien@test.com" [] []))))])
       [("email", AStr (email (Sample.userOf 15 "o'brien@test.com" [] [])))]
     = Returns false.
Proof.
  split; [reflexivity |].
  exact (proj2 (email_placeholder_is_html_escaped
                  (Sample.userOf 15 "o'brien@test.com" [] []) "email")
           eq_refl).
Defined.
